(** * EDI 837P segment assembly (EDIService.py): model and properties

    A shallow embedding of the [EDI837Builder] class of [EDIService.py]:
    the claim record store filled by the [add_*] methods, the provider
    registry [provider_map], the segment formatters and [build()].

    Conventions of the embedding
    - a Python [str] is a [string]; an [Optional[str]] is a [pyval];
    - a [Dict[str, str]] received from the caller (addresses, contact
      information, diagnosis codes) is a [gmap string string], and [d[k]] on a
      missing key raises [KeyError];
    - the dictionaries the builder creates itself have a fixed set of keys and
      are records; [entity_get] gives the [dict.get] view that
      [_create_name_segment] takes of them;
    - an attribute that [__init__] does not create ([payer_info],
      [service_facility], [prior_authorization], [claim_information]) is an
      [option]: [None] means that [hasattr] is false, and reading it raises
      [AttributeError];
    - a method that reads or updates [self] is a computation in the monad [M],
      which threads the builder and an exception result; the state reached
      when an exception is raised is kept, as in Python. *)

From Stdlib Require Import ZArith String Ascii List Lia Bool.
From stdpp Require Import base option list strings gmap pretty.

Open Scope string_scope.
Open Scope list_scope.

#[local] Arguments String.append !s1 s2 : simpl nomatch.

(** ** Python values *)

(** [Optional[str]]. *)
Inductive pyval :=
| PStr (s : string)
| PNone.

(** What an f-string renders for the value. *)
Definition fmt (v : pyval) : string :=
  match v with
  | PStr s => s
  | PNone => "None"
  end.

(** Truth value, as tested by [if v:] and [not v]. *)
Definition truthy (v : pyval) : bool :=
  match v with
  | PStr s => negb (String.eqb s "")
  | PNone => false
  end.

Abbreviation dict := (gmap string string).

(** [d.get(k, "")]. *)
Definition dict_get (d : dict) (k : string) : string :=
  match d !! k with
  | Some v => v
  | None => ""
  end.

(** Exceptions that the modelled methods can raise. *)
Inductive exn :=
| AttributeError (attr : string)
| KeyError (key : string)
| IndexError
| TypeError.

Inductive result (A : Type) :=
| Ok (a : A)
| Raise (e : exn).
Arguments Ok {A} a.
Arguments Raise {A} e.

(** [d[k]]. *)
Definition subscript (d : dict) (k : string) : result string :=
  match d !! k with
  | Some v => Ok v
  | None => Raise (KeyError k)
  end.

(** [l[i]] for an index produced by [enumerate]. *)
Definition index {A} (l : list A) (i : nat) : result A :=
  match l !! i with
  | Some x => Ok x
  | None => Raise IndexError
  end.

(** *** Floats

    The charge amounts are Python floats, and [build()] only ever formats
    them: [f"{x}"] is [float.__repr__].  CPython first computes the shortest
    string of decimal digits that reads back as the same float, together with
    the position of the decimal point, and then lays the digits out.  A float
    is modelled by what the first step gives: its sign, the digits
    [d1 d2 ... dn] (as the number that they write) and the position [decpt] of
    the point, the float being [0.d1 d2 ... dn * 10 ^ decpt]; the zeros, the
    infinities and NaN have no digits.  So [150.00] has the digits [15] and
    [decpt = 3], and [1e16] the digit [1] and [decpt = 17].  (The digits of a
    float are at most 17 and do not end in 0; the layout below is defined for
    any digits, and nothing depends on more.) *)
Inductive pyfloat :=
| FFinite (negative : bool) (digits : positive) (decpt : Z)
| FZero (negative : bool)
| FInf (negative : bool)
| FNan.

Fixpoint zeros (n : nat) : string :=
  match n with
  | O => ""
  | S n' => String "0" (zeros n')
  end.

(** The exponent of the scientific notation: a sign and two digits at
    least. *)
Definition exponent_str (e : Z) : string :=
  let es := pretty (Z.abs e) in
  (if (e <? 0)%Z then "-" else "+")
  +:+ (if (String.length es <? 2)%nat then "0" +:+ es else es).

(** The layout of [float.__repr__]: scientific notation when
    [decpt <= -4] or [decpt > 16], a plain decimal with at least one
    fractional digit otherwise. *)
Definition float_str (x : pyfloat) : string :=
  match x with
  | FNan => "nan"
  | FInf negative => (if negative then "-" else "") +:+ "inf"
  | FZero negative => (if negative then "-" else "") +:+ "0.0"
  | FFinite negative digits decpt =>
      let ds := pretty digits in
      let n := String.length ds in
      (if negative then "-" else "") +:+
      (if (decpt <=? -4)%Z || (16 <? decpt)%Z then
         substring 0 1 ds
         +:+ (if (1 <? n)%nat then "." +:+ substring 1 (n - 1) ds else "")
         +:+ "e" +:+ exponent_str (decpt - 1)
       else if (decpt <=? 0)%Z then "0." +:+ zeros (Z.to_nat (- decpt)) +:+ ds
       else if (Z.of_nat n <=? decpt)%Z
            then ds +:+ zeros (Z.to_nat (decpt - Z.of_nat n)) +:+ ".0"
            else substring 0 (Z.to_nat decpt) ds +:+ "."
                 +:+ substring (Z.to_nat decpt) (n - Z.to_nat decpt) ds)
  end.

(** ** Enumerations *)

Module SegmentHeader.
Definition InterchangeControl := "ISA".
Definition FunctionalGroup := "GS".
Definition TransactionSetHeader := "ST".
Definition BeginningHierarchicalTransaction := "BHT".
Definition HierarchicalLevel := "HL".
Definition Provider := "PRV".
Definition Name := "NM1".
Definition ContactInformation := "PER".
Definition AddressLine1 := "N3".
Definition CityStatePostalCode := "N4".
Definition SubscriberInformation := "SBR".
Definition Reference := "REF".
Definition DateTimePeriod := "DTP".
Definition Demographics := "DMG".
Definition ServiceLine := "SV1".
Definition ServiceLineNumber := "LX".
Definition Claim := "CLM".
Definition HealthCareInformation := "HI".
Definition TransactionSetTrailer := "SE".
Definition FunctionalGroupTrailer := "GE".
Definition InterchangeControlTrailer := "IEA".
Definition Payer := "PR".
End SegmentHeader.

Module ProviderType.
Definition Billing := "BI".
Definition Performing := "PE".
End ProviderType.

Module RelationshipToSubscriber.
Definition Self := "18".
Definition Spouse := "01".
Definition Child := "19".
Definition Other := "21".
End RelationshipToSubscriber.

Module EntityIdentifierCode.
Definition Submitter := "41".
Definition Receiver := "40".
Definition BillingProvider := "85".
Definition Subscriber := "IL".
Definition Patient := "QC".
End EntityIdentifierCode.

Module ReferenceIdentificationQualifier.
Definition TaxonomyCode := "PXC".
Definition NationalProviderIdentifier := "XX".
Definition MemberId := "MI".
Definition EmployerIdentificationNumber := "EI".
End ReferenceIdentificationQualifier.

Inductive ClaimFilingIndicatorCode :=
| BlueCrossBlueShield
| Medicaid
| Medicare
| Commercial
| Unknown.

Definition ClaimFilingIndicatorCode_value (c : ClaimFilingIndicatorCode) : string :=
  match c with
  | BlueCrossBlueShield => "BL"
  | Medicaid => "MC"
  | Medicare => "MB"
  | Commercial => "CI"
  | Unknown => "ZZ"
  end.

Inductive PaymentResponsibilityLevelCode :=
| Primary
| Secondary
| Tertiary.

Definition PaymentResponsibilityLevelCode_value (c : PaymentResponsibilityLevelCode) : string :=
  match c with
  | Primary => "P"
  | Secondary => "S"
  | Tertiary => "T"
  end.

(** ** The claim record store *)

(** [organizationName] is a key of a billing provider exactly when
    [add_billing_provider] received a non-empty organization name; otherwise
    [lastName] and [firstName] are keys, with whatever was passed
    (possibly [None]). *)
Inductive provider_name :=
| Organization (organizationName : string)
| Individual (lastName firstName : pyval).

Record BillingProvider := {
  bp_npi : string;
  bp_taxonomyCode : string;
  bp_employerId : string;
  bp_address : dict;
  bp_name : provider_name;
  bp_contactInfo : option dict
}.

Record Subscriber := {
  sub_memberId : string;
  sub_lastName : string;
  sub_firstName : string;
  sub_address : dict;
  sub_birthDate : string;
  sub_gender : string;
  sub_billingProviderIndex : Z;
  sub_paymentResponsibilityLevelCode : PaymentResponsibilityLevelCode;
  sub_claimFilingCode : ClaimFilingIndicatorCode;
  sub_is_dependent : bool;
  sub_relationship_to_subscriber : string
}.

Record RenderingProvider := {
  rp_npi : string;
  rp_lastName : string;
  rp_firstName : string;
  rp_taxonomyCode : string;
  rp_employerId : string
}.

Record ServiceFacility := {
  sf_npi : string;
  sf_organizationName : string;
  sf_address : dict
}.

Record Payer := {
  payer_organizationName : string;
  payer_payerId : string
}.

Record ClaimInformation := {
  claim_subscriberIndex : Z;
  claim_patientControlNumber : string;
  claim_claimChargeAmount : pyfloat;
  claim_placeOfServiceCode : string;
  claim_claimFrequencyCode : string;
  claim_signatureIndicator : string;
  claim_planParticipationCode : string;
  claim_releaseInfoCode : string;
  claim_benefitsAssignment : string;
  claim_diagnosisCodes : list dict
}.

Record ServiceLine := {
  sl_subscriberIndex : Z;
  sl_patientIndex : option Z;
  sl_procedureCode : string;
  sl_modifierCodes : list string;
  sl_chargeAmount : pyfloat;
  sl_units : Z;
  sl_serviceDate : string;
  sl_renderingProviderIndex : option Z
}.

(** The [entity_data] dictionaries handed to [_create_name_segment]. *)
Inductive entity :=
| EBilling (p : BillingProvider)
| ESubscriber (s : Subscriber)
| ERendering (r : RenderingProvider)
| EFacility (f : ServiceFacility).

(** [entity_data.get(key)] on the string-valued keys; [None] when the key is
    not in the dictionary. *)
Definition entity_get (e : entity) (key : string) : option pyval :=
  match e with
  | EBilling p =>
      if String.eqb key "npi" then Some (PStr (bp_npi p))
      else if String.eqb key "taxonomyCode" then Some (PStr (bp_taxonomyCode p))
      else if String.eqb key "employerId" then Some (PStr (bp_employerId p))
      else match bp_name p with
           | Organization o =>
               if String.eqb key "organizationName" then Some (PStr o) else None
           | Individual l f =>
               if String.eqb key "lastName" then Some l
               else if String.eqb key "firstName" then Some f
               else None
           end
  | ESubscriber s =>
      if String.eqb key "memberId" then Some (PStr (sub_memberId s))
      else if String.eqb key "lastName" then Some (PStr (sub_lastName s))
      else if String.eqb key "firstName" then Some (PStr (sub_firstName s))
      else if String.eqb key "birthDate" then Some (PStr (sub_birthDate s))
      else if String.eqb key "gender" then Some (PStr (sub_gender s))
      else if String.eqb key "paymentResponsibilityLevelCode"
      then Some (PStr (PaymentResponsibilityLevelCode_value
                         (sub_paymentResponsibilityLevelCode s)))
      else if String.eqb key "claimFilingCode"
      then Some (PStr (ClaimFilingIndicatorCode_value (sub_claimFilingCode s)))
      else if String.eqb key "relationship_to_subscriber"
      then Some (PStr (sub_relationship_to_subscriber s))
      else None
  | ERendering r =>
      if String.eqb key "npi" then Some (PStr (rp_npi r))
      else if String.eqb key "lastName" then Some (PStr (rp_lastName r))
      else if String.eqb key "firstName" then Some (PStr (rp_firstName r))
      else if String.eqb key "taxonomyCode" then Some (PStr (rp_taxonomyCode r))
      else if String.eqb key "employerId" then Some (PStr (rp_employerId r))
      else None
  | EFacility f =>
      if String.eqb key "npi" then Some (PStr (sf_npi f))
      else if String.eqb key "organizationName" then Some (PStr (sf_organizationName f))
      else None
  end.

(** [entity_data.get(key, "")]. *)
Definition entity_get_default (e : entity) (key : string) : pyval :=
  match entity_get e key with
  | Some v => v
  | None => PStr ""
  end.

(** [key in entity_data], for the string-valued keys. *)
Definition entity_has (e : entity) (key : string) : bool :=
  match entity_get e key with
  | Some _ => true
  | None => false
  end.

(** The attributes of an [EDI837Builder] instance. *)
Record EDI837Builder := {
  version : string;
  segment_terminator : string;
  element_separator : string;
  sub_element_separator : string;
  submitter : option dict;
  billing_providers : list BillingProvider;
  subscribers : list Subscriber;
  patients : list Subscriber;
  service_lines : list ServiceLine;
  rendering_providers : list RenderingProvider;
  hl_count : Z;
  contact_info_map : gmap string string;
  segment_count : Z;
  provider_map : gmap string entity;
  has_dependents : bool;
  payer_info : option Payer;
  service_facility : option ServiceFacility;
  prior_authorization : option string;
  claim_information : option ClaimInformation
}.

(** [EDI837Builder(version)]. *)
Definition __init__ (version : string) : EDI837Builder := {|
  version := version;
  segment_terminator := "~";
  element_separator := "*";
  sub_element_separator := ">";
  submitter := Some ∅;
  billing_providers := [];
  subscribers := [];
  patients := [];
  service_lines := [];
  rendering_providers := [];
  hl_count := 0;
  contact_info_map := ∅;
  segment_count := 1;
  provider_map := ∅;
  has_dependents := false;
  payer_info := None;
  service_facility := None;
  prior_authorization := None;
  claim_information := None
|}.

Definition default_version : string := "005010X222A1".

(** Attribute assignment [self.f = v]. *)

Definition set_submitter (v : option dict) (self : EDI837Builder) : EDI837Builder := {|
  version := version self;
  segment_terminator := segment_terminator self;
  element_separator := element_separator self;
  sub_element_separator := sub_element_separator self;
  submitter := v;
  billing_providers := billing_providers self;
  subscribers := subscribers self;
  patients := patients self;
  service_lines := service_lines self;
  rendering_providers := rendering_providers self;
  hl_count := hl_count self;
  contact_info_map := contact_info_map self;
  segment_count := segment_count self;
  provider_map := provider_map self;
  has_dependents := has_dependents self;
  payer_info := payer_info self;
  service_facility := service_facility self;
  prior_authorization := prior_authorization self;
  claim_information := claim_information self
|}.

Definition set_billing_providers (v : list BillingProvider) (self : EDI837Builder) : EDI837Builder := {|
  version := version self;
  segment_terminator := segment_terminator self;
  element_separator := element_separator self;
  sub_element_separator := sub_element_separator self;
  submitter := submitter self;
  billing_providers := v;
  subscribers := subscribers self;
  patients := patients self;
  service_lines := service_lines self;
  rendering_providers := rendering_providers self;
  hl_count := hl_count self;
  contact_info_map := contact_info_map self;
  segment_count := segment_count self;
  provider_map := provider_map self;
  has_dependents := has_dependents self;
  payer_info := payer_info self;
  service_facility := service_facility self;
  prior_authorization := prior_authorization self;
  claim_information := claim_information self
|}.

Definition set_subscribers (v : list Subscriber) (self : EDI837Builder) : EDI837Builder := {|
  version := version self;
  segment_terminator := segment_terminator self;
  element_separator := element_separator self;
  sub_element_separator := sub_element_separator self;
  submitter := submitter self;
  billing_providers := billing_providers self;
  subscribers := v;
  patients := patients self;
  service_lines := service_lines self;
  rendering_providers := rendering_providers self;
  hl_count := hl_count self;
  contact_info_map := contact_info_map self;
  segment_count := segment_count self;
  provider_map := provider_map self;
  has_dependents := has_dependents self;
  payer_info := payer_info self;
  service_facility := service_facility self;
  prior_authorization := prior_authorization self;
  claim_information := claim_information self
|}.

Definition set_service_lines (v : list ServiceLine) (self : EDI837Builder) : EDI837Builder := {|
  version := version self;
  segment_terminator := segment_terminator self;
  element_separator := element_separator self;
  sub_element_separator := sub_element_separator self;
  submitter := submitter self;
  billing_providers := billing_providers self;
  subscribers := subscribers self;
  patients := patients self;
  service_lines := v;
  rendering_providers := rendering_providers self;
  hl_count := hl_count self;
  contact_info_map := contact_info_map self;
  segment_count := segment_count self;
  provider_map := provider_map self;
  has_dependents := has_dependents self;
  payer_info := payer_info self;
  service_facility := service_facility self;
  prior_authorization := prior_authorization self;
  claim_information := claim_information self
|}.

Definition set_rendering_providers (v : list RenderingProvider) (self : EDI837Builder) : EDI837Builder := {|
  version := version self;
  segment_terminator := segment_terminator self;
  element_separator := element_separator self;
  sub_element_separator := sub_element_separator self;
  submitter := submitter self;
  billing_providers := billing_providers self;
  subscribers := subscribers self;
  patients := patients self;
  service_lines := service_lines self;
  rendering_providers := v;
  hl_count := hl_count self;
  contact_info_map := contact_info_map self;
  segment_count := segment_count self;
  provider_map := provider_map self;
  has_dependents := has_dependents self;
  payer_info := payer_info self;
  service_facility := service_facility self;
  prior_authorization := prior_authorization self;
  claim_information := claim_information self
|}.

Definition set_contact_info_map (v : gmap string string) (self : EDI837Builder) : EDI837Builder := {|
  version := version self;
  segment_terminator := segment_terminator self;
  element_separator := element_separator self;
  sub_element_separator := sub_element_separator self;
  submitter := submitter self;
  billing_providers := billing_providers self;
  subscribers := subscribers self;
  patients := patients self;
  service_lines := service_lines self;
  rendering_providers := rendering_providers self;
  hl_count := hl_count self;
  contact_info_map := v;
  segment_count := segment_count self;
  provider_map := provider_map self;
  has_dependents := has_dependents self;
  payer_info := payer_info self;
  service_facility := service_facility self;
  prior_authorization := prior_authorization self;
  claim_information := claim_information self
|}.

Definition set_provider_map (v : gmap string entity) (self : EDI837Builder) : EDI837Builder := {|
  version := version self;
  segment_terminator := segment_terminator self;
  element_separator := element_separator self;
  sub_element_separator := sub_element_separator self;
  submitter := submitter self;
  billing_providers := billing_providers self;
  subscribers := subscribers self;
  patients := patients self;
  service_lines := service_lines self;
  rendering_providers := rendering_providers self;
  hl_count := hl_count self;
  contact_info_map := contact_info_map self;
  segment_count := segment_count self;
  provider_map := v;
  has_dependents := has_dependents self;
  payer_info := payer_info self;
  service_facility := service_facility self;
  prior_authorization := prior_authorization self;
  claim_information := claim_information self
|}.

Definition set_has_dependents (v : bool) (self : EDI837Builder) : EDI837Builder := {|
  version := version self;
  segment_terminator := segment_terminator self;
  element_separator := element_separator self;
  sub_element_separator := sub_element_separator self;
  submitter := submitter self;
  billing_providers := billing_providers self;
  subscribers := subscribers self;
  patients := patients self;
  service_lines := service_lines self;
  rendering_providers := rendering_providers self;
  hl_count := hl_count self;
  contact_info_map := contact_info_map self;
  segment_count := segment_count self;
  provider_map := provider_map self;
  has_dependents := v;
  payer_info := payer_info self;
  service_facility := service_facility self;
  prior_authorization := prior_authorization self;
  claim_information := claim_information self
|}.

Definition set_payer_info (v : option Payer) (self : EDI837Builder) : EDI837Builder := {|
  version := version self;
  segment_terminator := segment_terminator self;
  element_separator := element_separator self;
  sub_element_separator := sub_element_separator self;
  submitter := submitter self;
  billing_providers := billing_providers self;
  subscribers := subscribers self;
  patients := patients self;
  service_lines := service_lines self;
  rendering_providers := rendering_providers self;
  hl_count := hl_count self;
  contact_info_map := contact_info_map self;
  segment_count := segment_count self;
  provider_map := provider_map self;
  has_dependents := has_dependents self;
  payer_info := v;
  service_facility := service_facility self;
  prior_authorization := prior_authorization self;
  claim_information := claim_information self
|}.

Definition set_service_facility (v : option ServiceFacility) (self : EDI837Builder) : EDI837Builder := {|
  version := version self;
  segment_terminator := segment_terminator self;
  element_separator := element_separator self;
  sub_element_separator := sub_element_separator self;
  submitter := submitter self;
  billing_providers := billing_providers self;
  subscribers := subscribers self;
  patients := patients self;
  service_lines := service_lines self;
  rendering_providers := rendering_providers self;
  hl_count := hl_count self;
  contact_info_map := contact_info_map self;
  segment_count := segment_count self;
  provider_map := provider_map self;
  has_dependents := has_dependents self;
  payer_info := payer_info self;
  service_facility := v;
  prior_authorization := prior_authorization self;
  claim_information := claim_information self
|}.

Definition set_prior_authorization (v : option string) (self : EDI837Builder) : EDI837Builder := {|
  version := version self;
  segment_terminator := segment_terminator self;
  element_separator := element_separator self;
  sub_element_separator := sub_element_separator self;
  submitter := submitter self;
  billing_providers := billing_providers self;
  subscribers := subscribers self;
  patients := patients self;
  service_lines := service_lines self;
  rendering_providers := rendering_providers self;
  hl_count := hl_count self;
  contact_info_map := contact_info_map self;
  segment_count := segment_count self;
  provider_map := provider_map self;
  has_dependents := has_dependents self;
  payer_info := payer_info self;
  service_facility := service_facility self;
  prior_authorization := v;
  claim_information := claim_information self
|}.

Definition set_claim_information (v : option ClaimInformation) (self : EDI837Builder) : EDI837Builder := {|
  version := version self;
  segment_terminator := segment_terminator self;
  element_separator := element_separator self;
  sub_element_separator := sub_element_separator self;
  submitter := submitter self;
  billing_providers := billing_providers self;
  subscribers := subscribers self;
  patients := patients self;
  service_lines := service_lines self;
  rendering_providers := rendering_providers self;
  hl_count := hl_count self;
  contact_info_map := contact_info_map self;
  segment_count := segment_count self;
  provider_map := provider_map self;
  has_dependents := has_dependents self;
  payer_info := payer_info self;
  service_facility := service_facility self;
  prior_authorization := prior_authorization self;
  claim_information := v
|}.
(** ** The [add_*] methods *)

(** Truth value of an [Optional[Dict]]: neither [None] nor empty. *)
Definition dict_truthy (d : option dict) : bool :=
  match d with
  | Some d => negb (bool_decide (d = ∅))
  | None => false
  end.

(** The key under which a contact is remembered:
    [f"{name}_{phone_number})"]. *)
Definition contact_key (contactInfo : dict) : string :=
  dict_get contactInfo "name" +:+ "_" +:+ dict_get contactInfo "phoneNumber" +:+ ")".

(** [key in d]. *)
Definition has_key {V} (d : gmap string V) (k : string) : bool :=
  match d !! k with
  | Some _ => true
  | None => false
  end.

Definition add_billing_provider (self : EDI837Builder)
    (npi taxonomy_code employer_id : string) (address : dict)
    (organization_name last_name first_name : pyval)
    (contactInfo : option dict) : EDI837Builder * nat :=
  let name :=
    if truthy organization_name then Organization (fmt organization_name)
    else Individual last_name first_name in
  let fresh :=
    match contactInfo with
    | Some c =>
        dict_truthy contactInfo && negb (has_key (contact_info_map self) (contact_key c))
    | None => false
    end in
  let self :=
    match contactInfo with
    | Some c =>
        if fresh
        then set_contact_info_map (<[contact_key c := "billing"]> (contact_info_map self)) self
        else self
    | None => self
    end in
  let provider := {|
    bp_npi := npi;
    bp_taxonomyCode := taxonomy_code;
    bp_employerId := employer_id;
    bp_address := address;
    bp_name := name;
    bp_contactInfo := if fresh then contactInfo else None
  |} in
  let self := set_billing_providers (billing_providers self ++ [provider]) self in
  (self, length (billing_providers self) - 1).

Definition add_subscriber (self : EDI837Builder)
    (member_id last_name first_name : string) (address : dict)
    (birth_date gender : string) (billing_provider_index : Z)
    (payment_responsibility_code : PaymentResponsibilityLevelCode)
    (claim_filing_code : ClaimFilingIndicatorCode)
    (is_dependent : bool) (relationship_to_subscriber : string)
    : EDI837Builder * nat :=
  let self := if is_dependent then set_has_dependents true self else self in
  let subscriber := {|
    sub_memberId := member_id;
    sub_lastName := last_name;
    sub_firstName := first_name;
    sub_address := address;
    sub_birthDate := birth_date;
    sub_gender := gender;
    sub_billingProviderIndex := billing_provider_index;
    sub_paymentResponsibilityLevelCode := payment_responsibility_code;
    sub_claimFilingCode := claim_filing_code;
    sub_is_dependent := is_dependent;
    sub_relationship_to_subscriber := relationship_to_subscriber
  |} in
  let self := set_subscribers (subscribers self ++ [subscriber]) self in
  (self, length (subscribers self) - 1).

Definition add_submitter (self : EDI837Builder) (contactInfo : option dict)
    : EDI837Builder :=
  let self := set_submitter contactInfo self in
  match contactInfo with
  | Some c =>
      if dict_truthy contactInfo && negb (has_key (contact_info_map self) (contact_key c))
      then set_contact_info_map (<[contact_key c := "submitter"]> (contact_info_map self)) self
      else self
  | None => self
  end.

Definition add_payer (self : EDI837Builder) (subscriber_index : Z)
    (payer_name payer_id : string) : EDI837Builder :=
  set_payer_info
    (Some {| payer_organizationName := payer_name; payer_payerId := payer_id |}) self.

Definition add_service_facility_location (self : EDI837Builder)
    (npi organization_name : string) (address : dict) : EDI837Builder :=
  set_service_facility
    (Some {| sf_npi := npi; sf_organizationName := organization_name;
             sf_address := address |}) self.

Definition add_prior_authorization (self : EDI837Builder)
    (prior_auth_number : string) : EDI837Builder :=
  set_prior_authorization (Some prior_auth_number) self.

Definition add_claim_information (self : EDI837Builder)
    (subscriber_index : Z) (patient_control_number : string)
    (claim_charge_amount : pyfloat) (place_of_service_code : string)
    (claim_frequency_code signature_indicator plan_participation_code
     release_info_code benefits_assignment : string)
    (diagnosis_codes : option (list dict)) : EDI837Builder :=
  let claim_info := {|
    claim_subscriberIndex := subscriber_index;
    claim_patientControlNumber := patient_control_number;
    claim_claimChargeAmount := claim_charge_amount;
    claim_placeOfServiceCode := place_of_service_code;
    claim_claimFrequencyCode := claim_frequency_code;
    claim_signatureIndicator := signature_indicator;
    claim_planParticipationCode := plan_participation_code;
    claim_releaseInfoCode := release_info_code;
    claim_benefitsAssignment := benefits_assignment;
    claim_diagnosisCodes := match diagnosis_codes with Some l => l | None => [] end
  |} in
  set_claim_information (Some claim_info) self.

Definition add_service_line (self : EDI837Builder)
    (subscriber_index : Z) (patient_index : option Z) (procedure_code : string)
    (modifier_codes : list string) (charge_amount : pyfloat) (units : Z)
    (service_date : string) (rendering_provider_index : option Z)
    : EDI837Builder * nat :=
  let service_line := {|
    sl_subscriberIndex := subscriber_index;
    sl_patientIndex := patient_index;
    sl_procedureCode := procedure_code;
    sl_modifierCodes := modifier_codes;
    sl_chargeAmount := charge_amount;
    sl_units := units;
    sl_serviceDate := service_date;
    sl_renderingProviderIndex := rendering_provider_index
  |} in
  let self := set_service_lines (service_lines self ++ [service_line]) self in
  (self, length (service_lines self) - 1).

Definition add_rendering_provider (self : EDI837Builder)
    (npi taxonomy_code last_name first_name employer_id : string)
    : EDI837Builder * nat :=
  let provider := {|
    rp_npi := npi;
    rp_lastName := last_name;
    rp_firstName := first_name;
    rp_taxonomyCode := taxonomy_code;
    rp_employerId := employer_id
  |} in
  let self := set_rendering_providers (rendering_providers self ++ [provider]) self in
  (self, length (rendering_providers self) - 1).

(** A call of one of the [add_*] methods, with its arguments (the default
    values written out). *)
Inductive add_op :=
| AddBillingProvider (npi taxonomy_code employer_id : string) (address : dict)
    (organization_name last_name first_name : pyval) (contactInfo : option dict)
| AddSubscriber (member_id last_name first_name : string) (address : dict)
    (birth_date gender : string) (billing_provider_index : Z)
    (payment_responsibility_code : PaymentResponsibilityLevelCode)
    (claim_filing_code : ClaimFilingIndicatorCode)
    (is_dependent : bool) (relationship_to_subscriber : string)
| AddSubmitter (contactInfo : option dict)
| AddPayer (subscriber_index : Z) (payer_name payer_id : string)
| AddServiceFacilityLocation (npi organization_name : string) (address : dict)
| AddPriorAuthorization (prior_auth_number : string)
| AddClaimInformation (subscriber_index : Z) (patient_control_number : string)
    (claim_charge_amount : pyfloat) (place_of_service_code : string)
    (claim_frequency_code signature_indicator plan_participation_code
     release_info_code benefits_assignment : string)
    (diagnosis_codes : option (list dict))
| AddServiceLine (subscriber_index : Z) (patient_index : option Z)
    (procedure_code : string) (modifier_codes : list string)
    (charge_amount : pyfloat) (units : Z) (service_date : string)
    (rendering_provider_index : option Z)
| AddRenderingProvider (npi taxonomy_code last_name first_name employer_id : string).

Definition apply_op (self : EDI837Builder) (op : add_op) : EDI837Builder :=
  match op with
  | AddBillingProvider npi tc eid addr org l f c =>
      fst (add_billing_provider self npi tc eid addr org l f c)
  | AddSubscriber m l f addr bd g bpi prc cfc dep rel =>
      fst (add_subscriber self m l f addr bd g bpi prc cfc dep rel)
  | AddSubmitter c => add_submitter self c
  | AddPayer i n p => add_payer self i n p
  | AddServiceFacilityLocation npi org addr =>
      add_service_facility_location self npi org addr
  | AddPriorAuthorization n => add_prior_authorization self n
  | AddClaimInformation i pcn amt pos freq sig ppc ric ba dx =>
      add_claim_information self i pcn amt pos freq sig ppc ric ba dx
  | AddServiceLine si pi pc mods amt u d rpi =>
      fst (add_service_line self si pi pc mods amt u d rpi)
  | AddRenderingProvider npi tc l f eid =>
      fst (add_rendering_provider self npi tc l f eid)
  end.

(** A sequence of [add_*] calls, in program order. *)
Definition apply_ops (self : EDI837Builder) (ops : list add_op) : EDI837Builder :=
  fold_left apply_op ops self.

(** ** Methods that read or update the builder *)

(** A method body: it runs on [self] and ends with a value or an exception,
    in a possibly updated [self]. *)
Definition M (A : Type) : Type := EDI837Builder -> result A * EDI837Builder.

Definition ret {A} (a : A) : M A := fun self => (Ok a, self).

Definition raise {A} (e : exn) : M A := fun self => (Raise e, self).

Definition bind {A B} (m : M A) (k : A -> M B) : M B :=
  fun self =>
    match m self with
    | (Ok a, self') => k a self'
    | (Raise e, self') => (Raise e, self')
    end.

Notation "'do' x <- m 'in' k" := (bind m (fun x => k))
  (at level 10, x name, m at level 100, k at level 200,
   format "'[v' 'do'  x  <-  m  'in' '/' k ']'").

(** Read an attribute of [self]. *)
Definition attr {A} (f : EDI837Builder -> A) : M A := fun self => (Ok (f self), self).

(** Read an attribute that may not exist. *)
Definition opt_attr {A} (name : string) (f : EDI837Builder -> option A) : M A :=
  fun self =>
    match f self with
    | Some a => (Ok a, self)
    | None => (Raise (AttributeError name), self)
    end.

Definition lift {A} (r : result A) : M A := fun self => (r, self).

(** [for x in l: segments.extend(body(x))]. *)
Fixpoint for_each {A} (body : A -> M (list string)) (l : list A) : M (list string) :=
  match l with
  | [] => ret []
  | x :: l' =>
      do s <- body x in
      do r <- for_each body l' in
      ret (s ++ r)
  end.

(** [enumerate(l)], counting from [i]. *)
Fixpoint enumerate_from {A} (i : nat) (l : list A) : list (nat * A) :=
  match l with
  | [] => []
  | x :: l' => (i, x) :: enumerate_from (S i) l'
  end.

Definition enumerate {A} (l : list A) : list (nat * A) := enumerate_from 0 l.

(** [context in l]. *)
Definition in_list (context : string) (l : list string) : bool :=
  existsb (String.eqb context) l.

Definition _create_header : list string :=
  let interchange_control_header :=
    "ISA*00*          *00*          *ZZ*AV09311993     *01*030240928      *240702*1531*^*00501*415133923*0*P*>~" in
  let function_group_header :=
    "GS*HC*1923294*030240928*20240702*1533*415133923*X*005010X222A1~" in
  let transaction_set_header := "ST*837*415133923*005010X222A1~" in
  let bht_header := "BHT*0019*00*1*20240702*1531*CH~" in
  let submitter_name_segment := "NM1*41*2*Mattel Industries*****46*1234567890~" in
  let submitter_contact_info_segment := "PER*IC*Ruth Handler*TE*8458130000~" in
  let reciever_segment := "NM1*40*2*AVAILITY 5010*****46*030240928~" in
  [ interchange_control_header; function_group_header; transaction_set_header;
    bht_header; submitter_name_segment; submitter_contact_info_segment;
    reciever_segment ].

Definition _get_entity_identifier_code (context : string) : string :=
  if String.eqb context "billing_provider" then EntityIdentifierCode.BillingProvider
  else if String.eqb context "subscriber" then EntityIdentifierCode.Subscriber
  else if String.eqb context "patient" then EntityIdentifierCode.Patient
  else if String.eqb context "submitter" then EntityIdentifierCode.Submitter
  else if String.eqb context "receiver" then EntityIdentifierCode.Receiver
  else if String.eqb context "rendering_provider" then "82"
  else if String.eqb context "payer" then "PR"
  else if String.eqb context "service_facility" then "77"
  else EntityIdentifierCode.BillingProvider.

Definition _determine_entity_type (entity_data : entity) (context : string) : string :=
  if in_list context ["submitter"; "receiver"; "payer"; "service_facility"] then "2"
  else if in_list context ["patient"] then "1"
  else if entity_has entity_data "organizationName" then "2" else "1".

(** The provider registry: [True] and a registration for a provider or
    facility whose NPI is new, [False] for an empty or known NPI; any other
    context passes. *)
Definition _can_create_provider (entity_data : entity) (context : string) : M bool :=
  if negb (in_list context ["billing_provider"; "rendering_provider"; "service_facility"])
  then ret true
  else
    let npi := entity_get_default entity_data "npi" in
    if negb (truthy npi) then ret false
    else fun self =>
      if has_key (provider_map self) (fmt npi) then (Ok false, self)
      else (Ok true, set_provider_map (<[fmt npi := entity_data]> (provider_map self)) self).

(** The pair [(code, qualifier)]. *)
Definition _get_identification_details (entity_data : entity) (context : string)
    : pyval * pyval :=
  let context_id_map : option string * pyval :=
    if String.eqb context "billing_provider"
    then (Some "npi", PStr ReferenceIdentificationQualifier.NationalProviderIdentifier)
    else if String.eqb context "rendering_provider"
    then (Some "npi", PStr ReferenceIdentificationQualifier.NationalProviderIdentifier)
    else if String.eqb context "service_facility"
    then (Some "npi", PStr ReferenceIdentificationQualifier.NationalProviderIdentifier)
    else if String.eqb context "subscriber"
    then (Some "memberId", PStr ReferenceIdentificationQualifier.MemberId)
    else if String.eqb context "patient" then (None, PNone)
    else if String.eqb context "payer" then (Some "payerId", PStr "PI")
    else if String.eqb context "submitter" then (None, PStr "46")
    else if String.eqb context "receiver" then (None, PStr "46")
    else (None, PNone) in
  let field_name := fst context_id_map in
  let qualifier := snd context_id_map in
  if in_list context ["submitter"; "receiver"]
  then (entity_get_default entity_data "id", qualifier)
  else
    (match field_name with
     | Some f => entity_get_default entity_data f
     | None => PStr ""
     end, qualifier).

(** Steps 3 to 7 of [_create_name_segment]: the text of the NM1 segment. *)
Definition name_segment_text (entity_data : entity) (context : string) : string :=
  let entity_identifier_code := _get_entity_identifier_code context in
  let entity_type_qualifier := _determine_entity_type entity_data context in
  let id_code := fst (_get_identification_details entity_data context) in
  let id_qualifier := snd (_get_identification_details entity_data context) in
  let segment :=
    SegmentHeader.Name +:+ "*" +:+ entity_identifier_code +:+ "*"
    +:+ entity_type_qualifier +:+ "*" in
  let segment :=
    if String.eqb entity_type_qualifier "1"
    then segment
         +:+ fmt (entity_get_default entity_data "lastName") +:+ "*"
         +:+ fmt (entity_get_default entity_data "firstName") +:+ "*"
         +:+ fmt (entity_get_default entity_data "middleName") +:+ "*"
         +:+ fmt (entity_get_default entity_data "namePrefix") +:+ "*"
         +:+ fmt (entity_get_default entity_data "nameSuffix") +:+ "*"
    else segment +:+ fmt (entity_get_default entity_data "organizationName") +:+ "*****" in
  let segment := segment +:+ fmt id_qualifier +:+ "*" +:+ fmt id_code in
  let segment := segment +:+ "~" in
  segment.

(** The NM1 segment of an entity, or [None] when the registry refuses it. *)
Definition _create_name_segment (entity_data : entity) (context : string)
    : M (option string) :=
  do proceed <- _can_create_provider entity_data context in
  if proceed : bool then ret (Some (name_segment_text entity_data context))
  else ret None.

(** Truth value of the result of [_create_name_segment]. *)
Definition name_truthy (name_segment : option string) : bool :=
  match name_segment with
  | Some s => negb (String.eqb s "")
  | None => false
  end.

Definition name_str (name_segment : option string) : string :=
  match name_segment with
  | Some s => s
  | None => "None"
  end.

Definition _create_billing_provider_loop (provider_index : nat) : M (list string) :=
  do providers <- attr billing_providers in
  do provider <- lift (index providers provider_index) in
  let hardcoded_billing_provider_hl := "HL*1**20*1~" in
  let segments :=
    [ hardcoded_billing_provider_hl;
      SegmentHeader.Provider +:+ "*" +:+ ProviderType.Billing +:+ "*"
      +:+ ReferenceIdentificationQualifier.TaxonomyCode +:+ "*"
      +:+ bp_taxonomyCode provider +:+ "~" ] in
  do name_segment <- _create_name_segment (EBilling provider) "billing_provider" in
  do segments <-
    (if name_truthy name_segment then
       let address2 :=
         if has_key (bp_address provider) "address2"
         then dict_get (bp_address provider) "address2" else "" in
       do address1 <- lift (subscript (bp_address provider) "address1") in
       do city <- lift (subscript (bp_address provider) "city") in
       do state <- lift (subscript (bp_address provider) "state") in
       do postalCode <- lift (subscript (bp_address provider) "postalCode") in
       ret (segments ++
            [ name_str name_segment;
              SegmentHeader.AddressLine1 +:+ "*" +:+ address1 +:+ "*" +:+ address2 +:+ "~";
              SegmentHeader.CityStatePostalCode +:+ "*" +:+ city +:+ "*" +:+ state
              +:+ "*" +:+ postalCode +:+ "~" ])
     else ret segments) in
  let segments :=
    segments ++
    [ SegmentHeader.Reference +:+ "*"
      +:+ ReferenceIdentificationQualifier.EmployerIdentificationNumber +:+ "*"
      +:+ bp_employerId provider +:+ "~" ] in
  match bp_contactInfo provider with
  | Some contactInfo =>
      let name := dict_get contactInfo "name" in
      let phone_number := dict_get contactInfo "phoneNumber" in
      ret (segments ++
           [ SegmentHeader.ContactInformation +:+ "*IC*" +:+ name +:+ "*TE*"
             +:+ phone_number +:+ "~" ])
  | None => ret segments
  end.

(** The three segments N3, N4 and DMG that [_create_subscriber_loop] appends
    for a subscriber or a dependent. *)
Definition subscriber_address_demographics (subscriber : Subscriber)
    : result (list string) :=
  match subscript (sub_address subscriber) "address1" with
  | Raise e => Raise e
  | Ok address1 =>
  match subscript (sub_address subscriber) "city" with
  | Raise e => Raise e
  | Ok city =>
  match subscript (sub_address subscriber) "state" with
  | Raise e => Raise e
  | Ok state =>
  match subscript (sub_address subscriber) "postalCode" with
  | Raise e => Raise e
  | Ok postalCode =>
      Ok [ SegmentHeader.AddressLine1 +:+ "*" +:+ address1 +:+ "~";
           SegmentHeader.CityStatePostalCode +:+ "*" +:+ city +:+ "*" +:+ state
           +:+ "*" +:+ postalCode +:+ "~";
           "DMG*D8*" +:+ sub_birthDate subscriber +:+ "*" +:+ sub_gender subscriber
           +:+ "~" ]
  end end end end.

Definition _create_subscriber_loop (subscriber_index : nat) : M (list string) :=
  do subs <- attr subscribers in
  do subscriber <- lift (index subs subscriber_index) in
  let subscriber_count := (Z.of_nat (length subs) - 1)%Z in
  let is_dependent := sub_is_dependent subscriber in
  do name_segment <- _create_name_segment (ESubscriber subscriber) "subscriber" in
  if is_dependent then
    let hardcoded_subscriber_hl := "HL*3*2*23*0~" in
    let segments := [hardcoded_subscriber_hl] in
    let responsibility_code := sub_paymentResponsibilityLevelCode subscriber in
    let segments :=
      match responsibility_code with
      | Primary =>
          segments ++
          [ "PAT*01~";
            "NM1*QC*1*" +:+ sub_lastName subscriber +:+ "*"
            +:+ sub_firstName subscriber +:+ "~" ]
      | _ => segments
      end in
    do tail <- lift (subscriber_address_demographics subscriber) in
    ret (segments ++ tail)
  else
    let hardcoded_subscriber_hl := "HL*2*1*22*" +:+ pretty subscriber_count +:+ "~" in
    let segments := [hardcoded_subscriber_hl] in
    let relationship :=
      if (0 <? subscriber_count)%Z then "" else RelationshipToSubscriber.Self in
    let segments :=
      segments ++
      [ SegmentHeader.SubscriberInformation +:+ "*"
        +:+ PaymentResponsibilityLevelCode_value
              (sub_paymentResponsibilityLevelCode subscriber)
        +:+ "*" +:+ relationship +:+ "*******"
        +:+ ClaimFilingIndicatorCode_value (sub_claimFilingCode subscriber) +:+ "~" ] in
    (* a [None] appended here would make the final join raise [TypeError] *)
    do name <- match name_segment with
               | Some s => ret s
               | None => raise TypeError
               end in
    let segments := segments ++ [name] in
    if (subscriber_count =? 0)%Z then
      do tail <- lift (subscriber_address_demographics subscriber) in
      ret (segments ++ tail)
    else ret segments.

Definition _create_service_facility_segments : M (list string) :=
  do facility_opt <- attr service_facility in
  match facility_opt with
  | None => ret []
  | Some facility =>
      do name_segment <- _create_name_segment (EFacility facility) "service_facility" in
      if name_truthy name_segment then
        let address := sf_address facility in
        let segments := [name_str name_segment] in
        let segments :=
          if has_key address "address1" then
            let addr_line := "N3*" +:+ dict_get address "address1" in
            let addr_line :=
              if negb (String.eqb (dict_get address "address2") "")
              then addr_line +:+ "*" +:+ dict_get address "address2"
              else addr_line in
            segments ++ [addr_line +:+ "~"]
          else segments in
        let segments :=
          if has_key address "city" && has_key address "state"
             && has_key address "postalCode"
          then segments ++
               [ "N4*" +:+ dict_get address "city" +:+ "*" +:+ dict_get address "state"
                 +:+ "*" +:+ dict_get address "postalCode" +:+ "~" ]
          else segments in
        ret segments
      else ret []
  end.

(** [f"{diag['diagnosisTypeCode']}>{diag['diagnosisCode']}"] for each code. *)
Fixpoint diag_codes (l : list dict) : result (list string) :=
  match l with
  | [] => Ok []
  | diag :: l' =>
      match subscript diag "diagnosisTypeCode" with
      | Raise e => Raise e
      | Ok t =>
          match subscript diag "diagnosisCode" with
          | Raise e => Raise e
          | Ok c =>
              match diag_codes l' with
              | Raise e => Raise e
              | Ok r => Ok ((t +:+ ">" +:+ c) :: r)
              end
          end
      end
  end.

Definition _create_claim_information_loop : M (list string) :=
  do claim_opt <- attr claim_information in
  match claim_opt with
  | None => ret []
  | Some claim =>
      let facility_code_qualifier := "B" in
      let claim_segment :=
        "CLM*" +:+ claim_patientControlNumber claim +:+ "*"
        +:+ float_str (claim_claimChargeAmount claim) +:+ "***" in
      let claim_segment :=
        claim_segment +:+ claim_placeOfServiceCode claim +:+ ">"
        +:+ facility_code_qualifier +:+ ">" +:+ claim_claimFrequencyCode claim +:+ "*" in
      let claim_segment :=
        claim_segment +:+ claim_signatureIndicator claim +:+ "*"
        +:+ claim_planParticipationCode claim +:+ "*" in
      let claim_segment :=
        claim_segment +:+ claim_releaseInfoCode claim +:+ "*"
        +:+ claim_benefitsAssignment claim +:+ "~" in
      let segments := [claim_segment] in
      do prior <- attr prior_authorization in
      let segments :=
        match prior with
        | Some n => segments ++ ["REF*G1*" +:+ n +:+ "~"]
        | None => segments
        end in
      do segments <-
        match claim_diagnosisCodes claim with
        | [] => ret segments
        | _ =>
            do codes <- lift (diag_codes (claim_diagnosisCodes claim)) in
            ret (segments ++ ["HI*" +:+ String.concat ">" codes +:+ "~"])
        end in
      do facility <- attr service_facility in
      match facility with
      | Some _ =>
          do fs <- _create_service_facility_segments in
          ret (segments ++ fs)
      | None => ret segments
      end
  end.

(** The body of the loop of [_create_service_lines], for the line of index
    [i]. *)
Definition service_line_segments (p : nat * ServiceLine) : M (list string) :=
  let i := fst p in
  let service := snd p in
  let segments := ["LX*" +:+ pretty (i + 1)%nat +:+ "~"] in
  let sv1_segment := "SV1*HC>" +:+ sl_procedureCode service in
  let sv1_segment :=
    fold_left (fun acc mod_ => acc +:+ ":" +:+ mod_) (sl_modifierCodes service) sv1_segment in
  let sv1_segment :=
    sv1_segment +:+ "*" +:+ float_str (sl_chargeAmount service) +:+ "*UN*"
    +:+ pretty (sl_units service) +:+ ".0***1~" in
  let segments := segments ++ [sv1_segment] in
  let segments :=
    if negb (String.eqb (sl_serviceDate service) "")
    then segments ++ ["DTP*472*D8*" +:+ sl_serviceDate service +:+ "~"]
    else segments in
  match sl_renderingProviderIndex service with
  | Some provider_idx =>
      do rps <- attr rendering_providers in
      if (0 <=? provider_idx)%Z && (provider_idx <? Z.of_nat (length rps))%Z then
        do provider <- lift (index rps (Z.to_nat provider_idx)) in
        do name_segment <- _create_name_segment (ERendering provider) "rendering_provider" in
        if name_truthy name_segment
        then ret (segments ++
                  [ name_str name_segment;
                    "PRV*PE*PXC*" +:+ rp_taxonomyCode provider +:+ "~" ])
        else ret segments
      else ret segments
  | None => ret segments
  end.

Definition _create_service_lines : M (list string) :=
  do lines <- attr service_lines in
  for_each service_line_segments (enumerate lines).

Definition _create_payer : M string :=
  do payer <- opt_attr "payer_info" payer_info in
  let payer_name := payer_organizationName payer in
  let payer_id := payer_payerId payer in
  ret (SegmentHeader.Name +:+ "*" +:+ SegmentHeader.Payer +:+ "*2*" +:+ payer_name
       +:+ "*****PI*" +:+ payer_id +:+ "~").

(** The body of the loop of [_create_rendering_provider_segments]. *)
Definition rendering_provider_segments (rp : RenderingProvider) : M (list string) :=
  do name_segment <- _create_name_segment (ERendering rp) "rendering_provider" in
  if name_truthy name_segment
  then ret [ name_str name_segment; "PRV*PE*PXC*" +:+ rp_taxonomyCode rp +:+ "~" ]
  else ret [].

Definition _create_rendering_provider_segments : M (list string) :=
  do rps <- attr rendering_providers in
  for_each rendering_provider_segments rps.

Definition _create_trailer (segment_count : Z) : list string :=
  let se_segment := "SE*" +:+ pretty segment_count +:+ "*415133923~" in
  [ se_segment; "GE*1*415133923~"; "IEA*1*415133923~" ].

(** The body of the inner loop of [build()]: the subscriber of index
    [sub_idx], under the billing provider of index [provider_idx]. *)
Definition build_subscriber (provider_idx : nat) (p : nat * Subscriber)
    : M (list string) :=
  let sub_idx := fst p in
  let subscriber := snd p in
  if (sub_billingProviderIndex subscriber =? Z.of_nat provider_idx)%Z then
    do loop <- _create_subscriber_loop sub_idx in
    (* [self.payer_info and sub_idx == 0]: the attribute is read first, and
       the dictionary that [add_payer] stores is never empty *)
    do payer <- opt_attr "payer_info" payer_info in
    if Nat.eqb sub_idx 0 then
      do payer_segment <- _create_payer in
      ret (loop ++ [payer_segment])
    else ret loop
  else ret [].

(** The body of the outer loop of [build()]. *)
Definition build_provider (p : nat * BillingProvider) : M (list string) :=
  let provider_idx := fst p in
  do provider_segments <- _create_billing_provider_loop provider_idx in
  do subs <- attr subscribers in
  do subscriber_segments <- for_each (build_subscriber provider_idx) (enumerate subs) in
  do claim_segments <- _create_claim_information_loop in
  do line_segments <- _create_service_lines in
  do rps <- attr rendering_providers in
  do rendering_segments <-
    (if (0 <? length rps)%nat then _create_rendering_provider_segments else ret []) in
  ret (provider_segments ++ subscriber_segments ++ claim_segments ++ line_segments
       ++ rendering_segments).

(** The list of segments that [build()] joins. *)
Definition build_segments : M (list string) :=
  let segments := _create_header in
  do providers <- attr billing_providers in
  do body <- for_each build_provider (enumerate providers) in
  let segments := segments ++ body in
  ret (segments ++ _create_trailer (Z.of_nat (length segments) - 1)).

Definition newline : string := String (ascii_of_nat 10) "".

Definition build : M string :=
  do segments <- build_segments in
  ret (String.concat newline segments).

(** ** The patient loop *)

(** [l[i]] for a Python integer [i]: a negative index counts from the end. *)
Definition py_index {A} (l : list A) (i : Z) : result A :=
  if (0 <=? i)%Z then index l (Z.to_nat i)
  else if (0 <=? Z.of_nat (length l) + i)%Z
       then index l (Z.to_nat (Z.of_nat (length l) + i))
       else Raise IndexError.

(** No method calls [_create_patient_loop], and none adds a patient; a
    patient is read as a record with the name, address, birth date and gender
    of a subscriber. *)
Definition _create_patient_loop (patient_index : Z) : M (list string) :=
  do ps <- attr patients in
  do patient <- lift (py_index ps patient_index) in
  do name_segment <- _create_name_segment (ESubscriber patient) "patient" in
  do address1 <- lift (subscript (sub_address patient) "address1") in
  do city <- lift (subscript (sub_address patient) "city") in
  do state <- lift (subscript (sub_address patient) "state") in
  do postalCode <- lift (subscript (sub_address patient) "postalCode") in
  ret [ name_str name_segment;
        SegmentHeader.AddressLine1 +:+ "*" +:+ address1 +:+ "~";
        SegmentHeader.CityStatePostalCode +:+ "*" +:+ city +:+ "*" +:+ state
        +:+ "*" +:+ postalCode +:+ "~";
        "DMG*D8*" +:+ sub_birthDate patient +:+ "*" +:+ sub_gender patient +:+ "~" ].

(** ** Reading the emitted segments *)

(** [s.startswith(p)]. *)
Fixpoint starts_with (p s : string) : bool :=
  match p with
  | "" => true
  | String a p' =>
      match s with
      | "" => false
      | String b s' => Ascii.eqb a b && starts_with p' s'
      end
  end.

(** The segment starts with the identifier [tag] followed by the element
    separator. *)
Definition has_tag (tag seg : string) : bool := starts_with (tag +:+ "*") seg.

Definition tag_in (tags : list string) (seg : string) : bool :=
  existsb (fun t => has_tag t seg) tags.

Fixpoint count_if (f : string -> bool) (segs : list string) : nat :=
  match segs with
  | [] => 0
  | s :: segs' => (if f s then 1 else 0) + count_if f segs'
  end.

(** Number of segments with identifier [tag]. *)
Definition count_tag (tag : string) (segs : list string) : nat :=
  count_if (has_tag tag) segs.

(** Number of occurrences of the segment [seg]. *)
Definition count_seg (seg : string) (segs : list string) : nat :=
  count_if (String.eqb seg) segs.

(** A fresh builder fed a sequence of [add_*] calls. *)
Definition fresh_builder (ops : list add_op) : EDI837Builder :=
  apply_ops (__init__ default_version) ops.

(** An address with the four keys that the docstrings require. *)
Definition address_of (address1 city state postalCode : string) : dict :=
  <["address1" := address1]>
    (<["city" := city]> (<["state" := state]> (<["postalCode" := postalCode]> ∅))).

(** *** Example stores *)

Definition main_street : dict := address_of "1 Main St" "Springfield" "IL" "62701".

Definition acme_clinic : add_op :=
  AddBillingProvider "1234567890" "207Q00000X" "123456789" main_street
    (PStr "Acme Clinic") PNone PNone None.

Definition jane_doe : add_op :=
  AddSubscriber "M100" "Doe" "Jane" main_street "19800101" "F" 0
    Primary Commercial false "".

(** A billing provider and a subscriber attached to it; [add_payer] is never
    called. *)
Definition store_without_payer : EDI837Builder :=
  fresh_builder [acme_clinic; jane_doe].

(** *** Expected segments of a subscriber loop *)

(** The HL, SBR and NM1 segments of a non-dependent subscriber, in a store of
    [n] subscriber records, with [relationship] in the SBR segment. *)
Definition subscriber_head (sub : Subscriber) (n : nat) (relationship : string)
    : list string :=
  [ "HL*2*1*22*" +:+ pretty (Z.of_nat n - 1)%Z +:+ "~";
    "SBR*" +:+ PaymentResponsibilityLevelCode_value (sub_paymentResponsibilityLevelCode sub)
    +:+ "*" +:+ relationship +:+ "*******"
    +:+ ClaimFilingIndicatorCode_value (sub_claimFilingCode sub) +:+ "~";
    "NM1*IL*1*" +:+ sub_lastName sub +:+ "*" +:+ sub_firstName sub +:+ "****MI*"
    +:+ sub_memberId sub +:+ "~" ].

(** The N3, N4 and DMG segments. *)
Definition address_demographics (address1 city state postalCode : string)
    (sub : Subscriber) : list string :=
  [ "N3*" +:+ address1 +:+ "~";
    "N4*" +:+ city +:+ "*" +:+ state +:+ "*" +:+ postalCode +:+ "~";
    "DMG*D8*" +:+ sub_birthDate sub +:+ "*" +:+ sub_gender sub +:+ "~" ].

(** The four address keys are present, with these values. *)
Definition address_has (address : dict) (address1 city state postalCode : string) : Prop :=
  address !! "address1" = Some address1 /\ address !! "city" = Some city /\
  address !! "state" = Some state /\ address !! "postalCode" = Some postalCode.

Definition john_doe : add_op :=
  AddSubscriber "M200" "Doe" "John" main_street "19790202" "M" 0
    Primary Commercial false "".

(** Two non-dependent subscribers of the same billing provider. *)
Definition store_two_subscribers : EDI837Builder :=
  fresh_builder [acme_clinic; jane_doe; john_doe].

(** The subscriber records that the example stores hold. *)
Definition jane_doe_record : Subscriber := {|
  sub_memberId := "M100"; sub_lastName := "Doe"; sub_firstName := "Jane";
  sub_address := main_street; sub_birthDate := "19800101"; sub_gender := "F";
  sub_billingProviderIndex := 0;
  sub_paymentResponsibilityLevelCode := Primary;
  sub_claimFilingCode := Commercial;
  sub_is_dependent := false; sub_relationship_to_subscriber := ""
|}.

Definition billy_doe : add_op :=
  AddSubscriber "M100" "Doe" "Billy" main_street "20100303" "M" 0
    Primary Commercial true "19".

Definition billy_doe_record : Subscriber := {|
  sub_memberId := "M100"; sub_lastName := "Doe"; sub_firstName := "Billy";
  sub_address := main_street; sub_birthDate := "20100303"; sub_gender := "M";
  sub_billingProviderIndex := 0;
  sub_paymentResponsibilityLevelCode := Primary;
  sub_claimFilingCode := Commercial;
  sub_is_dependent := true; sub_relationship_to_subscriber := "19"
|}.

(** A subscriber followed by a dependent. *)
Definition store_with_dependent : EDI837Builder :=
  fresh_builder [acme_clinic; jane_doe; billy_doe; AddPayer 0 "Aetna" "WIMCD"].

(** *** The single-claim scenario

    One billing provider, one subscriber attached to it, one claim and one
    service line, with the values that the scenario fixes; the remaining
    arguments of the four calls are parameters.  The amounts are the float
    150.00. *)
Definition amount_150 : pyfloat := FFinite false 15 3.

Record scenario_details := {
  sd_employer_id : string;
  sd_provider_address : string * string * string * string;
  sd_last_name : string;
  sd_first_name : string;
  sd_subscriber_address : string * string * string * string;
  sd_birth_date : string;
  sd_gender : string;
  sd_relationship : string;
  sd_service_date : string
}.

Definition address_of_tuple (t : string * string * string * string) : dict :=
  match t with
  | (a, c, s, z) => address_of a c s z
  end.

Definition scenario_ops (d : scenario_details) : list add_op :=
  [ AddBillingProvider "1234567890" "207Q00000X" (sd_employer_id d)
      (address_of_tuple (sd_provider_address d)) (PStr "Acme Clinic") PNone PNone None;
    AddSubscriber "M100" (sd_last_name d) (sd_first_name d)
      (address_of_tuple (sd_subscriber_address d)) (sd_birth_date d) (sd_gender d)
      0 Primary Commercial false (sd_relationship d);
    AddClaimInformation 0 "PCN1" amount_150 "11" "1" "Y" "A" "Y" "Y" None;
    AddServiceLine 0 None "99213" [] amount_150 1 (sd_service_date d) None ].

Definition sample_details : scenario_details := {|
  sd_employer_id := "123456789";
  sd_provider_address := ("1 Main St", "Springfield", "IL", "62701");
  sd_last_name := "Doe";
  sd_first_name := "Jane";
  sd_subscriber_address := ("1 Main St", "Springfield", "IL", "62701");
  sd_birth_date := "19800101";
  sd_gender := "F";
  sd_relationship := "";
  sd_service_date := "20240102"
|}.

(** ** The registry and the store *)

(** The NPI under which [_can_create_provider] looks an entity up. *)
Definition entity_npi (e : entity) : string := fmt (entity_get_default e "npi").

(** The registry refuses the NPI: it is empty or already recorded. *)
Definition refused (pm : gmap string entity) (npi : string) : bool :=
  String.eqb npi "" || has_key pm npi.

(** The builder after the registration of [e]. *)
Definition register (e : entity) (self : EDI837Builder) : EDI837Builder :=
  set_provider_map (<[entity_npi e := e]> (provider_map self)) self.

Definition provider_context (context : string) : bool :=
  in_list context ["billing_provider"; "rendering_provider"; "service_facility"].

(** The claim record store of a builder: every attribute but the registry. *)
Definition store_of (self : EDI837Builder) : EDI837Builder := set_provider_map ∅ self.

Definition on_ok {A} (P : A -> Prop) (r : result A) : Prop :=
  match r with
  | Ok a => P a
  | Raise _ => True
  end.

(** Run on a builder whose store is [st], the method leaves the store as it is
    and ends in a result that satisfies [Q]. *)
Definition triple {A} (st : EDI837Builder) (m : M A) (Q : result A -> Prop) : Prop :=
  forall self, store_of self = st -> store_of (snd (m self)) = st /\ Q (fst (m self)).

(** ** The parts of the output of [build()] *)

Definition all_tagged (tags : list string) (segs : list string) : Prop :=
  Forall (fun s => tag_in tags s = true) segs.

(** A billing-provider loop: the fixed HL segment, then PRV, the name and
    address segments, the tax-ID reference and the contact. *)
Definition provider_part (segs : list string) : Prop :=
  exists rest,
    segs = "HL*1**20*1~" :: rest /\
    all_tagged ["PRV"; "NM1"; "N3"; "N4"; "REF"; "PER"] rest.

(** Subscriber and dependent loops, with the payer name segment. *)
Definition subscriber_part (segs : list string) : Prop :=
  all_tagged ["HL"; "SBR"; "PAT"; "NM1"; "N3"; "N4"; "DMG"] segs.

(** The claim loop: nothing without claim information, otherwise the CLM
    segment and what is attached to it. *)
Definition claim_part (st : EDI837Builder) (segs : list string) : Prop :=
  match claim_information st with
  | None => segs = []
  | Some _ =>
      exists clm rest,
        segs = clm :: rest /\ has_tag "CLM" clm = true /\
        all_tagged ["REF"; "HI"; "NM1"; "N3"; "N4"] rest
  end.

(** The service-line loop: one LX segment per service line. *)
Definition lines_part (st : EDI837Builder) (segs : list string) : Prop :=
  all_tagged ["LX"; "SV1"; "DTP"; "NM1"; "PRV"] segs /\
  count_tag "LX" segs = length (service_lines st).

(** The rendering-provider loop. *)
Definition rendering_part (segs : list string) : Prop :=
  all_tagged ["NM1"; "PRV"] segs.

(** What one iteration of the loop over the billing providers emits. *)
Record provider_block := {
  pb_provider : list string;
  pb_subscribers : list string;
  pb_claim : list string;
  pb_lines : list string;
  pb_rendering : list string
}.

Definition block_segments (b : provider_block) : list string :=
  pb_provider b ++ pb_subscribers b ++ pb_claim b ++ pb_lines b ++ pb_rendering b.

Definition block_ok (st : EDI837Builder) (b : provider_block) : Prop :=
  provider_part (pb_provider b) /\ subscriber_part (pb_subscribers b) /\
  claim_part st (pb_claim b) /\ lines_part st (pb_lines b) /\
  rendering_part (pb_rendering b).

(** ** The transaction-set trailer *)

(** Number of segments from the head of the list through the first SE
    segment. *)
Fixpoint through_se (segs : list string) : nat :=
  match segs with
  | [] => 0
  | s :: segs' => if has_tag "SE" s then 1 else S (through_se segs')
  end.

(** Number of segments from the first ST segment through the SE segment that
    closes it, both included. *)
Fixpoint st_through_se (segs : list string) : nat :=
  match segs with
  | [] => 0
  | s :: segs' => if has_tag "ST" s then through_se segs else st_through_se segs'
  end.

(** A segment identifier holds no element separator. *)
Fixpoint plain_tag (t : string) : bool :=
  match t with
  | "" => true
  | String c t' => negb (Ascii.eqb c "*") && plain_tag t'
  end.

(** The identifiers of the segments between the header and the trailer. *)
Definition body_tags : list string :=
  [ "HL"; "PRV"; "NM1"; "N3"; "N4"; "REF"; "PER"; "SBR"; "PAT"; "DMG"; "CLM";
    "HI"; "LX"; "SV1"; "DTP" ].

Definition elm_street : dict := address_of "9 Elm St" "Shelbyville" "IL" "62565".

Definition elm_clinic : add_op :=
  AddBillingProvider "1987654321" "208D00000X" "987654321" elm_street
    (PStr "Elm Clinic") PNone PNone None.

Definition john_doe_at_elm : add_op :=
  AddSubscriber "M200" "Doe" "John" elm_street "19790202" "M" 1
    Primary Commercial false "".

Definition sample_claim : add_op :=
  AddClaimInformation 0 "PCN1" amount_150 "11" "1" "Y" "A" "Y" "Y" None.

Definition sample_line : add_op :=
  AddServiceLine 0 None "99213" [] amount_150 1 "" None.

(** Two billing providers with a subscriber each, a payer, a claim and a
    service line. *)
Definition store_two_providers : EDI837Builder :=
  fresh_builder
    [ acme_clinic; elm_clinic; jane_doe; john_doe_at_elm; AddPayer 0 "Aetna" "WIMCD";
      sample_claim; sample_line ].

(** The scenario store with a payer. *)
Definition store_scenario_with_payer : EDI837Builder :=
  fresh_builder (scenario_ops sample_details ++ [AddPayer 0 "Aetna" "WIMCD"]).

(** What [build()] joins for [store_two_providers]. *)
Definition two_providers_segments : list string :=
  [ "ISA*00*          *00*          *ZZ*AV09311993     *01*030240928      *240702*1531*^*00501*415133923*0*P*>~";
       "GS*HC*1923294*030240928*20240702*1533*415133923*X*005010X222A1~";
       "ST*837*415133923*005010X222A1~"; "BHT*0019*00*1*20240702*1531*CH~";
       "NM1*41*2*Mattel Industries*****46*1234567890~";
       "PER*IC*Ruth Handler*TE*8458130000~";
       "NM1*40*2*AVAILITY 5010*****46*030240928~";
       "HL*1**20*1~"; "PRV*BI*PXC*207Q00000X~";
       "NM1*85*2*Acme Clinic*****XX*1234567890~"; "N3*1 Main St*~";
       "N4*Springfield*IL*62701~"; "REF*EI*123456789~";
       "HL*2*1*22*1~"; "SBR*P********CI~"; "NM1*IL*1*Doe*Jane****MI*M100~";
       "NM1*PR*2*Aetna*****PI*WIMCD~";
       "CLM*PCN1*150.0***11>B>1*Y*A*Y*Y~";
       "LX*1~"; "SV1*HC>99213*150.0*UN*1.0***1~";
       "HL*1**20*1~"; "PRV*BI*PXC*208D00000X~";
       "NM1*85*2*Elm Clinic*****XX*1987654321~"; "N3*9 Elm St*~";
       "N4*Shelbyville*IL*62565~"; "REF*EI*987654321~";
       "HL*2*1*22*1~"; "SBR*P********CI~"; "NM1*IL*1*Doe*John****MI*M200~";
       "CLM*PCN1*150.0***11>B>1*Y*A*Y*Y~";
       "LX*1~"; "SV1*HC>99213*150.0*UN*1.0***1~";
       "SE*31*415133923~"; "GE*1*415133923~"; "IEA*1*415133923~" ].

(** ** Contacts *)

(** The contact that a call records in [contact_info_map] when its key is not
    there yet: the non-empty [contactInfo] of [add_submitter] or of
    [add_billing_provider]. *)
Definition supplied_contact (op : add_op) : option dict :=
  match op with
  | AddBillingProvider _ _ _ _ _ _ _ (Some c) =>
      if dict_truthy (Some c) then Some c else None
  | AddSubmitter (Some c) => if dict_truthy (Some c) then Some c else None
  | _ => None
  end.

(** Same name and same phone number. *)
Definition same_contact (c c' : dict) : Prop :=
  dict_get c "name" = dict_get c' "name" /\
  dict_get c "phoneNumber" = dict_get c' "phoneNumber".

(** Number of [add_billing_provider] calls in a sequence. *)
Fixpoint count_billing (ops : list add_op) : nat :=
  match ops with
  | [] => 0
  | AddBillingProvider _ _ _ _ _ _ _ _ :: ops' => S (count_billing ops')
  | _ :: ops' => count_billing ops'
  end.

Definition ruth : dict := <["name" := "Ruth"]> (<["phoneNumber" := "5550100"]> ∅).

(** The submitter and then a billing provider give the same contact. *)
Definition ops_repeated_contact : list add_op :=
  [ AddSubmitter (Some ruth);
    AddBillingProvider "1234567890" "207Q00000X" "123456789" main_street
      (PStr "Acme Clinic") PNone PNone (Some ruth) ].

(** ** Dangling indices *)

(** The service line, with no rendering-provider index. *)
Definition without_rendering_provider (line : ServiceLine) : ServiceLine := {|
  sl_subscriberIndex := sl_subscriberIndex line;
  sl_patientIndex := sl_patientIndex line;
  sl_procedureCode := sl_procedureCode line;
  sl_modifierCodes := sl_modifierCodes line;
  sl_chargeAmount := sl_chargeAmount line;
  sl_units := sl_units line;
  sl_serviceDate := sl_serviceDate line;
  sl_renderingProviderIndex := None
|}.

Definition complete_address (a : dict) : bool :=
  has_key a "address1" && has_key a "city" && has_key a "state" && has_key a "postalCode".

Definition complete_diagnosis (d : dict) : bool :=
  has_key d "diagnosisTypeCode" && has_key d "diagnosisCode".

(** The data that [build()] reads without a guard are there: a payer, the
    four address keys of the billing providers and of the subscribers, the
    two keys of the diagnosis codes.  Nothing is asked of the indices. *)
Definition well_formed (self : EDI837Builder) : bool :=
  match payer_info self with Some _ => true | None => false end
  && forallb (fun p => complete_address (bp_address p)) (billing_providers self)
  && forallb (fun s => complete_address (sub_address s)) (subscribers self)
  && match claim_information self with
     | Some claim => forallb complete_diagnosis (claim_diagnosisCodes claim)
     | None => true
     end.

Definition ok_and {A} (P : A -> Prop) (r : result A) : Prop :=
  match r with
  | Ok a => P a
  | Raise _ => False
  end.

Definition jane_doe_of_provider_7 : add_op :=
  AddSubscriber "M100" "Doe" "Jane" main_street "19800101" "F" 7
    Primary Commercial false "".

Definition line_of_rendering_provider_5 : add_op :=
  AddServiceLine 0 None "99213" [] amount_150 1 "20240102" (Some 5%Z).

(** One billing provider and no rendering provider; the subscriber names the
    billing provider 7 and the service line the rendering provider 5. *)
Definition store_dangling : EDI837Builder :=
  fresh_builder
    [ acme_clinic; jane_doe_of_provider_7; AddPayer 0 "Aetna" "WIMCD"; sample_claim;
      line_of_rendering_provider_5 ].

Definition dangling_segments : list string :=
  [ "ISA*00*          *00*          *ZZ*AV09311993     *01*030240928      *240702*1531*^*00501*415133923*0*P*>~";
    "GS*HC*1923294*030240928*20240702*1533*415133923*X*005010X222A1~";
    "ST*837*415133923*005010X222A1~"; "BHT*0019*00*1*20240702*1531*CH~";
    "NM1*41*2*Mattel Industries*****46*1234567890~";
    "PER*IC*Ruth Handler*TE*8458130000~";
    "NM1*40*2*AVAILITY 5010*****46*030240928~";
    "HL*1**20*1~"; "PRV*BI*PXC*207Q00000X~";
    "NM1*85*2*Acme Clinic*****XX*1234567890~"; "N3*1 Main St*~";
    "N4*Springfield*IL*62701~"; "REF*EI*123456789~";
    "CLM*PCN1*150.0***11>B>1*Y*A*Y*Y~";
    "LX*1~"; "SV1*HC>99213*150.0*UN*1.0***1~"; "DTP*472*D8*20240102~";
    "SE*16*415133923~"; "GE*1*415133923~"; "IEA*1*415133923~" ].

(** ** Provider and facility occurrences *)

(** The name segment of a billing provider (85), of a rendering provider (82)
    or of a service facility (77). *)
Definition provider_nm1 (seg : string) : bool :=
  starts_with "NM1*85*" seg || starts_with "NM1*82*" seg || starts_with "NM1*77*" seg.

(** An occurrence: an entity and the context in which [build()] asks for its
    name segment. *)
Definition occurrence : Type := entity * string.

Definition occurrence_text (o : occurrence) : string :=
  name_segment_text (fst o) (snd o).

(** The rendering provider that a service line presents, if any. *)
Definition line_occurrence (self : EDI837Builder) (line : ServiceLine) : list occurrence :=
  match sl_renderingProviderIndex line with
  | Some idx =>
      if (0 <=? idx)%Z && (idx <? Z.of_nat (length (rendering_providers self)))%Z
      then match rendering_providers self !! Z.to_nat idx with
           | Some rp => [(ERendering rp, "rendering_provider")]
           | None => []
           end
      else []
  | None => []
  end.

(** The facility that the claim loop presents, if any. *)
Definition claim_occurrence (self : EDI837Builder) : list occurrence :=
  match claim_information self, service_facility self with
  | Some _, Some f => [(EFacility f, "service_facility")]
  | _, _ => []
  end.

(** What one iteration of the loop over the billing providers presents, in
    emission order: the billing provider, the service facility, the rendering
    providers of the service lines, the rendering providers of the store. *)
Definition provider_occurrences (self : EDI837Builder) (p : BillingProvider)
    : list occurrence :=
  (EBilling p, "billing_provider")
  :: claim_occurrence self
  ++ flat_map (line_occurrence self) (service_lines self)
  ++ map (fun rp => (ERendering rp, "rendering_provider")) (rendering_providers self).

(** The provider and facility occurrences of one [build()], in emission
    order. *)
Definition occurrences (self : EDI837Builder) : list occurrence :=
  flat_map (provider_occurrences self) (billing_providers self).

(** The occurrences that carry a non-empty NPI found neither in [seen] nor in
    an earlier occurrence of the list. *)
Fixpoint first_occurrences (seen : list string) (occs : list occurrence)
    : list occurrence :=
  match occs with
  | [] => []
  | o :: occs' =>
      let npi := entity_npi (fst o) in
      if String.eqb npi "" || existsb (String.eqb npi) seen
      then first_occurrences seen occs'
      else o :: first_occurrences (npi :: seen) occs'
  end.

(** The NPIs seen after a list of occurrences. *)
Fixpoint seen_after (seen : list string) (occs : list occurrence) : list string :=
  match occs with
  | [] => seen
  | o :: occs' =>
      let npi := entity_npi (fst o) in
      if String.eqb npi "" || existsb (String.eqb npi) seen
      then seen_after seen occs'
      else seen_after (npi :: seen) occs'
  end.

(** The registry holds exactly the NPIs of [seen]. *)
Definition agrees (pm : gmap string entity) (seen : list string) : Prop :=
  forall npi, has_key pm npi = existsb (String.eqb npi) seen.

(** A method that presents the occurrences [occs] after the segments [pre]:
    when it returns, the provider and facility name segments of its output are
    those of [pre] and then those of the first occurrences, in order, and the
    registry has recorded them. *)
Definition presents (st : EDI837Builder) (pre : list string) (m : M (list string))
    (occs : list occurrence) : Prop :=
  forall self seen,
    store_of self = st -> agrees (provider_map self) seen ->
    store_of (snd (m self)) = st /\
    on_ok (fun segs =>
             List.filter provider_nm1 segs =
               List.filter provider_nm1 pre
               ++ map occurrence_text (first_occurrences seen occs) /\
             agrees (provider_map (snd (m self))) (seen_after seen occs))
      (fst (m self)).

(** The PER segment of a billing provider that kept its contact. *)
Definition contact_segments (p : BillingProvider) : list string :=
  match bp_contactInfo p with
  | Some c =>
      ["PER*IC*" +:+ dict_get c "name" +:+ "*TE*" +:+ dict_get c "phoneNumber" +:+ "~"]
  | None => []
  end.

Definition acme_annex : add_op :=
  AddBillingProvider "1234567890" "207Q00000X" "123456789" elm_street
    (PStr "Acme Annex") PNone PNone None.

(** Two billing providers with one NPI; a rendering provider with the same
    NPI, and another one added twice and named by the service line; a service
    facility without NPI. *)
Definition store_shared_npi : EDI837Builder :=
  fresh_builder
    [ acme_clinic; acme_annex;
      AddRenderingProvider "1234567890" "207Q00000X" "Clinic" "Acme" "123456789";
      AddRenderingProvider "1111111111" "207R00000X" "House" "Greg" "111111111";
      AddRenderingProvider "1111111111" "207R00000X" "House" "Greg" "111111111";
      AddServiceFacilityLocation "" "Acme Lab" main_street;
      sample_claim;
      AddServiceLine 0 None "99213" [] amount_150 1 "" (Some 1%Z) ].

Definition shared_npi_segments : list string :=
  [ "ISA*00*          *00*          *ZZ*AV09311993     *01*030240928      *240702*1531*^*00501*415133923*0*P*>~";
    "GS*HC*1923294*030240928*20240702*1533*415133923*X*005010X222A1~";
    "ST*837*415133923*005010X222A1~"; "BHT*0019*00*1*20240702*1531*CH~";
    "NM1*41*2*Mattel Industries*****46*1234567890~";
    "PER*IC*Ruth Handler*TE*8458130000~";
    "NM1*40*2*AVAILITY 5010*****46*030240928~";
    "HL*1**20*1~"; "PRV*BI*PXC*207Q00000X~";
    "NM1*85*2*Acme Clinic*****XX*1234567890~"; "N3*1 Main St*~";
    "N4*Springfield*IL*62701~"; "REF*EI*123456789~";
    "CLM*PCN1*150.0***11>B>1*Y*A*Y*Y~";
    "LX*1~"; "SV1*HC>99213*150.0*UN*1.0***1~";
    "NM1*82*1*House*Greg****XX*1111111111~"; "PRV*PE*PXC*207R00000X~";
    "HL*1**20*1~"; "PRV*BI*PXC*207Q00000X~"; "REF*EI*123456789~";
    "CLM*PCN1*150.0***11>B>1*Y*A*Y*Y~";
    "LX*1~"; "SV1*HC>99213*150.0*UN*1.0***1~";
    "SE*23*415133923~"; "GE*1*415133923~"; "IEA*1*415133923~" ].

(** ** Calls on a builder *)

(** A call of a public method. *)
Inductive call :=
| CallAdd (op : add_op)
| CallBuild.

(** The builder after a sequence of calls, with what the [build()] calls
    returned. *)
Fixpoint replay (self : EDI837Builder) (calls : list call)
    : EDI837Builder * list (result string) :=
  match calls with
  | [] => (self, [])
  | CallAdd op :: calls' => replay (apply_op self op) calls'
  | CallBuild :: calls' =>
      let r := replay (snd (build self)) calls' in
      (fst r, fst (build self) :: snd r)
  end.

(** ** What a method leaves alone *)

(** Every NPI of the registry [pm] is still in [pm']. *)
Definition keeps_registry (pm pm' : gmap string entity) : Prop :=
  forall npi, has_key pm npi = true -> has_key pm' npi = true.

(** Whether it returns or raises, the method leaves the claim record store as
    it is and removes nothing from the registry. *)
Definition frame {A} (m : M A) : Prop :=
  forall self,
    store_of (snd (m self)) = store_of self /\
    keeps_registry (provider_map self) (provider_map (snd (m self))).

(** What a second [build()] joins for [store_shared_npi]. *)
Definition shared_npi_second_segments : list string :=
  [ "ISA*00*          *00*          *ZZ*AV09311993     *01*030240928      *240702*1531*^*00501*415133923*0*P*>~";
    "GS*HC*1923294*030240928*20240702*1533*415133923*X*005010X222A1~";
    "ST*837*415133923*005010X222A1~"; "BHT*0019*00*1*20240702*1531*CH~";
    "NM1*41*2*Mattel Industries*****46*1234567890~";
    "PER*IC*Ruth Handler*TE*8458130000~";
    "NM1*40*2*AVAILITY 5010*****46*030240928~";
    "HL*1**20*1~"; "PRV*BI*PXC*207Q00000X~"; "REF*EI*123456789~";
    "CLM*PCN1*150.0***11>B>1*Y*A*Y*Y~";
    "LX*1~"; "SV1*HC>99213*150.0*UN*1.0***1~";
    "HL*1**20*1~"; "PRV*BI*PXC*207Q00000X~"; "REF*EI*123456789~";
    "CLM*PCN1*150.0***11>B>1*Y*A*Y*Y~";
    "LX*1~"; "SV1*HC>99213*150.0*UN*1.0***1~";
    "SE*18*415133923~"; "GE*1*415133923~"; "IEA*1*415133923~" ].

(** ** Contacts, by key *)

(** A call of the sequence recorded a contact under the key [k]. *)
Definition key_supplied (ops : list add_op) (k : string) : bool :=
  existsb (fun op => match supplied_contact op with
                     | Some c' => String.eqb (contact_key c') k
                     | None => false
                     end) ops.

(** The contact that [add_billing_provider] stores, after the calls [pre]. *)
Definition stored_contact (pre : list add_op) (contactInfo : option dict) : option dict :=
  match contactInfo with
  | Some c =>
      if dict_truthy (Some c) && negb (key_supplied pre (contact_key c))
      then Some c else None
  | None => None
  end.

(** [{"name": name, "phoneNumber": phone}]. *)
Definition contact_of (name phone : string) : dict :=
  <["name" := name]> (<["phoneNumber" := phone]> ∅).


(** ** What [build()] reads *)

(** A service line without the two indices that no method reads. *)
Definition forget_line (l : ServiceLine) : ServiceLine := {|
  sl_subscriberIndex := 0;
  sl_patientIndex := None;
  sl_procedureCode := sl_procedureCode l;
  sl_modifierCodes := sl_modifierCodes l;
  sl_chargeAmount := sl_chargeAmount l;
  sl_units := sl_units l;
  sl_serviceDate := sl_serviceDate l;
  sl_renderingProviderIndex := sl_renderingProviderIndex l
|}.

(** The claim without its subscriber index. *)
Definition forget_claim (c : ClaimInformation) : ClaimInformation := {|
  claim_subscriberIndex := 0;
  claim_patientControlNumber := claim_patientControlNumber c;
  claim_claimChargeAmount := claim_claimChargeAmount c;
  claim_placeOfServiceCode := claim_placeOfServiceCode c;
  claim_claimFrequencyCode := claim_claimFrequencyCode c;
  claim_signatureIndicator := claim_signatureIndicator c;
  claim_planParticipationCode := claim_planParticipationCode c;
  claim_releaseInfoCode := claim_releaseInfoCode c;
  claim_benefitsAssignment := claim_benefitsAssignment c;
  claim_diagnosisCodes := claim_diagnosisCodes c
|}.

(** The builder with everything blanked that [build()] and the methods that
    it calls do not read: the version, the three separators, the submitter,
    the patients, the two counters, the contacts seen, the dependents flag
    and the indices above. *)
Definition build_view (self : EDI837Builder) : EDI837Builder := {|
  version := "";
  segment_terminator := "";
  element_separator := "";
  sub_element_separator := "";
  submitter := None;
  billing_providers := billing_providers self;
  subscribers := subscribers self;
  patients := [];
  service_lines := List.map forget_line (service_lines self);
  rendering_providers := rendering_providers self;
  hl_count := 0;
  contact_info_map := ∅;
  segment_count := 0;
  provider_map := provider_map self;
  has_dependents := false;
  payer_info := payer_info self;
  service_facility := service_facility self;
  prior_authorization := prior_authorization self;
  claim_information := option_map forget_claim (claim_information self)
|}.

(** Running the method on the view gives the same result, and the view of
    the builder that the method leaves. *)
Definition commutes {A} (m : M A) : Prop :=
  forall self, m (build_view self) = (fst (m self), build_view (snd (m self))).

Definition legacy_version : string := "004010X098A1".

(** The store of [store_two_providers] once more, on a builder of another
    version, with a submitter, a dependents flag never set, and with other
    subscriber and patient indices in the payer, claim and service-line
    calls. *)
Definition store_other_indices : EDI837Builder :=
  apply_ops (__init__ legacy_version)
    [ AddSubmitter (Some ruth); acme_clinic; elm_clinic; jane_doe; john_doe_at_elm;
      AddPayer 7 "Aetna" "WIMCD";
      AddClaimInformation 5 "PCN1" amount_150 "11" "1" "Y" "A" "Y" "Y" None;
      AddServiceLine 3 (Some 2%Z) "99213" [] amount_150 1 "" None ].

(** ** The exceptions of [build()] *)

Definition outcome {A} (R : A -> Prop) (F : exn -> Prop) (r : result A) : Prop :=
  match r with
  | Ok a => R a
  | Raise e => F e
  end.

Definition address_keys : list string := ["address1"; "city"; "state"; "postalCode"].

Definition diagnosis_keys : list string := ["diagnosisTypeCode"; "diagnosisCode"].

(** The address of a billing provider or of a subscriber has no key [k]. *)
Definition address_lacks (st : EDI837Builder) (k : string) : Prop :=
  (exists p, In p (billing_providers st) /\ bp_address p !! k = None) \/
  (exists s, In s (subscribers st) /\ sub_address s !! k = None).

(** A diagnosis code of the claim has no key [k]. *)
Definition diagnosis_lacks (st : EDI837Builder) (k : string) : Prop :=
  exists c d,
    claim_information st = Some c /\ In d (claim_diagnosisCodes c) /\ d !! k = None.

(** What an exception of [build()] says about the store. *)
Definition explained (st : EDI837Builder) (e : exn) : Prop :=
  match e with
  | AttributeError a => a = "payer_info" /\ payer_info st = None
  | KeyError k =>
      (In k address_keys /\ address_lacks st k) \/
      (In k diagnosis_keys /\ diagnosis_lacks st k)
  | IndexError | TypeError => False
  end.

(** ** A build that fails *)

(** The first of the four address keys that [a] does not have. *)
Definition first_missing (a : dict) : option string :=
  List.find (fun k => negb (has_key a k)) address_keys.

(** The loop of a billing provider that the registry refuses: no name, no
    address. *)
Definition billing_loop_without_name (p : BillingProvider) : list string :=
  [ "HL*1**20*1~";
    "PRV*BI*PXC*" +:+ bp_taxonomyCode p +:+ "~";
    "REF*EI*" +:+ bp_employerId p +:+ "~" ] ++ contact_segments p.

Definition acme_without_city : BillingProvider := {|
  bp_npi := "1234567890";
  bp_taxonomyCode := "207Q00000X";
  bp_employerId := "123456789";
  bp_address := <["address1" := "1 Main St"]> ∅;
  bp_name := Organization "Acme Clinic";
  bp_contactInfo := None
|}.

(** A billing provider whose address has a first line only. *)
Definition store_incomplete_address : EDI837Builder :=
  fresh_builder
    [ AddBillingProvider "1234567890" "207Q00000X" "123456789"
        (<["address1" := "1 Main St"]> ∅) (PStr "Acme Clinic") PNone PNone None;
      jane_doe; AddPayer 0 "Aetna" "WIMCD" ].

(** ** The lists of records *)

(** [l'] is [l] with further elements at its end. *)
Definition extends {A} (l l' : list A) : Prop := exists rest, l' = l ++ rest.

(** The four lists of [self'] are those of [self], extended. *)
Definition lists_extend (self self' : EDI837Builder) : Prop :=
  extends (billing_providers self) (billing_providers self') /\
  extends (subscribers self) (subscribers self') /\
  extends (service_lines self) (service_lines self') /\
  extends (rendering_providers self) (rendering_providers self').

(** ** Service lines *)

(** [LX*i~]. *)
Definition lx_segment (i : nat) : string := "LX*" +:+ pretty i +:+ "~".

(** The SV1 segment of a service line: the procedure code and the modifiers,
    joined by colons, the amount and the units. *)
Definition sv1_segment (service : ServiceLine) : string :=
  "SV1*HC>" +:+ String.concat ":" (sl_procedureCode service :: sl_modifierCodes service)
  +:+ "*" +:+ float_str (sl_chargeAmount service) +:+ "*UN*"
  +:+ pretty (sl_units service) +:+ ".0***1~".

(** ** The segments of the output *)

(** The last character of [s] is the segment terminator. *)
Fixpoint ends_with_terminator (s : string) : bool :=
  match s with
  | "" => false
  | String c s' =>
      match s' with
      | "" => Ascii.eqb c "~"
      | _ => ends_with_terminator s'
      end
  end.

(** The name segment of the payer. *)
Definition is_payer_name (s : string) : bool := starts_with "NM1*PR*" s.

(** The three hierarchical-level segments: of a billing provider, of a
    dependent, and of a subscriber in a store of [n + 1] subscriber records. *)
Definition hl_shape (st : EDI837Builder) (s : string) : Prop :=
  s = "HL*1**20*1~" \/ s = "HL*3*2*23*0~" \/
  s = "HL*2*1*22*" +:+ pretty (Z.of_nat (length (subscribers st)) - 1)%Z +:+ "~".

Definition seg_ok (st : EDI837Builder) (s : string) : Prop :=
  ends_with_terminator s = true /\ (has_tag "HL" s = true -> hl_shape st s).

Definition body_ok (st : EDI837Builder) (s : string) : Prop :=
  seg_ok st s /\ is_payer_name s = false.

(** The first subscriber of the store is attached to the billing provider of
    index [i]. *)
Definition first_subscriber_under (st : EDI837Builder) (i : nat) : bool :=
  match subscribers st with
  | sub :: _ => (sub_billingProviderIndex sub =? Z.of_nat i)%Z
  | [] => false
  end.

(** Number of payer name segments of the output: one when the first
    subscriber is attached to a billing provider of the store. *)
Definition payer_names (st : EDI837Builder) : nat :=
  match subscribers st with
  | sub :: _ =>
      if (0 <=? sub_billingProviderIndex sub)%Z
         && (sub_billingProviderIndex sub <? Z.of_nat (length (billing_providers st)))%Z
      then 1 else 0
  | [] => 0
  end.

(** The payer name segments that the loop body of [build()] emits for the
    subscriber of index [j] under the billing provider of index [i]. *)
Definition payer_under (i : nat) (p : nat * Subscriber) : nat :=
  if (sub_billingProviderIndex (snd p) =? Z.of_nat i)%Z && Nat.eqb (fst p) 0 then 1 else 0.

Definition block_post (st : EDI837Builder) (i : nat) (segs : list string) : Prop :=
  Forall (seg_ok st) segs /\
  count_if is_payer_name segs = if first_subscriber_under st i then 1%nat else 0%nat.

(** ** The single records *)

(** Two calls set the same single record: the payer, the claim, the service
    facility or the prior authorization. *)
Definition same_single (o o' : add_op) : bool :=
  match o, o' with
  | AddPayer _ _ _, AddPayer _ _ _ => true
  | AddClaimInformation _ _ _ _ _ _ _ _ _ _, AddClaimInformation _ _ _ _ _ _ _ _ _ _ => true
  | AddServiceFacilityLocation _ _ _, AddServiceFacilityLocation _ _ _ => true
  | AddPriorAuthorization _, AddPriorAuthorization _ => true
  | _, _ => false
  end.

(** The calls without those that a later call overrides. *)
Fixpoint effective (ops : list add_op) : list add_op :=
  match ops with
  | [] => []
  | o :: rest => if existsb (same_single o) rest then effective rest else o :: effective rest
  end.

(** ** The name of a billing provider *)

(** The NM1 segment of a billing provider: an organization when an
    organization name was given, a person otherwise. *)
Definition billing_name_segment (npi : string) (org l f : pyval) : string :=
  if truthy org
  then "NM1*85*2*" +:+ fmt org +:+ "*****XX*" +:+ npi +:+ "~"
  else "NM1*85*1*" +:+ fmt l +:+ "*" +:+ fmt f +:+ "****XX*" +:+ npi +:+ "~".

(** The loop of a billing provider added with its NPI, taxonomy code,
    employer identifier and address only. *)
Definition nameless_provider_loop : list string :=
  [ "HL*1**20*1~"; "PRV*BI*PXC*207Q00000X~"; "NM1*85*1*None*None****XX*1234567890~";
    "N3*1 Main St*~"; "N4*Springfield*IL*62701~"; "REF*EI*123456789~" ].

(** ** The blocks of the output, method by method *)

(** Run on [self], the method [m] returns [a] and leaves the builder
    [self']. *)
Definition runs {A} (m : M A) (self : EDI837Builder) (a : A) (self' : EDI837Builder)
    : Prop :=
  m self = (Ok a, self').

(** A loop: [step x] is run for every [x] of the list, in the order of the
    list, each run on the builder that the run before it has left. *)
Inductive in_turn {X B} (step : X -> EDI837Builder -> B -> EDI837Builder -> Prop)
    : list X -> EDI837Builder -> list B -> EDI837Builder -> Prop :=
| in_turn_nil self : in_turn step [] self [] self
| in_turn_cons x l self part self1 parts self' :
    step x self part self1 ->
    in_turn step l self1 parts self' ->
    in_turn step (x :: l) self (part :: parts) self'.

(** What the block of the billing provider of index [i] holds for the
    subscriber of index [fst p]: nothing when the subscriber is attached to
    another billing provider, otherwise what [_create_subscriber_loop]
    returns for it, followed by what [_create_payer] returns when it is the
    first subscriber of the store. *)
Definition subscriber_step (i : nat) (p : nat * Subscriber)
    (self : EDI837Builder) (part : list string) (self' : EDI837Builder) : Prop :=
  if (sub_billingProviderIndex (snd p) =? Z.of_nat i)%Z then
    exists loop self1,
      runs (_create_subscriber_loop (fst p)) self loop self1 /\
      if Nat.eqb (fst p) 0
      then exists payer, runs _create_payer self1 payer self' /\ part = loop ++ [payer]
      else part = loop /\ self' = self1
  else part = [] /\ self' = self.

(** The block of the billing provider of index [fst p]: what
    [_create_billing_provider_loop] returns for it, then the subscribers of
    the store in the order in which they were added, then what
    [_create_claim_information_loop], [_create_service_lines] and
    [_create_rendering_provider_segments] return, each run on the builder
    that the run before it has left. *)
Definition block_step (p : nat * BillingProvider)
    (self : EDI837Builder) (b : provider_block) (self' : EDI837Builder) : Prop :=
  exists self1 parts self2 self3 self4,
    runs (_create_billing_provider_loop (fst p)) self (pb_provider b) self1 /\
    in_turn (subscriber_step (fst p)) (enumerate (subscribers self)) self1 parts self2 /\
    pb_subscribers b = concat parts /\
    runs _create_claim_information_loop self2 (pb_claim b) self3 /\
    runs _create_service_lines self3 (pb_lines b) self4 /\
    runs _create_rendering_provider_segments self4 (pb_rendering b) self'.

(** ** The registry at the start of [build()] *)


(** ** Contacts with the same key *)

(** Two billing providers whose contacts differ in name and in phone number
    and have the same key [Ann_Lee_5550100)]. *)
Definition ops_colliding_contacts : list add_op :=
  [ AddBillingProvider "1234567890" "207Q00000X" "123456789" main_street
      (PStr "Acme Clinic") PNone PNone (Some (contact_of "Ann_Lee" "5550100"));
    AddBillingProvider "2222222222" "207Q00000X" "987654321" elm_street
      (PStr "Elm Clinic") PNone PNone (Some (contact_of "Ann" "Lee_5550100")) ].

(** * Properties *)

(** ** Strings *)

Lemma append_assoc (a b c : string) : (a +:+ b) +:+ c = a +:+ (b +:+ c).
Proof. induction a as [|x a IH]; simpl; [reflexivity | now rewrite IH]. Qed.

(** Bring a concatenation to the form [c1 c2 ... +:+ (x +:+ (...))]. *)
Ltac string_norm := repeat (progress (simpl; rewrite ?append_assoc)).

(** ** The payer singleton *)

(** C1, evaluated on the code: with a billing provider and a subscriber
    attached to it but no payer, [build()] does not return a transaction; it
    raises [AttributeError] on the attribute [payer_info], which [__init__]
    never creates. *)
Theorem build_without_payer_raises :
  fst (build store_without_payer) = Raise (AttributeError "payer_info").
Proof. vm_compute. reflexivity. Qed.

(** ** Subscriber loops *)

Lemma subscriber_name_segment self sub :
  _create_name_segment (ESubscriber sub) "subscriber" self =
  (Ok (Some ("NM1*IL*1*" +:+ sub_lastName sub +:+ "*" +:+ sub_firstName sub
             +:+ "****MI*" +:+ sub_memberId sub +:+ "~")), self).
Proof.
  unfold _create_name_segment, bind. cbn. unfold ret. do 2 f_equal. f_equal.
  unfold name_segment_text. now string_norm.
Qed.

Lemma address_demographics_ok sub a c s z :
  address_has (sub_address sub) a c s z ->
  subscriber_address_demographics sub = Ok (address_demographics a c s z sub).
Proof.
  intros (H1 & H2 & H3 & H4).
  unfold subscriber_address_demographics, subscript.
  now rewrite H1, H2, H3, H4.
Qed.

Lemma subscriber_loop_unfold self i sub :
  subscribers self !! i = Some sub ->
  _create_subscriber_loop i self =
  (if sub_is_dependent sub then
     match subscriber_address_demographics sub with
     | Ok tail =>
         Ok (match sub_paymentResponsibilityLevelCode sub with
             | Primary =>
                 [ "HL*3*2*23*0~"; "PAT*01~";
                   "NM1*QC*1*" +:+ sub_lastName sub +:+ "*" +:+ sub_firstName sub +:+ "~" ]
             | _ => ["HL*3*2*23*0~"]
             end ++ tail)
     | Raise e => Raise e
     end
   else if (Z.of_nat (length (subscribers self)) - 1 =? 0)%Z then
     match subscriber_address_demographics sub with
     | Ok tail => Ok (subscriber_head sub (length (subscribers self)) "18" ++ tail)
     | Raise e => Raise e
     end
   else Ok (subscriber_head sub (length (subscribers self)) ""),
   self).
Proof.
  intros Hsub.
  unfold _create_subscriber_loop, bind, attr, lift, index. rewrite Hsub.
  rewrite subscriber_name_segment.
  destruct (sub_is_dependent sub).
  - destruct (subscriber_address_demographics sub); [|reflexivity].
    now destruct (sub_paymentResponsibilityLevelCode sub).
  - unfold ret, subscriber_head.
    destruct (Z.of_nat (length (subscribers self)) - 1 =? 0)%Z eqn:E.
    + assert ((0 <? Z.of_nat (length (subscribers self)) - 1)%Z = false) as ->
        by (apply Z.eqb_eq in E; rewrite E; reflexivity).
      now destruct (subscriber_address_demographics sub).
    + assert ((0 <? Z.of_nat (length (subscribers self)) - 1)%Z = true) as ->.
      { apply Z.eqb_neq in E. apply Z.ltb_lt.
        apply lookup_lt_Some in Hsub. lia. }
      reflexivity.
Qed.

(** C2, counterexample: in a store of two non-dependent subscribers, the loop
    of the subscriber at store index 0 has neither address nor demographic
    segments, and the relationship field of its SBR segment is blank. *)
Lemma first_of_two_subscribers_has_no_address :
  subscribers store_two_subscribers !! 0%nat = Some jane_doe_record /\
  sub_is_dependent jane_doe_record = false /\
  fst (_create_subscriber_loop 0 store_two_subscribers) =
  Ok [ "HL*2*1*22*1~"; "SBR*P********CI~"; "NM1*IL*1*Doe*Jane****MI*M100~" ].
Proof. repeat split; vm_compute; reflexivity. Qed.

(** C2, amended: the loop of a non-dependent subscriber carries the address
    (N3, N4) and demographic (DMG) segments, and the code 18 in the
    relationship field of SBR, exactly when the store holds one subscriber
    record in all (dependents included); in a store of several records the
    loop is HL, SBR with a blank relationship field, and NM1, whatever the
    index of the subscriber. *)
Theorem subscriber_loop_address_iff_sole_record self i sub :
  subscribers self !! i = Some sub ->
  sub_is_dependent sub = false ->
  (length (subscribers self) <> 1%nat ->
   fst (_create_subscriber_loop i self) =
   Ok (subscriber_head sub (length (subscribers self)) "")) /\
  (length (subscribers self) = 1%nat ->
   i = 0%nat /\
   forall a c s z, address_has (sub_address sub) a c s z ->
   fst (_create_subscriber_loop i self) =
   Ok (subscriber_head sub 1 "18" ++ address_demographics a c s z sub)).
Proof.
  intros Hsub Hdep. rewrite (subscriber_loop_unfold _ _ _ Hsub), Hdep. simpl fst.
  split; intros Hn.
  - destruct (Z.eqb_spec (Z.of_nat (length (subscribers self)) - 1) 0); [lia | reflexivity].
  - split; [apply lookup_lt_Some in Hsub; lia |].
    intros a c s z Haddr. rewrite Hn. simpl Z.eqb. cbv iota.
    now rewrite (address_demographics_ok _ _ _ _ _ Haddr).
Qed.

Lemma subscriber_loop_address_iff_sole_record_witness :
  fst (_create_subscriber_loop 0 store_two_subscribers) =
  Ok (subscriber_head jane_doe_record 2 "").
Proof.
  apply (subscriber_loop_address_iff_sole_record store_two_subscribers 0 jane_doe_record);
    [reflexivity | reflexivity | vm_compute; lia].
Defined.

(** C8: the loop of a dependent is HL*3*2*23*0~, then, for the payment
    responsibility Primary, PAT*01~ and NM1*QC*1*<last>*<first>~, then the
    address (N3, N4) and demographic (DMG) segments; for Secondary the PAT and
    NM1 pair is left out and the address and demographic segments remain. *)
Theorem dependent_loop self i sub a c s z :
  subscribers self !! i = Some sub ->
  sub_is_dependent sub = true ->
  address_has (sub_address sub) a c s z ->
  (sub_paymentResponsibilityLevelCode sub = Primary ->
   fst (_create_subscriber_loop i self) =
   Ok ([ "HL*3*2*23*0~"; "PAT*01~";
         "NM1*QC*1*" +:+ sub_lastName sub +:+ "*" +:+ sub_firstName sub +:+ "~" ]
       ++ address_demographics a c s z sub)) /\
  (sub_paymentResponsibilityLevelCode sub = Secondary ->
   fst (_create_subscriber_loop i self) =
   Ok ("HL*3*2*23*0~" :: address_demographics a c s z sub)).
Proof.
  intros Hsub Hdep Haddr.
  rewrite (subscriber_loop_unfold _ _ _ Hsub), Hdep,
    (address_demographics_ok _ _ _ _ _ Haddr).
  split; intros ->; reflexivity.
Qed.

Lemma dependent_loop_witness :
  fst (_create_subscriber_loop 1 store_with_dependent) =
  Ok ([ "HL*3*2*23*0~"; "PAT*01~"; "NM1*QC*1*Doe*Billy~" ]
      ++ address_demographics "1 Main St" "Springfield" "IL" "62701" billy_doe_record).
Proof.
  refine (proj1 (dependent_loop store_with_dependent 1 billy_doe_record
                   "1 Main St" "Springfield" "IL" "62701" _ _ _) _);
    try reflexivity.
  repeat split; reflexivity.
Defined.

(** ** The single-claim scenario *)

(** C4, counterexample: on the store built by the four calls of the scenario
    [build()] returns no output at all (no payer was added); and once a payer
    is added, the output holds no segment with the amount written 150.00:
    the float is rendered 150.0. *)
Lemma scenario_has_no_150_00_segment :
  fst (build (fresh_builder (scenario_ops sample_details))) =
    Raise (AttributeError "payer_info") /\
  exists segs,
    fst (build_segments
           (fresh_builder (scenario_ops sample_details ++ [AddPayer 0 "Aetna" "WIMCD"]))) =
      Ok segs /\
    count_seg "CLM*PCN1*150.00***11>B>1*Y*A*Y*Y~" segs = 0%nat /\
    count_seg "SV1*HC>99213*150.00*UN*1.0***1~" segs = 0%nat.
Proof.
  split; [vm_compute; reflexivity |].
  eexists. split; [vm_compute; reflexivity |]. split; vm_compute; reflexivity.
Qed.

(** C4, amended: for the store built by the four calls of the scenario and a
    call of [add_payer], the segments joined by [build()] hold exactly one
    HL*1**20*1~, one HL*2*1*22*0~, one CLM*PCN1*150.0***11>B>1*Y*A*Y*Y~, one
    LX*1~ and one SV1*HC>99213*150.0*UN*1.0***1~ (the amounts as Python
    formats the float 150.00). *)
Theorem scenario_segments (d : scenario_details) (payer_name payer_id : string) :
  exists segs,
    fst (build_segments
           (fresh_builder (scenario_ops d ++ [AddPayer 0 payer_name payer_id]))) = Ok segs /\
    fst (build (fresh_builder (scenario_ops d ++ [AddPayer 0 payer_name payer_id]))) =
      Ok (String.concat newline segs) /\
    count_seg "HL*1**20*1~" segs = 1%nat /\
    count_seg "HL*2*1*22*0~" segs = 1%nat /\
    count_seg "CLM*PCN1*150.0***11>B>1*Y*A*Y*Y~" segs = 1%nat /\
    count_seg "LX*1~" segs = 1%nat /\
    count_seg "SV1*HC>99213*150.0*UN*1.0***1~" segs = 1%nat.
Proof.
  destruct d as [eid [[[a1 c1] s1] z1] l f [[[a2 c2] s2] z2] bd g rel [|ch sd]].
  all: eexists; split; [vm_compute; reflexivity |].
  all: split; [vm_compute; reflexivity |].
  all: repeat split; vm_compute; reflexivity.
Qed.

(** ** The provider registry *)

Lemma can_create_provider_other e context self :
  provider_context context = false ->
  _can_create_provider e context self = (Ok true, self).
Proof. intros H. unfold _can_create_provider. fold (provider_context context). now rewrite H. Qed.

Lemma entity_npi_default e : entity_get_default e "npi" = PStr (entity_npi e).
Proof. now destruct e. Qed.

Lemma can_create_provider_spec e context self :
  provider_context context = true ->
  _can_create_provider e context self =
  if refused (provider_map self) (entity_npi e) then (Ok false, self)
  else (Ok true, register e self).
Proof.
  intros H. unfold _can_create_provider. fold (provider_context context). rewrite H.
  cbn [negb]. rewrite entity_npi_default. cbn [truthy fmt]. unfold refused.
  destruct (String.eqb (entity_npi e) ""); cbn; [reflexivity |].
  now destruct (has_key (provider_map self) (entity_npi e)).
Qed.

Lemma name_segment_other e context self :
  provider_context context = false ->
  _create_name_segment e context self = (Ok (Some (name_segment_text e context)), self).
Proof.
  intros H. unfold _create_name_segment, bind. now rewrite can_create_provider_other.
Qed.

Lemma name_segment_spec e context self :
  provider_context context = true ->
  _create_name_segment e context self =
  if refused (provider_map self) (entity_npi e) then (Ok None, self)
  else (Ok (Some (name_segment_text e context)), register e self).
Proof.
  intros H. unfold _create_name_segment, bind. rewrite can_create_provider_spec by exact H.
  now destruct (refused (provider_map self) (entity_npi e)).
Qed.

Lemma name_segment_text_tag e context : has_tag "NM1" (name_segment_text e context) = true.
Proof.
  unfold name_segment_text, has_tag.
  destruct (String.eqb (_determine_entity_type e context) "1");
    string_norm; reflexivity.
Qed.

Lemma name_segment_text_nonempty e context :
  String.eqb (name_segment_text e context) "" = false.
Proof.
  pose proof (name_segment_text_tag e context) as H.
  destruct (name_segment_text e context); [discriminate H | reflexivity].
Qed.

(** ** Reasoning on methods *)

Lemma triple_ret {A} st (a : A) (Q : result A -> Prop) :
  Q (Ok a) -> triple st (ret a) Q.
Proof. intros H self Hs. now split. Qed.

Lemma triple_attr {A} st (f : EDI837Builder -> A) (Q : result A -> Prop) :
  (forall self, store_of self = st -> Q (Ok (f self))) -> triple st (attr f) Q.
Proof. intros H self Hs. split; [exact Hs | now apply H]. Qed.

Lemma triple_bind {A B} st (m : M A) (k : A -> M B) (R : A -> Prop) Q :
  triple st m (on_ok R) ->
  (forall a, R a -> triple st (k a) (on_ok Q)) ->
  triple st (bind m k) (on_ok Q).
Proof.
  intros Hm Hk self Hs. unfold bind.
  destruct (Hm self Hs) as [Hs' HR].
  destruct (m self) as [[a|e] self']; simpl in *; [now apply Hk | now split].
Qed.

Lemma triple_weaken {A} st (m : M A) (P Q : A -> Prop) :
  triple st m (on_ok P) -> (forall a, P a -> Q a) -> triple st m (on_ok Q).
Proof.
  intros Hm HPQ self Hs. destruct (Hm self Hs) as [Hs' HP]. split; [exact Hs' |].
  destruct (fst (m self)); simpl in *; auto.
Qed.

Lemma triple_for_each {A} st (body : A -> M (list string))
    (R : A -> list string -> Prop) (l : list A) :
  (forall x, In x l -> triple st (body x) (on_ok (R x))) ->
  triple st (for_each body l)
    (on_ok (fun segs => exists parts, Forall2 R l parts /\ segs = concat parts)).
Proof.
  induction l as [|x l IH]; intros Hbody; simpl for_each.
  - apply triple_ret. exists []. split; [constructor | reflexivity].
  - eapply triple_bind; [apply Hbody; now left |]. intros s Hs.
    eapply triple_bind; [apply IH; intros y Hy; apply Hbody; now right |].
    intros r (parts & Hparts & ->). apply triple_ret.
    exists (s :: parts). split; [now constructor | reflexivity].
Qed.

(** ** Segment identifiers *)

Lemma starts_with_app p a b : starts_with p a = true -> starts_with p (a +:+ b) = true.
Proof.
  revert a; induction p as [|x p IH]; intros a H; simpl in *; [reflexivity |].
  destruct a as [|y a]; [discriminate |]. simpl.
  apply andb_true_iff in H as [-> H]. simpl. now apply IH.
Qed.

Lemma all_tagged_app tags a b :
  all_tagged tags a -> all_tagged tags b -> all_tagged tags (a ++ b).
Proof. intros Ha Hb. apply Forall_app. now split. Qed.

Lemma all_tagged_concat tags parts :
  Forall (all_tagged tags) parts -> all_tagged tags (concat parts).
Proof.
  induction 1 as [|p parts Hp _ IH]; simpl; [constructor | now apply all_tagged_app].
Qed.

Lemma tag_in_name_segment tags e context :
  In "NM1" tags -> tag_in tags (name_segment_text e context) = true.
Proof.
  intros H. unfold tag_in. apply existsb_exists. exists "NM1".
  split; [exact H | apply name_segment_text_tag].
Qed.

Ltac solve_tag :=
  first [ apply tag_in_name_segment; simpl; tauto
        | reflexivity
        | vm_compute; reflexivity ].

Ltac solve_all_tagged :=
  unfold all_tagged; repeat (apply List.Forall_cons; [solve_tag |]); apply List.Forall_nil.

Lemma billing_loop_part st idx :
  triple st (_create_billing_provider_loop idx) (on_ok provider_part).
Proof.
  intros self Hs. unfold _create_billing_provider_loop, bind, attr, lift, index.
  destruct (billing_providers self !! idx) as [p|]; [|now split].
  rewrite name_segment_spec by reflexivity.
  destruct (refused _ _); cbn [name_truthy name_str].
  - unfold ret.
    destruct (bp_contactInfo p); (split; [exact Hs |]); simpl;
      eexists; (split; [reflexivity | solve_all_tagged]).
  - rewrite name_segment_text_nonempty. cbn [negb].
    unfold subscript.
    destruct (bp_address p !! "address1"); [|now split].
    destruct (bp_address p !! "city"); [|now split].
    destruct (bp_address p !! "state"); [|now split].
    destruct (bp_address p !! "postalCode"); [|now split].
    unfold ret.
    destruct (bp_contactInfo p); (split; [exact Hs |]); simpl;
      eexists; (split; [reflexivity | solve_all_tagged]).
Qed.

Lemma address_demographics_tagged sub tail :
  subscriber_address_demographics sub = Ok tail ->
  all_tagged ["N3"; "N4"; "DMG"] tail.
Proof.
  unfold subscriber_address_demographics, subscript.
  destruct (sub_address sub !! "address1"); [|discriminate].
  destruct (sub_address sub !! "city"); [|discriminate].
  destruct (sub_address sub !! "state"); [|discriminate].
  destruct (sub_address sub !! "postalCode"); [|discriminate].
  intros [= <-]. solve_all_tagged.
Qed.

Lemma all_tagged_incl tags tags' segs :
  incl tags tags' -> all_tagged tags segs -> all_tagged tags' segs.
Proof.
  intros Hincl Hall. unfold all_tagged. eapply List.Forall_impl; [|exact Hall].
  intros s H. cbv beta in *.
  unfold tag_in in *. apply existsb_exists in H as (t & Ht & Hs).
  apply existsb_exists. exists t. split; [now apply Hincl | exact Hs].
Qed.

Ltac solve_incl :=
  let x := fresh in let H := fresh in
  intros x H; simpl in H |- *; tauto.

Lemma subscriber_loop_part st i :
  triple st (_create_subscriber_loop i) (on_ok subscriber_part).
Proof.
  intros self Hs. destruct (subscribers self !! i) as [sub|] eqn:Hsub.
  - rewrite (subscriber_loop_unfold _ _ _ Hsub). split; [exact Hs |]. cbn [fst].
    assert (forall tail, subscriber_address_demographics sub = Ok tail ->
                         subscriber_part tail) as Htail.
    { intros tail H. eapply all_tagged_incl; [|apply (address_demographics_tagged _ _ H)].
      solve_incl. }
    destruct (sub_is_dependent sub).
    + destruct (subscriber_address_demographics sub) as [tail|] eqn:E; [|exact I].
      apply all_tagged_app; [|now apply Htail].
      destruct (sub_paymentResponsibilityLevelCode sub); solve_all_tagged.
    + destruct (Z.eqb _ _).
      * destruct (subscriber_address_demographics sub) as [tail|] eqn:E; [|exact I].
        apply all_tagged_app; [solve_all_tagged | now apply Htail].
      * solve_all_tagged.
  - unfold _create_subscriber_loop, bind, attr, lift, index. rewrite Hsub. now split.
Qed.

Lemma payer_part st :
  triple st _create_payer (on_ok (fun s => subscriber_part [s])).
Proof.
  intros self Hs. unfold _create_payer, bind, opt_attr.
  destruct (payer_info self); (split; [exact Hs |]); [|exact I].
  solve_all_tagged.
Qed.

Lemma build_subscriber_part st provider_idx p :
  triple st (build_subscriber provider_idx p) (on_ok subscriber_part).
Proof.
  unfold build_subscriber.
  destruct (Z.eqb _ _); [|apply triple_ret; constructor].
  eapply triple_bind; [apply subscriber_loop_part |]. intros loop Hloop.
  eapply triple_bind with (R := fun _ => True).
  { intros self Hs. unfold opt_attr. destruct (payer_info self); now split. }
  intros _ _. destruct (Nat.eqb _ _); [|now apply triple_ret].
  eapply triple_bind; [apply payer_part |]. intros s Hs.
  apply triple_ret. now apply all_tagged_app.
Qed.

Lemma facility_part st :
  triple st _create_service_facility_segments
    (on_ok (all_tagged ["REF"; "HI"; "NM1"; "N3"; "N4"])).
Proof.
  intros self Hs. unfold _create_service_facility_segments, bind, attr.
  destruct (service_facility self) as [f|]; [|split; [exact Hs | constructor]].
  rewrite name_segment_spec by reflexivity.
  destruct (refused _ _); cbn [name_truthy name_str];
    [split; [exact Hs | constructor] |].
  rewrite name_segment_text_nonempty. cbn [negb]. split; [exact Hs |]. cbn [fst ret].
  destruct (has_key (sf_address f) "address1");
    destruct (negb (String.eqb (dict_get (sf_address f) "address2") ""));
    destruct (has_key (sf_address f) "city" && has_key (sf_address f) "state"
              && has_key (sf_address f) "postalCode");
    solve_all_tagged.
Qed.

Lemma claim_loop_part st :
  triple st _create_claim_information_loop (on_ok (claim_part st)).
Proof.
  intros self Hs. unfold claim_part.
  assert (claim_information st = claim_information self) as -> by now subst st.
  unfold _create_claim_information_loop, bind, attr.
  destruct (claim_information self) as [claim|]; [|now split].
  assert (forall segs : list string,
             all_tagged ["REF"; "HI"; "NM1"; "N3"; "N4"] segs ->
             forall clm, has_tag "CLM" clm = true ->
             store_of (snd (match service_facility self with
                            | Some _ =>
                                do fs <- _create_service_facility_segments in
                                ret ((clm :: segs) ++ fs)
                            | None => ret (clm :: segs)
                            end self)) = st /\
             on_ok (fun segs0 => exists clm0 rest,
                        segs0 = clm0 :: rest /\ has_tag "CLM" clm0 = true /\
                        all_tagged ["REF"; "HI"; "NM1"; "N3"; "N4"] rest)
               (fst (match service_facility self with
                     | Some _ =>
                         do fs <- _create_service_facility_segments in
                         ret ((clm :: segs) ++ fs)
                     | None => ret (clm :: segs)
                     end self))) as Hfac.
  { intros segs Hsegs clm Hclm.
    destruct (service_facility self) eqn:Hf.
    - unfold bind. destruct (facility_part st self Hs) as [Hs' Hfs].
      destruct (_create_service_facility_segments self) as [[fs|e] self']; simpl in *;
        [|now split].
      split; [exact Hs' |]. exists clm, (segs ++ fs).
      repeat split; [exact Hclm | now apply all_tagged_app].
    - split; [exact Hs |]. exists clm, segs. now repeat split. }
  set (clm := (_ +:+ _)%string).
  assert (has_tag "CLM" clm = true) as Hclm by (subst clm; string_norm; reflexivity).
  clearbody clm.
  destruct (prior_authorization self) as [n|];
    destruct (claim_diagnosisCodes claim) as [|d ds]; cbn [app lift ret].
  - apply (Hfac ["REF*G1*" +:+ n +:+ "~"]); [solve_all_tagged | exact Hclm].
  - destruct (diag_codes (d :: ds)) as [codes|e]; [|now split].
    apply (Hfac ["REF*G1*" +:+ n +:+ "~"; "HI*" +:+ String.concat ">" codes +:+ "~"]);
      [solve_all_tagged | exact Hclm].
  - apply (Hfac []); [constructor | exact Hclm].
  - destruct (diag_codes (d :: ds)) as [codes|e]; [|now split].
    apply (Hfac ["HI*" +:+ String.concat ">" codes +:+ "~"]);
      [solve_all_tagged | exact Hclm].
Qed.

Lemma starts_with_first a p b q s :
  starts_with (String a p) s = true -> a <> b -> starts_with (String b q) s = false.
Proof.
  destruct s as [|c s]; cbn [starts_with]; [discriminate |].
  intros H Hab. apply andb_true_iff in H as [Ha _]. apply Ascii.eqb_eq in Ha. subst c.
  apply andb_false_iff. left. apply Ascii.eqb_neq. congruence.
Qed.

Lemma fold_modifiers_starts_with p mods acc :
  starts_with p acc = true ->
  starts_with p (fold_left (fun acc mod_ => acc +:+ ":" +:+ mod_) mods acc) = true.
Proof.
  revert acc; induction mods as [|m mods IH]; intros acc H; simpl; [exact H |].
  apply IH. now apply starts_with_app.
Qed.

Lemma count_if_app f a b : count_if f (a ++ b) = (count_if f a + count_if f b)%nat.
Proof. induction a as [|x a IH]; simpl; [reflexivity | rewrite IH; lia]. Qed.

Lemma count_if_zero f segs :
  Forall (fun s => f s = false) segs -> count_if f segs = 0%nat.
Proof. induction 1 as [|s segs Hs _ IH]; simpl; [reflexivity | now rewrite Hs, IH]. Qed.

Lemma service_line_part st p :
  triple st (service_line_segments p)
    (on_ok (fun segs => all_tagged ["LX"; "SV1"; "DTP"; "NM1"; "PRV"] segs /\
                        count_tag "LX" segs = 1%nat)).
Proof.
  intros self Hs. unfold service_line_segments.
  set (sv1 := (fold_left _ _ _ +:+ _)%string).
  assert (has_tag "SV1" sv1 = true) as Hsv1.
  { subst sv1. apply starts_with_app, fold_modifiers_starts_with. reflexivity. }
  assert (has_tag "LX" sv1 = false) as Hlx.
  { apply (starts_with_first _ _ _ _ _ Hsv1). discriminate. }
  assert (tag_in ["LX"; "SV1"; "DTP"; "NM1"; "PRV"] sv1 = true) as Hin.
  { unfold tag_in. apply existsb_exists. exists "SV1". split; [simpl; tauto | exact Hsv1]. }
  clearbody sv1.
  set (lx := ("LX*" +:+ _)%string).
  assert (has_tag "LX" lx = true) as Hl by reflexivity.
  assert (tag_in ["LX"; "SV1"; "DTP"; "NM1"; "PRV"] lx = true) as Hlin by reflexivity.
  clearbody lx.
  assert (forall e, has_tag "LX" (name_segment_text e "rendering_provider") = false) as Hnm.
  { intros e. apply (starts_with_first _ _ _ _ _ (name_segment_text_tag e _)). discriminate. }
  assert (forall segs,
             all_tagged ["LX"; "SV1"; "DTP"; "NM1"; "PRV"] segs ->
             count_tag "LX" segs = 1%nat ->
             store_of (snd (match sl_renderingProviderIndex (snd p) with
                | Some provider_idx =>
                    do rps <- attr rendering_providers in
                    if (0 <=? provider_idx)%Z && (provider_idx <? Z.of_nat (length rps))%Z
                    then
                      do provider <- lift (index rps (Z.to_nat provider_idx)) in
                      do name_segment <-
                        _create_name_segment (ERendering provider) "rendering_provider" in
                      if name_truthy name_segment
                      then ret (segs ++
                                [ name_str name_segment;
                                  "PRV*PE*PXC*" +:+ rp_taxonomyCode provider +:+ "~" ])
                      else ret segs
                    else ret segs
                | None => ret segs
                end self)) = st /\
             on_ok (fun segs => all_tagged ["LX"; "SV1"; "DTP"; "NM1"; "PRV"] segs /\
                                count_tag "LX" segs = 1%nat)
               (fst (match sl_renderingProviderIndex (snd p) with
                | Some provider_idx =>
                    do rps <- attr rendering_providers in
                    if (0 <=? provider_idx)%Z && (provider_idx <? Z.of_nat (length rps))%Z
                    then
                      do provider <- lift (index rps (Z.to_nat provider_idx)) in
                      do name_segment <-
                        _create_name_segment (ERendering provider) "rendering_provider" in
                      if name_truthy name_segment
                      then ret (segs ++
                                [ name_str name_segment;
                                  "PRV*PE*PXC*" +:+ rp_taxonomyCode provider +:+ "~" ])
                      else ret segs
                    else ret segs
                | None => ret segs
                end self))) as Hrp.
  { intros segs Hsegs Hcount.
    destruct (sl_renderingProviderIndex (snd p)) as [idx|]; [|now split].
    unfold bind, attr, lift, index.
    destruct (_ && _); [|now split].
    destruct (rendering_providers self !! Z.to_nat idx) as [rp|]; [|now split].
    rewrite name_segment_spec by reflexivity.
    destruct (refused _ _); cbn [name_truthy name_str]; [now split |].
    rewrite name_segment_text_nonempty. cbn [negb]. split; [exact Hs |]. cbn [fst ret on_ok].
    split.
    - apply all_tagged_app; [exact Hsegs | solve_all_tagged].
    - unfold count_tag in *. rewrite count_if_app, Hcount. cbn [count_if].
      rewrite Hnm. reflexivity. }
  destruct (negb (String.eqb (sl_serviceDate (snd p)) ""));
    [apply (Hrp [lx; sv1; "DTP*472*D8*" +:+ sl_serviceDate (snd p) +:+ "~"])
    |apply (Hrp [lx; sv1])].
  - repeat (apply List.Forall_cons; [assumption || reflexivity |]). constructor.
  - unfold count_tag. cbn [count_if]. rewrite Hl, Hlx. reflexivity.
  - repeat (apply List.Forall_cons; [assumption |]). constructor.
  - unfold count_tag. cbn [count_if]. now rewrite Hl, Hlx.
Qed.

Lemma count_if_concat_ones f (parts : list (list string)) :
  Forall (fun part => count_if f part = 1%nat) parts ->
  count_if f (concat parts) = length parts.
Proof.
  induction 1 as [|p parts Hp _ IH]; simpl; [reflexivity |].
  rewrite count_if_app, Hp, IH. reflexivity.
Qed.

Lemma enumerate_from_length {A} i (l : list A) : length (enumerate_from i l) = length l.
Proof. revert i; induction l as [|x l IH]; intros i; simpl; [reflexivity | now rewrite IH]. Qed.

Lemma Forall2_const_r {A B} (P : B -> Prop) (l : list A) (parts : list B) :
  Forall2 (fun _ part => P part) l parts -> Forall P parts /\ length parts = length l.
Proof.
  induction 1 as [|x part l parts Hp _ [IH1 IH2]]; simpl; [now split |].
  split; [now constructor | now rewrite IH2].
Qed.

Lemma service_lines_part st :
  triple st _create_service_lines (on_ok (lines_part st)).
Proof.
  intros self Hs. unfold _create_service_lines, bind, attr.
  pose proof (triple_for_each st service_line_segments _ (enumerate (service_lines self))
                (fun x _ => service_line_part st x) self Hs) as [Hs' H].
  split; [exact Hs' |].
  destruct (fst (for_each service_line_segments (enumerate (service_lines self)) self))
    as [segs|e]; [|exact I].
  destruct H as (parts & Hparts & ->).
  apply Forall2_const_r in Hparts as [Hparts Hlen].
  split.
  - apply all_tagged_concat. eapply List.Forall_impl; [|exact Hparts]. now intros part [H _].
  - unfold count_tag. rewrite count_if_concat_ones.
    + rewrite Hlen. unfold enumerate. rewrite enumerate_from_length. now subst st.
    + eapply List.Forall_impl; [|exact Hparts]. now intros part [_ H].
Qed.

Lemma rendering_provider_part st rp :
  triple st (rendering_provider_segments rp) (on_ok rendering_part).
Proof.
  intros self Hs. unfold rendering_provider_segments, bind.
  rewrite name_segment_spec by reflexivity.
  destruct (refused _ _); cbn [name_truthy name_str]; [split; [exact Hs | constructor] |].
  rewrite name_segment_text_nonempty. cbn [negb]. split; [exact Hs |]. solve_all_tagged.
Qed.

Lemma rendering_providers_part st :
  triple st _create_rendering_provider_segments (on_ok rendering_part).
Proof.
  intros self Hs. unfold _create_rendering_provider_segments, bind, attr.
  pose proof (triple_for_each st rendering_provider_segments _ (rendering_providers self)
                (fun x _ => rendering_provider_part st x) self Hs) as [Hs' H].
  split; [exact Hs' |].
  destruct (fst (for_each rendering_provider_segments (rendering_providers self) self))
    as [segs|e]; [|exact I].
  destruct H as (parts & Hparts & ->).
  apply Forall2_const_r in Hparts as [Hparts _].
  now apply all_tagged_concat.
Qed.

Lemma build_provider_block st p :
  triple st (build_provider p)
    (on_ok (fun segs => exists b, block_ok st b /\ segs = block_segments b)).
Proof.
  unfold build_provider.
  eapply triple_bind; [apply billing_loop_part |]. intros ps Hps.
  eapply triple_bind; [apply triple_attr with (Q := on_ok (fun _ => True)); now intros |].
  intros subs _.
  eapply triple_bind.
  { eapply triple_weaken.
    - apply (triple_for_each st (build_subscriber (fst p)) (fun _ => subscriber_part)).
      intros x _. apply build_subscriber_part.
    - intros segs (parts & Hparts & ->).
      apply Forall2_const_r in Hparts as [Hparts _].
      apply all_tagged_concat, Hparts. }
  intros ss Hss.
  eapply triple_bind; [apply claim_loop_part |]. intros cs Hcs.
  eapply triple_bind; [apply service_lines_part |]. intros ls Hls.
  eapply triple_bind; [apply triple_attr with (Q := on_ok (fun _ => True)); now intros |].
  intros rps _.
  eapply triple_bind with (R := rendering_part).
  { destruct (_ <? _)%nat; [apply rendering_providers_part | apply triple_ret; constructor]. }
  intros rs Hrs. apply triple_ret.
  exists {| pb_provider := ps; pb_subscribers := ss; pb_claim := cs; pb_lines := ls;
            pb_rendering := rs |}.
  split; [exact (conj Hps (conj Hss (conj Hcs (conj Hls Hrs)))) | reflexivity].
Qed.

(** ** The shape of the output *)

Lemma has_tag_unique t t' s :
  plain_tag t = true -> plain_tag t' = true ->
  has_tag t s = true -> has_tag t' s = true -> t = t'.
Proof.
  unfold has_tag. revert t' s.
  induction t as [|a t IH]; intros [|a' t'] [|c s]; cbn [plain_tag starts_with append];
    intros Ht Ht' H H'; try discriminate; try reflexivity.
  - apply andb_true_iff in H as [H _], H' as [H' _], Ht' as [Ht' _].
    apply Ascii.eqb_eq in H, H'. subst. now rewrite Ascii.eqb_refl in Ht'.
  - apply andb_true_iff in H as [H _], H' as [H' _], Ht as [Ht _].
    apply Ascii.eqb_eq in H, H'. subst. now rewrite Ascii.eqb_refl in Ht.
  - apply andb_true_iff in H as [H1 H2], H' as [H1' H2'], Ht as [_ Ht], Ht' as [_ Ht'].
    apply Ascii.eqb_eq in H1, H1'. subst. f_equal. now apply (IH t' s).
Qed.

Lemma tag_in_excludes tags t s :
  forallb plain_tag (t :: tags) = true -> ~ In t tags ->
  tag_in tags s = true -> has_tag t s = false.
Proof.
  cbn [forallb]. intros Hplain Hnot Hin.
  apply andb_true_iff in Hplain as [Ht Htags].
  unfold tag_in in Hin. apply existsb_exists in Hin as (t' & Ht' & Hs).
  destruct (has_tag t s) eqn:E; [|reflexivity]. exfalso. apply Hnot.
  rewrite forallb_forall in Htags.
  now rewrite (has_tag_unique t t' s Ht (Htags _ Ht') E Hs).
Qed.

Lemma all_tagged_count_zero tags t segs :
  forallb plain_tag (t :: tags) = true -> ~ In t tags ->
  all_tagged tags segs -> count_tag t segs = 0%nat.
Proof.
  intros Hplain Hnot Hall. apply count_if_zero.
  eapply List.Forall_impl; [|exact Hall]. intros s. now apply tag_in_excludes.
Qed.

Lemma provider_part_body segs : provider_part segs -> all_tagged body_tags segs.
Proof.
  intros (rest & -> & Hrest). apply List.Forall_cons; [reflexivity |].
  eapply all_tagged_incl; [|exact Hrest]. solve_incl.
Qed.

Lemma claim_part_body st segs : claim_part st segs -> all_tagged body_tags segs.
Proof.
  unfold claim_part. destruct (claim_information st).
  - intros (clm & rest & -> & Hclm & Hrest). apply List.Forall_cons.
    + unfold tag_in. apply existsb_exists. exists "CLM". split; [simpl; tauto | exact Hclm].
    + eapply all_tagged_incl; [|exact Hrest]. solve_incl.
  - intros ->. constructor.
Qed.

Lemma block_body st b : block_ok st b -> all_tagged body_tags (block_segments b).
Proof.
  intros (Hp & Hs & Hc & [Hl _] & Hr). unfold block_segments.
  repeat apply all_tagged_app.
  - now apply provider_part_body.
  - eapply all_tagged_incl; [|exact Hs]. solve_incl.
  - now apply (claim_part_body st).
  - eapply all_tagged_incl; [|exact Hl]. solve_incl.
  - eapply all_tagged_incl; [|exact Hr]. solve_incl.
Qed.

(** The segments joined by [build()]: the header, one block per billing
    provider, the trailer. *)
Lemma build_segments_blocks self segs :
  fst (build_segments self) = Ok segs ->
  exists blocks,
    length blocks = length (billing_providers self) /\
    Forall (block_ok self) blocks /\
    segs = (_create_header ++ concat (map block_segments blocks))
           ++ _create_trailer
                (Z.of_nat (length (_create_header ++ concat (map block_segments blocks))) - 1).
Proof.
  unfold build_segments, bind, attr. intros H.
  pose proof (triple_for_each (store_of self) build_provider _
                (enumerate (billing_providers self))
                (fun x _ => build_provider_block (store_of self) x) self eq_refl) as [_ Hb].
  destruct (for_each build_provider (enumerate (billing_providers self)) self)
    as [[body|e] self']; [|discriminate H].
  cbn [fst ret] in H. injection H as <-.
  cbn [fst on_ok] in Hb. destruct Hb as (parts & Hparts & ->).
  assert (exists blocks, length blocks = length parts /\
                         Forall (block_ok self) blocks /\
                         parts = map block_segments blocks) as (blocks & Hlen & Hok & ->).
  { clear -Hparts. induction Hparts as [|x part l parts (b & Hb & ->) _ (bs & Hlen & Hok & ->)].
    - exists []. repeat split. constructor.
    - exists (b :: bs). simpl. repeat split; [now rewrite Hlen | now constructor]. }
  exists blocks. split; [|split; [exact Hok | reflexivity]].
  apply Forall2_length in Hparts. unfold enumerate in Hparts.
  rewrite enumerate_from_length in Hparts. rewrite length_map in *. lia.
Qed.

Ltac count_zero H :=
  eapply all_tagged_count_zero; [ | | exact H]; [reflexivity | simpl; intuition discriminate].

Lemma count_tag_app t a b : count_tag t (a ++ b) = (count_tag t a + count_tag t b)%nat.
Proof. apply count_if_app. Qed.

Lemma count_tag_cons t s segs :
  count_tag t (s :: segs) = ((if has_tag t s then 1 else 0) + count_tag t segs)%nat.
Proof. reflexivity. Qed.

Lemma count_tag_block_clm st b :
  block_ok st b ->
  count_tag "CLM" (block_segments b) =
  match claim_information st with Some _ => 1%nat | None => 0%nat end.
Proof.
  intros ((rest & Hp & Hrest) & Hs & Hc & [Hl _] & Hr). unfold block_segments.
  rewrite !count_tag_app.
  assert (count_tag "CLM" (pb_subscribers b) = 0%nat) as -> by count_zero Hs.
  assert (count_tag "CLM" (pb_lines b) = 0%nat) as -> by count_zero Hl.
  assert (count_tag "CLM" (pb_rendering b) = 0%nat) as -> by count_zero Hr.
  assert (count_tag "CLM" (pb_provider b) = 0%nat) as ->.
  { rewrite Hp, count_tag_cons.
    assert (count_tag "CLM" rest = 0%nat) as -> by count_zero Hrest. reflexivity. }
  unfold claim_part in Hc. destruct (claim_information st).
  - destruct Hc as (clm & rest' & -> & Hclm & Hrest'). rewrite count_tag_cons, Hclm.
    assert (count_tag "CLM" rest' = 0%nat) as -> by count_zero Hrest'. reflexivity.
  - now rewrite Hc.
Qed.

Lemma count_tag_block_lx st b :
  block_ok st b -> count_tag "LX" (block_segments b) = length (service_lines st).
Proof.
  intros ((rest & Hp & Hrest) & Hs & Hc & [Hl Hn] & Hr). unfold block_segments.
  rewrite !count_tag_app, Hn.
  assert (count_tag "LX" (pb_subscribers b) = 0%nat) as -> by count_zero Hs.
  assert (count_tag "LX" (pb_rendering b) = 0%nat) as -> by count_zero Hr.
  assert (count_tag "LX" (pb_provider b) = 0%nat) as ->.
  { rewrite Hp, count_tag_cons.
    assert (count_tag "LX" rest = 0%nat) as -> by count_zero Hrest. reflexivity. }
  assert (count_tag "LX" (pb_claim b) = 0%nat) as ->; [|lia].
  unfold claim_part in Hc. destruct (claim_information st).
  - destruct Hc as (clm & rest' & -> & Hclm & Hrest'). rewrite count_tag_cons.
    assert (has_tag "LX" clm = false) as ->
      by (apply (starts_with_first _ _ _ _ _ Hclm); discriminate).
    assert (count_tag "LX" rest' = 0%nat) as -> by count_zero Hrest'. reflexivity.
  - now rewrite Hc.
Qed.

Lemma count_tag_blocks t (k : nat) (blocks : list provider_block) :
  Forall (fun b => count_tag t (block_segments b) = k) blocks ->
  count_tag t (concat (map block_segments blocks)) = (length blocks * k)%nat.
Proof.
  induction 1 as [|b blocks Hb _ IH]; cbn [map concat length]; [reflexivity |].
  rewrite count_tag_app, Hb, IH. reflexivity.
Qed.

Lemma through_se_app body se rest :
  all_tagged body_tags body -> has_tag "SE" se = true ->
  through_se (body ++ se :: rest) = S (length body).
Proof.
  intros Hbody Hse. induction Hbody as [|s body Hs _ IH]; cbn [app through_se length].
  - now rewrite Hse.
  - rewrite (tag_in_excludes body_tags "SE" s eq_refl) by
      (first [exact Hs | simpl; intuition discriminate]).
    now rewrite IH.
Qed.

(** C5: the count written in the SE segment is the number of segments from
    the ST segment through the SE segment, both included; that is, the number
    of segments emitted before the trailer, less the two envelope segments ISA
    and GS, plus one for SE. *)
Theorem trailer_count_is_st_through_se self segs :
  fst (build_segments self) = Ok segs ->
  exists before,
    segs = before ++
           [ "SE*" +:+ pretty (Z.of_nat (st_through_se segs)) +:+ "*415133923~";
             "GE*1*415133923~"; "IEA*1*415133923~" ] /\
    st_through_se segs = (length before - 2 + 1)%nat.
Proof.
  intros H. apply build_segments_blocks in H as (blocks & _ & Hok & ->).
  set (body := concat (map block_segments blocks)).
  assert (all_tagged body_tags body) as Hbody.
  { apply all_tagged_concat. apply Forall_map.
    eapply List.Forall_impl; [|exact Hok]. intros b. apply block_body. }
  clearbody body.
  assert (forall n, st_through_se ((_create_header ++ body) ++ _create_trailer n)
                    = (6 + length body)%nat) as Hcount.
  { intros n. unfold _create_header, _create_trailer.
    cbn [app st_through_se through_se].
    change (has_tag "ST" _) with false at 1. cbv iota.
    change (has_tag "ST" _) with false at 1. cbv iota.
    change (has_tag "ST" _) with true at 1. cbv iota.
    do 5 (change (has_tag "SE" _) with false at 1; cbv iota).
    rewrite through_se_app by (first [exact Hbody | reflexivity]). reflexivity. }
  exists (_create_header ++ body). rewrite Hcount. split.
  - replace (Z.of_nat (length (_create_header ++ body)) - 1)%Z
      with (Z.of_nat (6 + length body)); [reflexivity |].
    rewrite length_app. simpl length. lia.
  - rewrite length_app. simpl length. lia.
Qed.

Lemma trailer_count_is_st_through_se_witness :
  exists before,
    [ "ISA*00*          *00*          *ZZ*AV09311993     *01*030240928      *240702*1531*^*00501*415133923*0*P*>~";
      "GS*HC*1923294*030240928*20240702*1533*415133923*X*005010X222A1~";
      "ST*837*415133923*005010X222A1~"; "BHT*0019*00*1*20240702*1531*CH~";
      "NM1*41*2*Mattel Industries*****46*1234567890~";
      "PER*IC*Ruth Handler*TE*8458130000~";
      "NM1*40*2*AVAILITY 5010*****46*030240928~"; "HL*1**20*1~";
      "PRV*BI*PXC*207Q00000X~"; "NM1*85*2*Acme Clinic*****XX*1234567890~";
      "N3*1 Main St*~"; "N4*Springfield*IL*62701~"; "REF*EI*123456789~";
      "HL*2*1*22*0~"; "SBR*P*18*******CI~"; "NM1*IL*1*Doe*Jane****MI*M100~";
      "N3*1 Main St~"; "N4*Springfield*IL*62701~"; "DMG*D8*19800101*F~";
      "NM1*PR*2*Aetna*****PI*WIMCD~"; "CLM*PCN1*150.0***11>B>1*Y*A*Y*Y~";
      "LX*1~"; "SV1*HC>99213*150.0*UN*1.0***1~"; "DTP*472*D8*20240102~";
      "SE*23*415133923~"; "GE*1*415133923~"; "IEA*1*415133923~" ] =
    before ++ [ "SE*23*415133923~"; "GE*1*415133923~"; "IEA*1*415133923~" ] /\
    23%nat = (length before - 2 + 1)%nat.
Proof.
  apply (trailer_count_is_st_through_se store_scenario_with_payer).
  vm_compute. reflexivity.
Defined.

(** C3, counterexample: with two billing providers the claim loop and the
    service-line loop are emitted twice, the first time before the loops of
    the second billing provider and of its subscriber. *)
Lemma two_providers_two_claim_loops :
  fst (build_segments store_two_providers) = Ok two_providers_segments /\
  count_tag "CLM" two_providers_segments = 2%nat.
Proof. split; vm_compute; reflexivity. Qed.

(** ** Contacts *)

Lemma has_key_dom {V} (d : gmap string V) k : has_key d k = true <-> k ∈ dom d.
Proof.
  unfold has_key. rewrite elem_of_dom. destruct (d !! k).
  - split; [eauto | reflexivity].
  - split; [discriminate | intros [? ?]; discriminate].
Qed.

Lemma has_key_insert {V} (d : gmap string V) k v n :
  has_key (<[k := v]> d) n = String.eqb n k || has_key d n.
Proof.
  unfold has_key. destruct (String.eqb_spec n k) as [->|Hne].
  - now rewrite lookup_insert_eq.
  - rewrite lookup_insert_ne by congruence. reflexivity.
Qed.

Lemma contact_key_same c c' : same_contact c c' -> contact_key c = contact_key c'.
Proof. intros [Hn Hp]. unfold contact_key. now rewrite Hn, Hp. Qed.

(** Every contact supplied so far has its key in the map. *)
Lemma contact_recorded_step self op c :
  supplied_contact op = Some c ->
  has_key (contact_info_map (apply_op self op)) (contact_key c) = true.
Proof.
  destruct op as [npi tc eid addr org l f [c0|] | | [c0|] | | | | | | ];
    try discriminate; cbn [supplied_contact];
    destruct (dict_truthy (Some c0)) eqn:Ht; try discriminate; intros [= ->].
  - cbn [apply_op add_billing_provider fst]. rewrite Ht. cbn [andb].
    destruct (has_key (contact_info_map self) (contact_key c)) eqn:Hk; cbn [negb].
    + exact Hk.
    + cbn [contact_info_map set_billing_providers set_contact_info_map].
      apply has_key_dom. rewrite dom_insert. set_solver.
  - cbn [apply_op add_submitter]. rewrite Ht.
    cbn [contact_info_map set_submitter andb].
    destruct (has_key (contact_info_map self) (contact_key c)) eqn:Hk; cbn [negb].
    + exact Hk.
    + cbn [contact_info_map set_contact_info_map]. apply has_key_dom.
      rewrite dom_insert. set_solver.
Qed.

Lemma contact_kept_step self op k :
  has_key (contact_info_map self) k = true ->
  has_key (contact_info_map (apply_op self op)) k = true.
Proof.
  intros Hk.
  assert (forall c v, has_key (<[c := v]> (contact_info_map self)) k = true) as Hins.
  { intros c v. apply has_key_dom. rewrite dom_insert. apply has_key_dom in Hk. set_solver. }
  destruct op as [npi tc eid addr org l f [c0|] | m l f addr bd g bpi prc cfc [|] rel
                 | [c0|] | | | | | | ]; cbn; try exact Hk.
  - destruct (_ && _); cbn; [apply Hins | exact Hk].
  - destruct (_ && _); cbn; [apply Hins | exact Hk].
Qed.

Lemma contact_kept self ops k :
  has_key (contact_info_map self) k = true ->
  has_key (contact_info_map (apply_ops self ops)) k = true.
Proof.
  revert self; induction ops as [|op ops IH]; intros self Hk; [exact Hk |].
  apply IH. now apply contact_kept_step.
Qed.

Lemma contact_recorded self ops op c :
  In op ops -> supplied_contact op = Some c ->
  has_key (contact_info_map (apply_ops self ops)) (contact_key c) = true.
Proof.
  revert self; induction ops as [|op' ops IH]; intros self Hin Hc; [destruct Hin |].
  destruct Hin as [->|Hin]; cbn [apply_ops fold_left].
  - apply contact_kept. now apply contact_recorded_step.
  - now apply IH.
Qed.

Lemma billing_providers_step self op :
  billing_providers (apply_op self op) =
  billing_providers self ++
  match op with
  | AddBillingProvider npi tc eid addr org l f c =>
      drop (length (billing_providers self))
           (billing_providers (apply_op self op))
  | _ => []
  end.
Proof.
  destruct op as [npi tc eid addr org l f [c0|] | m l f addr bd g bpi prc cfc [|] rel
                 | [c0|] | | | | | | ]; cbn; rewrite ?app_nil_r; try reflexivity.
  - destruct (_ && _); cbn; now rewrite drop_app_length.
  - now rewrite drop_app_length.
  - now destruct (_ && _).
Qed.

Lemma billing_providers_length self ops :
  length (billing_providers (apply_ops self ops)) =
  (length (billing_providers self) + count_billing ops)%nat.
Proof.
  revert self; induction ops as [|op ops IH]; intros self; cbn [apply_ops fold_left count_billing].
  - lia.
  - fold (apply_ops (apply_op self op) ops). rewrite IH.
    destruct op as [npi tc eid addr org l f [c0|] | m l f addr bd g bpi prc cfc [|] rel
                   | [c0|] | | | | | | ]; cbn; rewrite ?length_app; cbn; try lia.
    + destruct (_ && _); cbn; rewrite ?length_app; cbn; lia.
    + destruct (_ && _); cbn; lia.
Qed.

Lemma billing_providers_prefix self ops i p :
  billing_providers self !! i = Some p ->
  billing_providers (apply_ops self ops) !! i = Some p.
Proof.
  revert self; induction ops as [|op ops IH]; intros self H; [exact H |].
  cbn [apply_ops fold_left]. apply IH. rewrite billing_providers_step.
  now apply lookup_app_l_Some.
Qed.

Lemma apply_ops_app self ops ops' :
  apply_ops self (ops ++ ops') = apply_ops (apply_ops self ops) ops'.
Proof. apply fold_left_app. Qed.

Lemma billing_loop_without_contact self idx p :
  billing_providers self !! idx = Some p ->
  bp_contactInfo p = None ->
  on_ok (all_tagged ["HL"; "PRV"; "NM1"; "N3"; "N4"; "REF"])
    (fst (_create_billing_provider_loop idx self)).
Proof.
  intros Hp Hc. unfold _create_billing_provider_loop, bind, attr, lift, index.
  rewrite Hp, name_segment_spec by reflexivity.
  destruct (refused _ _); cbn [name_truthy name_str].
  - unfold ret. rewrite Hc. cbn [fst on_ok]. solve_all_tagged.
  - rewrite name_segment_text_nonempty. cbn [negb]. unfold subscript.
    destruct (bp_address p !! "address1"); [|exact I].
    destruct (bp_address p !! "city"); [|exact I].
    destruct (bp_address p !! "state"); [|exact I].
    destruct (bp_address p !! "postalCode"); [|exact I].
    unfold ret. rewrite Hc. cbn [fst on_ok]. solve_all_tagged.
Qed.

Lemma contact_origin_step self op k :
  has_key (contact_info_map (apply_op self op)) k = true ->
  has_key (contact_info_map self) k = true \/
  exists c, supplied_contact op = Some c /\ contact_key c = k.
Proof.
  destruct op as [npi tc eid addr org l f [c0|] | m l f addr bd g bpi prc cfc [|] rel
                 | [c0|] | | | | | | ];
    cbn -[dict_truthy has_key contact_key]; try (now left).
  - destruct (dict_truthy (Some c0)); cbn -[has_key contact_key]; [|now left].
    destruct (has_key (contact_info_map self) (contact_key c0)) eqn:E;
      cbn -[has_key contact_key]; [now left |].
    rewrite has_key_insert. intros H. apply orb_true_iff in H as [H|H]; [|now left].
    right. exists c0. split; [reflexivity |]. apply String.eqb_eq in H. congruence.
  - destruct (dict_truthy (Some c0)); cbn -[has_key contact_key]; [|now left].
    destruct (has_key (contact_info_map self) (contact_key c0)) eqn:E;
      cbn -[has_key contact_key]; [now left |].
    rewrite has_key_insert. intros H. apply orb_true_iff in H as [H|H]; [|now left].
    right. exists c0. split; [reflexivity |]. apply String.eqb_eq in H. congruence.
Qed.

Lemma contact_origin self ops k :
  has_key (contact_info_map (apply_ops self ops)) k = true ->
  has_key (contact_info_map self) k = true \/
  exists op c, In op ops /\ supplied_contact op = Some c /\ contact_key c = k.
Proof.
  revert self; induction ops as [|op ops IH]; intros self H; [now left |].
  cbn [apply_ops fold_left] in H. apply IH in H as [H|(op' & c & Hin & Hc & Hk)].
  - apply contact_origin_step in H as [H|(c & Hc & Hk)]; [now left |].
    right. exists op, c. repeat split; [now left | exact Hc | exact Hk].
  - right. exists op', c. repeat split; [now right | exact Hc | exact Hk].
Qed.

(** The converse: a billing provider keeps a non-empty contact unless an
    earlier contact was recorded under the same key (the key is
    [name_phone)], so that two different pairs may share it). *)
Lemma first_contact_is_kept pre post npi tc eid addr org l f c :
  dict_truthy (Some c) = true ->
  (forall op c', In op pre -> supplied_contact op = Some c' ->
                 contact_key c' <> contact_key c) ->
  billing_providers
    (fresh_builder (pre ++ [AddBillingProvider npi tc eid addr org l f (Some c)] ++ post))
    !! count_billing pre =
    Some {| bp_npi := npi; bp_taxonomyCode := tc; bp_employerId := eid;
            bp_address := addr;
            bp_name := if truthy org then Organization (fmt org) else Individual l f;
            bp_contactInfo := Some c |}.
Proof.
  intros Ht Hfresh.
  unfold fresh_builder. rewrite !apply_ops_app. apply billing_providers_prefix.
  set (mid := apply_ops (__init__ default_version) pre).
  assert (has_key (contact_info_map mid) (contact_key c) = false) as Hk.
  { destruct (has_key (contact_info_map mid) (contact_key c)) eqn:E; [|reflexivity].
    apply contact_origin in E as [E|(op & c' & Hin & Hc & Hkey)]; [discriminate E |].
    now destruct (Hfresh op c' Hin Hc). }
  assert (length (billing_providers mid) = count_billing pre) as Hlen
    by (subst mid; now rewrite billing_providers_length).
  cbn [apply_ops fold_left apply_op add_billing_provider fst].
  rewrite Hk, Ht. cbn [andb negb billing_providers set_billing_providers set_contact_info_map].
  rewrite <- Hlen. apply list_lookup_middle. reflexivity.
Qed.

(** ** Dangling indices *)

(** C7, counterexample: a subscriber that names a billing provider never
    registered and a service line that names a rendering provider never
    registered raise no error; [build()] returns a transaction from which the
    subscriber and the rendering provider are absent. *)
Lemma dangling_indices_build_returns :
  fst (build_segments store_dangling) = Ok dangling_segments /\
  fst (build store_dangling) = Ok (String.concat newline dangling_segments).
Proof. split; vm_compute; reflexivity. Qed.

Lemma triple_bind_total {A B} st (m : M A) (k : A -> M B) (R : A -> Prop) Q :
  triple st m (ok_and R) ->
  (forall a, R a -> triple st (k a) (ok_and Q)) ->
  triple st (bind m k) (ok_and Q).
Proof.
  intros Hm Hk self Hs. unfold bind.
  destruct (Hm self Hs) as [Hs' HR].
  destruct (m self) as [[a|e] self']; simpl in *; [now apply Hk | contradiction].
Qed.

Lemma triple_for_each_total {A} st (body : A -> M (list string)) (l : list A) :
  (forall x, In x l -> triple st (body x) (ok_and (fun _ => True))) ->
  triple st (for_each body l) (ok_and (fun _ => True)).
Proof.
  induction l as [|x l IH]; intros Hbody; simpl for_each.
  - now apply triple_ret.
  - eapply triple_bind_total; [apply Hbody; now left |]. intros s _.
    eapply triple_bind_total; [apply IH; intros y Hy; apply Hbody; now right |].
    intros r _. now apply triple_ret.
Qed.

Lemma has_key_lookup {V} (d : gmap string V) k :
  has_key d k = true -> exists v, d !! k = Some v.
Proof. unfold has_key. destruct (d !! k); [eauto | discriminate]. Qed.

Lemma complete_address_has a :
  complete_address a = true -> exists a1 c s z, address_has a a1 c s z.
Proof.
  unfold complete_address. rewrite !andb_true_iff. intros [[[H1 H2] H3] H4].
  apply has_key_lookup in H1 as [a1 H1], H2 as [c H2], H3 as [s H3], H4 as [z H4].
  exists a1, c, s, z. now repeat split.
Qed.

Lemma enumerate_from_lookup {A} k (l : list A) i x :
  In (i, x) (enumerate_from k l) -> (k <= i)%nat /\ l !! (i - k)%nat = Some x.
Proof.
  revert k; induction l as [|y l IH]; intros k; cbn [enumerate_from In]; [tauto |].
  intros [[= <- <-]|H].
  - split; [lia |]. now rewrite Nat.sub_diag.
  - apply IH in H as [Hle H]. split; [lia |].
    replace (i - k)%nat with (S (i - S k)) by lia. exact H.
Qed.

Lemma enumerate_lookup {A} (l : list A) i x : In (i, x) (enumerate l) -> l !! i = Some x.
Proof.
  intros H. apply enumerate_from_lookup in H as [_ H]. now rewrite Nat.sub_0_r in H.
Qed.

Lemma forallb_lookup {A} (f : A -> bool) (l : list A) i x :
  forallb f l = true -> l !! i = Some x -> f x = true.
Proof.
  intros H Hx. rewrite forallb_forall in H. apply H.
  apply list_elem_of_In. now apply list_elem_of_lookup_2 with i.
Qed.

Lemma billing_loop_total st idx p :
  billing_providers st !! idx = Some p -> complete_address (bp_address p) = true ->
  triple st (_create_billing_provider_loop idx) (ok_and (fun _ => True)).
Proof.
  intros Hp Hc self Hs.
  assert (billing_providers self = billing_providers st) as Hbp by now subst st.
  unfold _create_billing_provider_loop, bind, attr, lift, index. rewrite Hbp, Hp.
  rewrite name_segment_spec by reflexivity.
  destruct (refused _ _); cbn [name_truthy name_str].
  - destruct (bp_contactInfo p); now split.
  - rewrite name_segment_text_nonempty. cbn [negb]. unfold subscript.
    apply complete_address_has in Hc as (a1 & c & s & z & H1 & H2 & H3 & H4).
    rewrite H1, H2, H3, H4. destruct (bp_contactInfo p); now split.
Qed.

Lemma subscriber_loop_total st i sub :
  subscribers st !! i = Some sub -> complete_address (sub_address sub) = true ->
  triple st (_create_subscriber_loop i) (ok_and (fun _ => True)).
Proof.
  intros Hsub Hc self Hs.
  assert (subscribers self = subscribers st) as Hss by now subst st.
  rewrite <- Hss in Hsub. rewrite (subscriber_loop_unfold _ _ _ Hsub).
  split; [exact Hs |]. cbn [fst].
  apply complete_address_has in Hc as (a1 & c & s & z & Hc).
  rewrite (address_demographics_ok _ _ _ _ _ Hc).
  destruct (sub_is_dependent sub); [exact I |]. now destruct (Z.eqb _ _).
Qed.

Lemma payer_total st payer :
  payer_info st = Some payer -> triple st _create_payer (ok_and (fun _ => True)).
Proof.
  intros Hp self Hs. assert (payer_info self = payer_info st) as Hpi by now subst st.
  unfold _create_payer, bind, opt_attr. rewrite Hpi, Hp. now split.
Qed.

Lemma build_subscriber_total st provider_idx i sub payer :
  payer_info st = Some payer ->
  subscribers st !! i = Some sub -> complete_address (sub_address sub) = true ->
  triple st (build_subscriber provider_idx (i, sub)) (ok_and (fun _ => True)).
Proof.
  intros Hp Hsub Hc. unfold build_subscriber. cbn [fst snd].
  destruct (Z.eqb _ _); [|now apply triple_ret].
  eapply triple_bind_total; [now apply (subscriber_loop_total st i sub) |]. intros loop _.
  eapply triple_bind_total with (R := fun _ => True).
  { intros self Hs. assert (payer_info self = payer_info st) as Hpi by now subst st.
    unfold opt_attr. rewrite Hpi, Hp. now split. }
  intros _ _. destruct (Nat.eqb i 0); [|now apply triple_ret].
  eapply triple_bind_total; [now apply (payer_total st payer) |].
  intros s _. now apply triple_ret.
Qed.

Lemma facility_total st :
  triple st _create_service_facility_segments (ok_and (fun _ => True)).
Proof.
  intros self Hs. unfold _create_service_facility_segments, bind, attr.
  destruct (service_facility self) as [f|]; [|now split].
  rewrite name_segment_spec by reflexivity.
  destruct (refused _ _); cbn [name_truthy name_str]; [now split |].
  rewrite name_segment_text_nonempty. cbn [negb]. now split.
Qed.

Lemma diag_codes_total l :
  forallb complete_diagnosis l = true -> exists codes, diag_codes l = Ok codes.
Proof.
  induction l as [|d l IH]; cbn [forallb diag_codes]; [eauto |].
  rewrite andb_true_iff. unfold complete_diagnosis at 1. rewrite andb_true_iff.
  intros [[H1 H2] Hl]. apply has_key_lookup in H1 as [t H1], H2 as [c H2].
  destruct (IH Hl) as [codes Hcodes]. unfold subscript. rewrite H1, H2, Hcodes. eauto.
Qed.

Lemma claim_loop_total st :
  match claim_information st with
  | Some claim => forallb complete_diagnosis (claim_diagnosisCodes claim)
  | None => true
  end = true ->
  triple st _create_claim_information_loop (ok_and (fun _ => True)).
Proof.
  intros Hwf self Hs.
  assert (claim_information self = claim_information st) as Hci by now subst st.
  unfold _create_claim_information_loop, bind, attr. rewrite Hci.
  destruct (claim_information st) as [claim|]; [|now split].
  destruct (diag_codes_total _ Hwf) as [codes Hcodes].
  assert (forall segs : list string,
             store_of (snd (match service_facility self with
                            | Some _ =>
                                do fs <- _create_service_facility_segments in
                                ret (segs ++ fs)
                            | None => ret segs
                            end self)) = st /\
             ok_and (fun _ => True)
               (fst (match service_facility self with
                     | Some _ =>
                         do fs <- _create_service_facility_segments in
                         ret (segs ++ fs)
                     | None => ret segs
                     end self))) as Hfac.
  { intros segs. destruct (service_facility self); [|now split].
    unfold bind. destruct (facility_total st self Hs) as [Hs' Hfs].
    destruct (_create_service_facility_segments self) as [[fs|e] self']; simpl in *;
      [now split | contradiction]. }
  destruct (prior_authorization self) as [n|];
    destruct (claim_diagnosisCodes claim) as [|d ds]; cbn [lift ret];
    rewrite ?Hcodes; apply Hfac.
Qed.

Lemma service_line_total st p :
  triple st (service_line_segments p) (ok_and (fun _ => True)).
Proof.
  intros self Hs. unfold service_line_segments.
  destruct (sl_renderingProviderIndex (snd p)) as [idx|]; [|now split].
  unfold bind, attr, lift, index.
  destruct (_ && _) eqn:E; [|now split].
  apply andb_true_iff in E as [E1 E2]. apply Z.leb_le in E1. apply Z.ltb_lt in E2.
  destruct (lookup_lt_is_Some_2 (rendering_providers self) (Z.to_nat idx)) as [rp Hrp]; [lia |].
  rewrite Hrp, name_segment_spec by reflexivity.
  destruct (refused _ _); cbn [name_truthy name_str]; [now split |].
  rewrite name_segment_text_nonempty. now split.
Qed.

Lemma rendering_provider_total st rp :
  triple st (rendering_provider_segments rp) (ok_and (fun _ => True)).
Proof.
  intros self Hs. unfold rendering_provider_segments, bind.
  rewrite name_segment_spec by reflexivity.
  destruct (refused _ _); cbn [name_truthy name_str]; [now split |].
  rewrite name_segment_text_nonempty. now split.
Qed.

Lemma build_provider_total st i p :
  well_formed st = true -> billing_providers st !! i = Some p ->
  triple st (build_provider (i, p)) (ok_and (fun _ => True)).
Proof.
  unfold well_formed. rewrite !andb_true_iff. intros [[[Hpay Hbps] Hsubs] Hclaim] Hp.
  destruct (payer_info st) as [payer|] eqn:Hpi; [|discriminate].
  unfold build_provider. cbn [fst].
  eapply triple_bind_total.
  { apply (billing_loop_total st i p Hp). apply (forallb_lookup _ _ _ _ Hbps Hp). }
  intros ps _.
  eapply triple_bind_total with (R := fun subs => subs = subscribers st).
  { intros self Hs. split; [exact Hs |]. cbn. now subst st. }
  intros subs ->.
  eapply triple_bind_total.
  { apply triple_for_each_total. intros [j sub] Hin. apply enumerate_lookup in Hin.
    apply (build_subscriber_total st i j sub payer Hpi Hin).
    apply (forallb_lookup _ _ _ _ Hsubs Hin). }
  intros ss _.
  eapply triple_bind_total; [now apply claim_loop_total |]. intros cs _.
  eapply triple_bind_total.
  { unfold _create_service_lines. eapply triple_bind_total with (R := fun _ => True).
    - intros self Hs. now split.
    - intros lines _. apply triple_for_each_total. intros x _. apply service_line_total. }
  intros ls _.
  eapply triple_bind_total with (R := fun _ => True); [intros self Hs; now split |].
  intros rps _.
  eapply triple_bind_total with (R := fun _ => True).
  { destruct (_ <? _)%nat; [|now apply triple_ret].
    unfold _create_rendering_provider_segments.
    eapply triple_bind_total with (R := fun _ => True); [intros self Hs; now split |].
    intros rps' _. apply triple_for_each_total. intros x _. apply rendering_provider_total. }
  intros rs _. now apply triple_ret.
Qed.

(** On a well-formed store [build()] returns, whatever the indices. *)
Lemma build_total self : well_formed self = true -> exists out, fst (build self) = Ok out.
Proof.
  intros Hwf.
  assert (triple (store_of self) build_segments (ok_and (fun _ => True))) as H.
  { unfold build_segments.
    eapply triple_bind_total with (R := fun l => l = billing_providers (store_of self)).
    { intros s Hs. split; [exact Hs |].
      change (billing_providers (store_of s) = billing_providers (store_of self)).
      now rewrite Hs. }
    intros providers ->.
    eapply triple_bind_total.
    { apply triple_for_each_total. intros [i p] Hin. apply enumerate_lookup in Hin.
      now apply build_provider_total. }
    intros body _. now apply triple_ret. }
  destruct (H self eq_refl) as [_ Hok]. unfold build, bind.
  destruct (build_segments self) as [[segs|e] self']; [|contradiction].
  eexists. reflexivity.
Qed.

(** C7, amended: [build()] does not check the indices.  On a store whose
    addresses and diagnosis codes are complete and which has a payer it
    returns a transaction whatever the indices are; a service line whose
    rendering-provider index is out of range is emitted as if it had none, and
    a subscriber whose billing-provider index is out of range is emitted
    under no billing provider. *)
Theorem dangling_indices_are_skipped self :
  well_formed self = true ->
  (exists out, fst (build self) = Ok out) /\
  (forall i line idx,
      sl_renderingProviderIndex line = Some idx ->
      (idx < 0 \/ Z.of_nat (length (rendering_providers self)) <= idx)%Z ->
      service_line_segments (i, line) self =
      service_line_segments (i, without_rendering_provider line) self) /\
  (forall provider_idx i sub,
      (provider_idx < length (billing_providers self))%nat ->
      (sub_billingProviderIndex sub < 0 \/
       Z.of_nat (length (billing_providers self)) <= sub_billingProviderIndex sub)%Z ->
      build_subscriber provider_idx (i, sub) self = (Ok [], self)).
Proof.
  intros Hwf. split; [now apply build_total |]. split.
  - intros i line idx Hidx Hrange. unfold service_line_segments. cbn [fst snd].
    rewrite Hidx. cbn [without_rendering_provider sl_renderingProviderIndex
                       sl_procedureCode sl_modifierCodes sl_chargeAmount sl_units
                       sl_serviceDate].
    unfold bind, attr.
    destruct (_ && _) eqn:E; [|reflexivity].
    apply andb_true_iff in E as [E1 E2]. apply Z.leb_le in E1. apply Z.ltb_lt in E2. lia.
  - intros provider_idx i sub Hlt Hrange. unfold build_subscriber. cbn [fst snd].
    destruct (Z.eqb_spec (sub_billingProviderIndex sub) (Z.of_nat provider_idx));
      [lia | reflexivity].
Qed.

Lemma dangling_indices_are_skipped_witness :
  exists out, fst (build store_dangling) = Ok out.
Proof.
  refine (proj1 (dangling_indices_are_skipped store_dangling _)).
  vm_compute. reflexivity.
Defined.

(** ** Provider and facility occurrences *)

Lemma first_occurrences_app seen a b :
  first_occurrences seen (a ++ b) =
  first_occurrences seen a ++ first_occurrences (seen_after seen a) b.
Proof.
  revert seen; induction a as [|o a IH]; intros seen; cbn [app first_occurrences seen_after];
    [reflexivity |].
  destruct (_ || _); [apply IH | cbn [app]; now rewrite IH].
Qed.

Lemma seen_after_app seen a b :
  seen_after seen (a ++ b) = seen_after (seen_after seen a) b.
Proof.
  revert seen; induction a as [|o a IH]; intros seen; cbn [app seen_after]; [reflexivity |].
  destruct (_ || _); apply IH.
Qed.

Lemma refused_agrees pm seen npi :
  agrees pm seen ->
  refused pm npi = String.eqb npi "" || existsb (String.eqb npi) seen.
Proof. intros H. unfold refused. now rewrite H. Qed.

Lemma agrees_register pm seen e :
  agrees pm seen -> agrees (<[entity_npi e := e]> pm) (entity_npi e :: seen).
Proof. intros H n. rewrite has_key_insert, H. reflexivity. Qed.

Lemma presents_ret st pre segs :
  List.filter provider_nm1 segs = List.filter provider_nm1 pre ->
  presents st pre (ret segs) [].
Proof.
  intros H self seen Hs Hag. split; [exact Hs |]. cbn. rewrite app_nil_r. now split.
Qed.

Lemma presents_bind st pre m (k : list string -> M (list string)) o1 o2 :
  presents st pre m o1 ->
  (forall a, presents st a (k a) o2) ->
  presents st pre (bind m k) (o1 ++ o2).
Proof.
  intros Hm Hk self seen Hs Hag. unfold bind.
  destruct (Hm self seen Hs Hag) as [Hs' Ha].
  destruct (m self) as [[a|e] self']; cbn [fst snd on_ok] in *; [|now split].
  destruct Ha as [Ha Hag'].
  destruct (Hk a self' _ Hs' Hag') as [Hs'' Hb]. split; [exact Hs'' |].
  destruct (fst (k a self')) as [b|e]; cbn [on_ok] in *; [|exact I].
  destruct Hb as [Hb Hag'']. split.
  - rewrite Hb, Ha, first_occurrences_app, map_app. now rewrite app_assoc.
  - now rewrite seen_after_app.
Qed.

Lemma presents_attr {A} st pre (f : EDI837Builder -> A) (k : A -> M (list string)) occs :
  (forall self, f (store_of self) = f self) ->
  presents st pre (k (f st)) occs ->
  presents st pre (bind (attr f) k) occs.
Proof.
  intros Hf Hk self seen Hs Hag. unfold bind, attr.
  replace (f self) with (f st) by (now rewrite <- Hs, Hf).
  now apply Hk.
Qed.

Lemma presents_for_each {A} st (body : A -> M (list string)) (occ : A -> list occurrence) l :
  (forall x, In x l -> presents st [] (body x) (occ x)) ->
  presents st [] (for_each body l) (flat_map occ l).
Proof.
  induction l as [|x l IH]; intros Hbody; cbn [for_each flat_map].
  - now apply presents_ret.
  - apply presents_bind; [apply Hbody; now left |]. intros s.
    rewrite <- (app_nil_r (flat_map occ l)).
    intros self seen Hs Hag.
    destruct (IH (fun y Hy => Hbody y (or_intror Hy)) self seen Hs Hag) as [Hs' Hr].
    unfold bind. destruct (for_each body l self) as [[r|e] self']; cbn [fst snd on_ok] in *;
      [|now split].
    split; [exact Hs' |]. destruct Hr as [Hr Hag']. rewrite app_nil_r. split; [|exact Hag'].
    now rewrite List.filter_app, Hr.
Qed.

Lemma provider_nm1_has_tag s : provider_nm1 s = true -> has_tag "NM1" s = true.
Proof.
  unfold provider_nm1, has_tag.
  destruct s as [|a [|b [|c [|d s]]]]; cbn [starts_with append]; try discriminate;
    rewrite ?andb_false_r; try discriminate.
  rewrite ?orb_true_iff, ?andb_true_iff. intuition.
Qed.

Lemma filter_nm1_tagged tags segs :
  forallb plain_tag ("NM1" :: tags) = true -> ~ In "NM1" tags ->
  all_tagged tags segs -> List.filter provider_nm1 segs = [].
Proof.
  intros Hplain Hnot Hall. induction Hall as [|s segs Hs _ IH]; cbn [List.filter];
    [reflexivity |].
  destruct (provider_nm1 s) eqn:E; [|exact IH].
  apply provider_nm1_has_tag in E.
  now rewrite (tag_in_excludes tags "NM1" s Hplain Hnot Hs) in E.
Qed.

Lemma provider_nm1_text e context :
  provider_context context = true ->
  provider_nm1 (name_segment_text e context) = true.
Proof.
  intros H. unfold provider_context, in_list in H. cbn [existsb] in H.
  rewrite !orb_true_iff in H.
  destruct H as [H|[H|[H|H]]]; try discriminate; apply String.eqb_eq in H; subst context;
    unfold name_segment_text;
    match goal with |- context [String.eqb ?t "1"] => destruct (String.eqb t "1") end;
    string_norm; reflexivity.
Qed.

(** How a provider or a facility is taken by the registry, in terms of the
    NPIs seen. *)
Lemma name_segment_first e context self seen :
  provider_context context = true ->
  agrees (provider_map self) seen ->
  _create_name_segment e context self =
  (if String.eqb (entity_npi e) "" || existsb (String.eqb (entity_npi e)) seen
   then (Ok None, self)
   else (Ok (Some (name_segment_text e context)), register e self)).
Proof.
  intros Hc Hag. rewrite name_segment_spec by exact Hc.
  now rewrite (refused_agrees _ _ _ Hag).
Qed.

Ltac presents_leaf Hs Hag :=
  split; [exact Hs |]; cbn [fst snd on_ok ret];
  split; [first [reflexivity | cbn [List.filter app map]; reflexivity]
         | first [exact Hag | now apply agrees_register]].

Lemma billing_loop_presents st idx p :
  billing_providers st !! idx = Some p ->
  presents st [] (_create_billing_provider_loop idx) [(EBilling p, "billing_provider")].
Proof.
  intros Hp self seen Hs Hag.
  assert (billing_providers self = billing_providers st) as Hbp by now subst st.
  unfold _create_billing_provider_loop, bind, attr, lift, index. rewrite Hbp, Hp.
  rewrite (name_segment_first _ _ _ seen) by (first [reflexivity | exact Hag]).
  cbn [first_occurrences seen_after fst].
  destruct (_ || _); cbn [name_truthy name_str].
  - destruct (bp_contactInfo p); presents_leaf Hs Hag.
  - rewrite name_segment_text_nonempty. cbn [negb]. unfold subscript.
    destruct (bp_address p !! "address1"); [|now split].
    destruct (bp_address p !! "city"); [|now split].
    destruct (bp_address p !! "state"); [|now split].
    destruct (bp_address p !! "postalCode"); [|now split].
    destruct (bp_contactInfo p); (split; [exact Hs |]); cbn [fst snd on_ok ret];
      (split; [|now apply agrees_register]);
      cbn [List.filter app map];
      rewrite (provider_nm1_text (EBilling p) "billing_provider" eq_refl); reflexivity.
Qed.

Lemma bind_attr {A B} (f : EDI837Builder -> A) (k : A -> M B) self :
  bind (attr f) k self = k (f self) self.
Proof. reflexivity. Qed.

Lemma provider_nm1_other_tag t s :
  plain_tag t = true -> t <> "NM1" -> has_tag t s = true -> provider_nm1 s = false.
Proof.
  intros Hplain Hne Ht. destruct (provider_nm1 s) eqn:E; [|reflexivity].
  apply provider_nm1_has_tag in E. exfalso. apply Hne.
  now apply (has_tag_unique t "NM1" s).
Qed.

Lemma subscriber_loop_presents st i : presents st [] (_create_subscriber_loop i) [].
Proof.
  intros self seen Hs Hag. destruct (subscribers self !! i) as [sub|] eqn:Hsub.
  - rewrite (subscriber_loop_unfold _ _ _ Hsub). split; [exact Hs |]. cbn [fst snd].
    assert (forall tail, subscriber_address_demographics sub = Ok tail ->
                         List.filter provider_nm1 tail = []) as Htail.
    { intros tail H. apply address_demographics_tagged in H.
      eapply filter_nm1_tagged; [ | | exact H]; [reflexivity | simpl; intuition discriminate]. }
    destruct (sub_is_dependent sub).
    + destruct (subscriber_address_demographics sub) as [tail|] eqn:E; [|exact I].
      split; [|exact Hag]. rewrite List.filter_app, (Htail _ eq_refl).
      now destruct (sub_paymentResponsibilityLevelCode sub).
    + destruct (Z.eqb _ _).
      * destruct (subscriber_address_demographics sub) as [tail|] eqn:E; [|exact I].
        split; [|exact Hag]. now rewrite List.filter_app, (Htail _ eq_refl).
      * now split.
  - unfold _create_subscriber_loop, bind, attr, lift, index. rewrite Hsub. now split.
Qed.

Lemma build_subscriber_presents st provider_idx p :
  presents st [] (build_subscriber provider_idx p) [].
Proof.
  unfold build_subscriber. destruct (Z.eqb _ _); [|now apply presents_ret].
  apply (presents_bind st [] _ _ [] []); [apply subscriber_loop_presents |].
  intros loop self seen Hs Hag. unfold _create_payer, bind, opt_attr.
  destruct (payer_info self) eqn:Hp; [|now split].
  destruct (Nat.eqb _ _); cbv beta iota; rewrite ?Hp; cbn [ret];
    (split; [exact Hs |]); cbn [fst snd on_ok first_occurrences seen_after map];
    rewrite app_nil_r; (split; [|exact Hag]); [|reflexivity].
  rewrite List.filter_app. cbn [List.filter].
  change (provider_nm1 _) with false. cbv iota. now rewrite app_nil_r.
Qed.

Lemma facility_presents st pre :
  presents st pre
    (do fs <- _create_service_facility_segments in ret (pre ++ fs))
    match service_facility st with
    | Some f => [(EFacility f, "service_facility")]
    | None => []
    end.
Proof.
  intros self seen Hs Hag.
  assert (service_facility self = service_facility st) as Hsf by now subst st.
  unfold _create_service_facility_segments, bind, attr. rewrite Hsf.
  destruct (service_facility st) as [f|].
  - rewrite (name_segment_first _ _ _ seen) by (first [reflexivity | exact Hag]).
    cbn [first_occurrences seen_after fst].
    destruct (_ || _); cbn [name_truthy name_str].
    + split; [exact Hs |]. cbn [fst snd on_ok ret map]. now rewrite !app_nil_r.
    + rewrite name_segment_text_nonempty. cbn [negb]. split; [exact Hs |].
      cbn [fst snd on_ok ret map]. split; [|now apply agrees_register].
      rewrite List.filter_app. f_equal.
      destruct (has_key (sf_address f) "address1");
        destruct (negb (String.eqb (dict_get (sf_address f) "address2") ""));
        destruct (has_key (sf_address f) "city" && has_key (sf_address f) "state"
                  && has_key (sf_address f) "postalCode");
        cbn [List.filter app];
        rewrite (provider_nm1_text (EFacility f) "service_facility" eq_refl); reflexivity.
  - split; [exact Hs |]. cbn [fst snd on_ok ret map first_occurrences seen_after].
    now rewrite !app_nil_r.
Qed.

Lemma claim_loop_presents st :
  presents st [] _create_claim_information_loop (claim_occurrence st).
Proof.
  intros self seen Hs Hag.
  assert (claim_information self = claim_information st) as Hci by now subst st.
  assert (service_facility self = service_facility st) as Hsf by now subst st.
  unfold _create_claim_information_loop, claim_occurrence.
  rewrite bind_attr, Hci.
  destruct (claim_information st) as [claim|];
    [|split; [exact Hs | split; [reflexivity | exact Hag]]].
  set (clm := (_ +:+ _)%string).
  assert (provider_nm1 clm = false) as Hclm.
  { apply (provider_nm1_other_tag "CLM"); [reflexivity | discriminate |].
    subst clm. string_norm. reflexivity. }
  clearbody clm.
  assert (forall segs : list string,
             List.filter provider_nm1 segs = [] ->
             store_of (snd (match service_facility self with
                            | Some _ =>
                                do fs <- _create_service_facility_segments in
                                ret (segs ++ fs)
                            | None => ret segs
                            end self)) = st /\
             on_ok (fun out =>
                      List.filter provider_nm1 out =
                        List.filter provider_nm1 []
                        ++ map occurrence_text
                             (first_occurrences seen
                                match service_facility st with
                                | Some f => [(EFacility f, "service_facility")]
                                | None => []
                                end) /\
                      agrees (provider_map
                                (snd (match service_facility self with
                                      | Some _ =>
                                          do fs <- _create_service_facility_segments in
                                          ret (segs ++ fs)
                                      | None => ret segs
                                      end self)))
                        (seen_after seen
                           match service_facility st with
                           | Some f => [(EFacility f, "service_facility")]
                           | None => []
                           end))
               (fst (match service_facility self with
                     | Some _ =>
                         do fs <- _create_service_facility_segments in
                         ret (segs ++ fs)
                     | None => ret segs
                     end self))) as Hfac.
  { intros segs Hsegs.
    pose proof (facility_presents st segs self seen Hs Hag) as H.
    rewrite Hsf in *. destruct (service_facility st) as [f|].
    - rewrite Hsegs in H. exact H.
    - split; [exact Hs |]. cbn. now split. }
  unfold bind, attr.
  destruct (prior_authorization self) as [n|];
    destruct (claim_diagnosisCodes claim) as [|d ds]; cbn [lift ret];
    try (destruct (diag_codes (d :: ds)) as [codes|e]; [|now split]);
    apply Hfac; cbn [List.filter app]; rewrite Hclm; reflexivity.
Qed.

Lemma rendering_provider_presents st rp :
  presents st [] (rendering_provider_segments rp) [(ERendering rp, "rendering_provider")].
Proof.
  intros self seen Hs Hag. unfold rendering_provider_segments, bind.
  rewrite (name_segment_first _ _ _ seen) by (first [reflexivity | exact Hag]).
  cbn [first_occurrences seen_after fst].
  destruct (_ || _); cbn [name_truthy name_str].
  - presents_leaf Hs Hag.
  - rewrite name_segment_text_nonempty. cbn [negb]. split; [exact Hs |].
    cbn [fst snd on_ok ret]. split; [|now apply agrees_register].
    cbn [List.filter app map].
    rewrite (provider_nm1_text (ERendering rp) "rendering_provider" eq_refl). reflexivity.
Qed.

Lemma service_line_presents st p :
  presents st [] (service_line_segments p) (line_occurrence st (snd p)).
Proof.
  intros self seen Hs Hag.
  assert (rendering_providers self = rendering_providers st) as Hrps by now subst st.
  unfold service_line_segments, line_occurrence.
  set (sv1 := (fold_left _ _ _ +:+ _)%string).
  assert (provider_nm1 sv1 = false) as Hsv1.
  { apply (provider_nm1_other_tag "SV1"); [reflexivity | discriminate |].
    subst sv1. apply starts_with_app, fold_modifiers_starts_with. reflexivity. }
  clearbody sv1.
  set (lx := ("LX*" +:+ _)%string).
  assert (provider_nm1 lx = false) as Hlx by reflexivity.
  clearbody lx.
  set (base := if negb (String.eqb (sl_serviceDate (snd p)) "")
               then ([lx] ++ [sv1]) ++ ["DTP*472*D8*" +:+ sl_serviceDate (snd p) +:+ "~"]
               else [lx] ++ [sv1]).
  assert (List.filter provider_nm1 base = []) as Hbase.
  { subst base. destruct (negb _); cbn [List.filter app]; rewrite Hlx, Hsv1; reflexivity. }
  clearbody base.
  destruct (sl_renderingProviderIndex (snd p)) as [idx|];
    [|split; [exact Hs | split; [now rewrite Hbase | exact Hag]]].
  rewrite bind_attr, <- Hrps.
  destruct (_ && _); [|split; [exact Hs | split; [now rewrite Hbase | exact Hag]]].
  unfold bind, lift, index.
  destruct (rendering_providers self !! Z.to_nat idx) as [rp|]; [|now split].
  rewrite (name_segment_first _ _ _ seen) by (first [reflexivity | exact Hag]).
  cbn [first_occurrences seen_after fst].
  destruct (_ || _); cbn [name_truthy name_str].
  - split; [exact Hs | split; [now rewrite Hbase | exact Hag]].
  - rewrite name_segment_text_nonempty. cbn [negb]. split; [exact Hs |].
    cbn [fst snd on_ok ret]. split; [|now apply agrees_register].
    rewrite List.filter_app, Hbase. cbn [List.filter app map].
    rewrite (provider_nm1_text (ERendering rp) "rendering_provider" eq_refl). reflexivity.
Qed.

Lemma flat_map_enumerate_from {A B} (f : A -> list B) k (l : list A) :
  flat_map (fun p => f (snd p)) (enumerate_from k l) = flat_map f l.
Proof.
  revert k; induction l as [|x l IH]; intros k; cbn [enumerate_from flat_map];
    [reflexivity | now rewrite IH].
Qed.

Lemma presents_bind_after st pre m (k : list string -> M (list string)) o1 o2 :
  presents st [] m o1 ->
  (forall a, presents st (pre ++ a) (k a) o2) ->
  presents st pre (bind m k) (o1 ++ o2).
Proof.
  intros Hm Hk self seen Hs Hag. unfold bind.
  destruct (Hm self seen Hs Hag) as [Hs' Ha].
  destruct (m self) as [[a|e] self']; cbn [fst snd on_ok] in *; [|now split].
  destruct Ha as [Ha Hag'].
  destruct (Hk a self' _ Hs' Hag') as [Hs'' Hb]. split; [exact Hs'' |].
  destruct (fst (k a self')) as [b|e]; cbn [on_ok] in *; [|exact I].
  destruct Hb as [Hb Hag'']. split.
  - rewrite Hb, List.filter_app, Ha, first_occurrences_app, map_app.
    cbn [List.filter app]. now rewrite app_assoc.
  - now rewrite seen_after_app.
Qed.

Lemma flat_map_nil {A B} (l : list A) : flat_map (fun _ : A => @nil B) l = [].
Proof. induction l as [|x l IH]; [reflexivity | exact IH]. Qed.

Lemma flat_map_single {A B} (f : A -> B) (l : list A) :
  flat_map (fun x => [f x]) l = map f l.
Proof. induction l as [|x l IH]; cbn; [reflexivity | now rewrite IH]. Qed.

Lemma presents_for_each_none {A} st (body : A -> M (list string)) l :
  (forall x, In x l -> presents st [] (body x) []) ->
  presents st [] (for_each body l) [].
Proof.
  intros H. pose proof (presents_for_each st body (fun _ => []) l H) as H'.
  now rewrite flat_map_nil in H'.
Qed.

Lemma service_lines_presents st :
  presents st [] _create_service_lines (flat_map (line_occurrence st) (service_lines st)).
Proof.
  unfold _create_service_lines. apply presents_attr; [reflexivity |].
  unfold enumerate. rewrite <- (flat_map_enumerate_from (line_occurrence st) 0).
  apply presents_for_each. intros x _. apply service_line_presents.
Qed.

Lemma rendering_providers_presents st :
  presents st [] _create_rendering_provider_segments
    (map (fun rp => (ERendering rp, "rendering_provider")) (rendering_providers st)).
Proof.
  unfold _create_rendering_provider_segments. apply presents_attr; [reflexivity |].
  rewrite <- flat_map_single.
  apply presents_for_each. intros x _. apply rendering_provider_presents.
Qed.

Lemma build_provider_presents st i p :
  billing_providers st !! i = Some p ->
  presents st [] (build_provider (i, p)) (provider_occurrences st p).
Proof.
  intros Hp. unfold build_provider, provider_occurrences. cbn [fst].
  replace ((EBilling p, "billing_provider")
           :: claim_occurrence st ++ flat_map (line_occurrence st) (service_lines st)
              ++ map (fun rp => (ERendering rp, "rendering_provider")) (rendering_providers st))
    with ([(EBilling p, "billing_provider")]
          ++ ([] ++ (claim_occurrence st
                     ++ (flat_map (line_occurrence st) (service_lines st)
                         ++ (map (fun rp => (ERendering rp, "rendering_provider"))
                               (rendering_providers st) ++ [])))))
    by (cbn [app]; now rewrite app_nil_r).
  apply presents_bind_after; [now apply billing_loop_presents |]. intros ps.
  apply presents_attr; [reflexivity |].
  apply presents_bind_after.
  { apply presents_for_each_none. intros x _. apply build_subscriber_presents. }
  intros ss.
  apply presents_bind_after; [apply claim_loop_presents |]. intros cs.
  apply presents_bind_after; [apply service_lines_presents |]. intros ls.
  apply presents_attr; [reflexivity |].
  apply presents_bind_after.
  { destruct (0 <? length (rendering_providers st))%nat eqn:E.
    - apply rendering_providers_presents.
    - apply Nat.ltb_ge in E.
      destruct (rendering_providers st); [now apply presents_ret | simpl in E; lia]. }
  intros rs. apply presents_ret. cbn [app]. now rewrite <- !app_assoc.
Qed.

Lemma build_segments_presents st :
  presents st [] build_segments (occurrences st).
Proof.
  unfold build_segments, occurrences.
  apply presents_attr; [reflexivity |].
  rewrite <- (app_nil_r (flat_map _ _)).
  apply presents_bind_after.
  - assert (forall x, In x (enumerate (billing_providers st)) ->
                      presents st [] (build_provider x) (provider_occurrences st (snd x))) as H.
    { intros [i p] Hin. apply enumerate_lookup in Hin. now apply build_provider_presents. }
    apply presents_for_each in H.
    unfold enumerate in *. now rewrite flat_map_enumerate_from in H.
  - intros body. apply presents_ret. cbn [app].
    rewrite List.filter_app. cbn [List.filter _create_trailer].
    change (provider_nm1 _) with false at 1. cbv iota.
    change (provider_nm1 _) with false at 1. cbv iota.
    change (provider_nm1 _) with false at 1. cbv iota.
    now rewrite app_nil_r.
Qed.

Lemma agrees_empty : agrees ∅ [].
Proof. intros npi. reflexivity. Qed.

(** The provider and facility name segments of the output of [build()] on a
    builder whose registry is empty. *)
Lemma build_first_occurrences self segs :
  provider_map self = ∅ ->
  fst (build_segments self) = Ok segs ->
  List.filter provider_nm1 segs =
  map occurrence_text (first_occurrences [] (occurrences self)).
Proof.
  intros Hpm H.
  assert (agrees (provider_map self) []) as Hag by (rewrite Hpm; apply agrees_empty).
  destruct (build_segments_presents (store_of self) self [] eq_refl Hag) as [_ Hb].
  rewrite H in Hb. cbn [on_ok] in Hb. now destruct Hb as [Hb _].
Qed.









Lemma first_occurrences_sound seen occs o :
  In o (first_occurrences seen occs) ->
  In o occs /\ entity_npi (fst o) <> "" /\ ~ In (entity_npi (fst o)) seen.
Proof.
  revert seen; induction occs as [|o' occs IH]; intros seen; cbn [first_occurrences];
    [intros [] |].
  destruct (String.eqb_spec (entity_npi (fst o')) "") as [He|He]; cbn [orb].
  - intros H. apply IH in H as (H1 & H2 & H3). repeat split; [now right | | ]; assumption.
  - destruct (existsb _ seen) eqn:Hs.
    + intros H. apply IH in H as (H1 & H2 & H3). repeat split; [now right | | ]; assumption.
    + intros [<-|H].
      * repeat split; [now left | exact He |]. intros Hin.
        assert (existsb (String.eqb (entity_npi (fst o'))) seen = true) as Ht.
        { apply existsb_exists. exists (entity_npi (fst o')).
          split; [exact Hin | apply String.eqb_refl]. }
        congruence.
      * apply IH in H as (H1 & H2 & H3). repeat split; [now right | exact H2 |].
        intros Hin. apply H3. now right.
Qed.

(** One name segment at most per NPI. *)
Lemma first_occurrences_nodup seen occs :
  NoDup (map (fun o => entity_npi (fst o)) (first_occurrences seen occs)).
Proof.
  revert seen; induction occs as [|o occs IH]; intros seen; cbn [first_occurrences];
    [constructor |].
  destruct (_ || _); [apply IH |]. cbn [map]. constructor; [|apply IH].
  rewrite list_elem_of_In, in_map_iff. intros (o' & Heq & Hin).
  apply first_occurrences_sound in Hin as (_ & _ & Hin). apply Hin. rewrite Heq. now left.
Qed.

(** ** A store without payer *)

Lemma Forall2_const_l {A B} (P : A -> Prop) (l : list A) (parts : list B) :
  Forall2 (fun x _ => P x) l parts -> Forall P l.
Proof. induction 1; constructor; assumption. Qed.

Lemma enumerate_from_In {A} k (l : list A) i x :
  l !! i = Some x -> In ((k + i)%nat, x) (enumerate_from k l).
Proof.
  revert k i; induction l as [|y l IH]; intros k [|i] H; try discriminate;
    cbn [enumerate_from].
  - injection H as ->. left. f_equal. lia.
  - right. replace (k + S i)%nat with (S k + i)%nat by lia. now apply IH.
Qed.

Lemma build_subscriber_needs_payer st provider_idx p :
  payer_info st = None ->
  triple st (build_subscriber provider_idx p)
    (on_ok (fun _ => sub_billingProviderIndex (snd p) <> Z.of_nat provider_idx)).
Proof.
  intros Hpay. unfold build_subscriber.
  destruct (Z.eqb_spec (sub_billingProviderIndex (snd p)) (Z.of_nat provider_idx)) as [He|Hne];
    [|now apply triple_ret].
  eapply triple_bind; [apply subscriber_loop_part |]. intros loop _ self Hs.
  assert (payer_info self = payer_info st) as Hpi by now subst st.
  unfold bind, opt_attr. rewrite Hpi, Hpay. now split.
Qed.

(** Without payer, [build()] returns only if no subscriber is attached to a
    registered billing provider. *)
Lemma build_without_payer self out :
  payer_info self = None ->
  fst (build self) = Ok out ->
  forall i p j sub,
    billing_providers self !! i = Some p -> subscribers self !! j = Some sub ->
    sub_billingProviderIndex sub <> Z.of_nat i.
Proof.
  intros Hpay Hout.
  assert (triple (store_of self) build_segments
            (on_ok (fun _ =>
               Forall (fun x : nat * BillingProvider =>
                 Forall (fun y : nat * Subscriber =>
                           sub_billingProviderIndex (snd y) <> Z.of_nat (fst x))
                   (enumerate (subscribers self)))
                 (enumerate (billing_providers self))))) as H.
  { unfold build_segments.
    eapply triple_bind with (R := fun l => l = billing_providers self).
    { intros s Hs. split; [exact Hs |].
      change (billing_providers (store_of s) = billing_providers (store_of self)).
      now rewrite Hs. }
    intros providers ->.
    eapply triple_bind.
    { apply (triple_for_each (store_of self) build_provider
               (fun x _ => Forall (fun y : nat * Subscriber =>
                                     sub_billingProviderIndex (snd y) <> Z.of_nat (fst x))
                             (enumerate (subscribers self)))).
      intros x _. unfold build_provider.
      eapply triple_bind; [apply billing_loop_part |]. intros ps _.
      eapply triple_bind with (R := fun l => l = subscribers self).
      { intros s Hs. split; [exact Hs |].
        change (subscribers (store_of s) = subscribers (store_of self)).
        now rewrite Hs. }
      intros subs ->.
      eapply triple_bind.
      { apply (triple_for_each (store_of self) (build_subscriber (fst x))
                 (fun y _ => sub_billingProviderIndex (snd y) <> Z.of_nat (fst x))).
        intros y _. now apply build_subscriber_needs_payer. }
      intros ss (parts & Hparts & _). apply Forall2_const_l in Hparts.
      eapply triple_bind; [apply claim_loop_part |]. intros cs _.
      eapply triple_bind; [apply service_lines_part |]. intros ls _.
      eapply triple_bind with (R := fun _ => True); [intros s Hs; now split |].
      intros rps _.
      eapply triple_bind with (R := fun _ => True).
      { destruct (_ <? _)%nat; [|now apply triple_ret].
        eapply triple_weaken; [apply rendering_providers_part | trivial]. }
      intros rs _. now apply triple_ret. }
    intros body (parts & Hparts & _). apply Forall2_const_l in Hparts.
    now apply triple_ret. }
  destruct (H self eq_refl) as [_ Hok]. unfold build, bind in Hout.
  destruct (build_segments self) as [[segs|e] self']; [|discriminate Hout].
  cbn [fst on_ok] in Hok.
  intros i p j sub Hp Hsub.
  rewrite List.Forall_forall in Hok.
  specialize (Hok (i, p) (enumerate_from_In 0 _ _ _ Hp)).
  rewrite List.Forall_forall in Hok.
  exact (Hok (j, sub) (enumerate_from_In 0 _ _ _ Hsub)).
Qed.

(** * Further properties *)

(** ** What [build()] leaves alone *)

Lemma frame_ret {A} (a : A) : frame (ret a).
Proof. intros self. split; [reflexivity | now intros npi]. Qed.

Lemma frame_raise {A} (e : exn) : frame (@raise A e).
Proof. intros self. split; [reflexivity | now intros npi]. Qed.

Lemma frame_lift {A} (r : result A) : frame (lift r).
Proof. intros self. split; [reflexivity | now intros npi]. Qed.

Lemma frame_attr {A} (f : EDI837Builder -> A) : frame (attr f).
Proof. intros self. split; [reflexivity | now intros npi]. Qed.

Lemma frame_opt_attr {A} name (f : EDI837Builder -> option A) : frame (opt_attr name f).
Proof. intros self. unfold opt_attr. destruct (f self); (split; [reflexivity | now intros npi]). Qed.

Lemma frame_bind {A B} (m : M A) (k : A -> M B) :
  frame m -> (forall a, frame (k a)) -> frame (bind m k).
Proof.
  intros Hm Hk self. unfold bind. destruct (Hm self) as [Hs Hr].
  destruct (m self) as [[a|e] self']; cbn [fst snd] in *; [|now split].
  destruct (Hk a self') as [Hs' Hr']. split; [congruence |].
  intros npi H. now apply Hr', Hr.
Qed.

Lemma frame_for_each {A} (body : A -> M (list string)) (l : list A) :
  (forall x, frame (body x)) -> frame (for_each body l).
Proof.
  intros Hbody. induction l as [|x l IH]; cbn [for_each]; [apply frame_ret |].
  apply frame_bind; [apply Hbody |]. intros s.
  apply frame_bind; [exact IH |]. intros r. apply frame_ret.
Qed.

Lemma frame_can_create_provider e context : frame (_can_create_provider e context).
Proof.
  unfold _can_create_provider.
  destruct (negb _); [apply frame_ret |].
  destruct (negb _); [apply frame_ret |].
  intros self. destruct (has_key (provider_map self) _) eqn:E; cbn [fst snd].
  - split; [reflexivity | now intros npi].
  - split; [reflexivity |]. intros npi H.
    cbn [provider_map set_provider_map]. rewrite has_key_insert, H. apply orb_true_r.
Qed.

Ltac frame_step :=
  lazymatch goal with
  | |- frame (bind _ _) => apply frame_bind; [| intros ?]
  | |- frame (ret _) => apply frame_ret
  | |- frame (raise _) => apply frame_raise
  | |- frame (attr _) => apply frame_attr
  | |- frame (opt_attr _ _) => apply frame_opt_attr
  | |- frame (lift _) => apply frame_lift
  | |- frame (for_each _ _) => apply frame_for_each; intros ?
  | |- frame (_can_create_provider _ _) => apply frame_can_create_provider
  | |- frame (match ?x with _ => _ end) => destruct x
  end.

Ltac frame_solve := cbv zeta; repeat frame_step.

Lemma frame_name_segment e context : frame (_create_name_segment e context).
Proof. unfold _create_name_segment. frame_solve. Qed.

Lemma frame_billing_loop idx : frame (_create_billing_provider_loop idx).
Proof. unfold _create_billing_provider_loop. frame_solve; apply frame_name_segment. Qed.

Ltac frame_methods :=
  cbv zeta;
  repeat first [ apply frame_name_segment | frame_step ].

Lemma frame_subscriber_loop i : frame (_create_subscriber_loop i).
Proof. unfold _create_subscriber_loop. frame_methods. Qed.

Lemma frame_payer : frame _create_payer.
Proof. unfold _create_payer. frame_methods. Qed.

Lemma frame_facility : frame _create_service_facility_segments.
Proof. unfold _create_service_facility_segments. frame_methods. Qed.

Lemma frame_claim_loop : frame _create_claim_information_loop.
Proof.
  unfold _create_claim_information_loop.
  repeat first [ apply frame_facility | apply frame_name_segment | frame_step | cbv zeta ].
Qed.

Lemma frame_service_line p : frame (service_line_segments p).
Proof. unfold service_line_segments. frame_methods. Qed.

Lemma frame_service_lines : frame _create_service_lines.
Proof. unfold _create_service_lines. frame_methods. apply frame_service_line. Qed.

Lemma frame_rendering_provider rp : frame (rendering_provider_segments rp).
Proof. unfold rendering_provider_segments. frame_methods. Qed.

Lemma frame_rendering_providers : frame _create_rendering_provider_segments.
Proof.
  unfold _create_rendering_provider_segments. frame_methods. apply frame_rendering_provider.
Qed.

Lemma frame_build_subscriber provider_idx p : frame (build_subscriber provider_idx p).
Proof.
  unfold build_subscriber.
  repeat first [ apply frame_subscriber_loop | apply frame_payer | frame_step | cbv zeta ].
Qed.

Lemma frame_build_provider p : frame (build_provider p).
Proof.
  unfold build_provider.
  repeat first [ apply frame_billing_loop | apply frame_build_subscriber
               | apply frame_claim_loop | apply frame_service_lines
               | apply frame_rendering_providers | frame_step | cbv zeta ].
Qed.

Lemma frame_build_segments : frame build_segments.
Proof.
  unfold build_segments. repeat first [ apply frame_build_provider | frame_step | cbv zeta ].
Qed.

Lemma frame_build : frame build.
Proof.
  unfold build. apply frame_bind; [apply frame_build_segments | intros segs; apply frame_ret].
Qed.

(** X1: whether it returns or raises, [build()] leaves every attribute of
    the builder but the registry as it was (the added data are never
    modified), and every NPI that was in the registry is still there. *)
Theorem build_frame self :
  store_of (snd (build self)) = store_of self /\
  (forall npi, has_key (provider_map self) npi = true ->
               has_key (provider_map (snd (build self))) npi = true).
Proof. exact (frame_build self). Qed.

(** ** The registry after [build()] *)

Lemma existsb_eqb_In npi seen : existsb (String.eqb npi) seen = true <-> In npi seen.
Proof.
  rewrite existsb_exists. split.
  - intros (x & Hin & Heq). apply String.eqb_eq in Heq. now subst.
  - intros Hin. exists npi. split; [exact Hin | apply String.eqb_refl].
Qed.

Lemma seen_after_In seen occs npi :
  In npi (seen_after seen occs) <->
  In npi seen \/ (npi <> "" /\ exists o, In o occs /\ entity_npi (fst o) = npi).
Proof.
  revert seen; induction occs as [|o occs IH]; intros seen; cbn [seen_after].
  - split; [now left | intros [H|(_ & o & [] & _)]; exact H].
  - destruct (String.eqb_spec (entity_npi (fst o)) "") as [He|He]; cbn [orb].
    + rewrite IH. split.
      * intros [H|(Hne & o' & Hin & Heq)]; [now left |].
        right. split; [exact Hne |]. exists o'. split; [now right | exact Heq].
      * intros [H|(Hne & o' & [<-|Hin] & Heq)]; [now left | congruence |].
        right. split; [exact Hne |]. now exists o'.
    + destruct (existsb (String.eqb (entity_npi (fst o))) seen) eqn:Hs.
      * apply existsb_eqb_In in Hs. rewrite IH. split.
        -- intros [H|(Hne & o' & Hin & Heq)]; [now left |].
           right. split; [exact Hne |]. exists o'. split; [now right | exact Heq].
        -- intros [H|(Hne & o' & [<-|Hin] & Heq)]; [now left | left; now rewrite <- Heq |].
           right. split; [exact Hne |]. now exists o'.
      * rewrite IH. cbn [In]. split.
        -- intros [[<-|H]|(Hne & o' & Hin & Heq)].
           ++ right. split; [exact He |]. exists o. split; [now left | reflexivity].
           ++ now left.
           ++ right. split; [exact Hne |]. exists o'. split; [now right | exact Heq].
        -- intros [H|(Hne & o' & [<-|Hin] & Heq)].
           ++ left. now right.
           ++ left. now left.
           ++ right. split; [exact Hne |]. now exists o'.
Qed.

Lemma first_occurrences_none seen occs :
  (forall o, In o occs -> entity_npi (fst o) = "" \/ In (entity_npi (fst o)) seen) ->
  first_occurrences seen occs = [].
Proof.
  induction occs as [|o occs IH]; intros H; cbn [first_occurrences]; [reflexivity |].
  assert (String.eqb (entity_npi (fst o)) ""
          || existsb (String.eqb (entity_npi (fst o))) seen = true) as ->.
  { destruct (H o (or_introl eq_refl)) as [He|Hin].
    - rewrite He. reflexivity.
    - apply existsb_eqb_In in Hin. rewrite Hin. apply orb_true_r. }
  apply IH. intros o' Hin. apply H. now right.
Qed.

Lemma first_occurrences_some seen occs o :
  In o occs -> entity_npi (fst o) <> "" -> ~ In (entity_npi (fst o)) seen ->
  first_occurrences seen occs <> [].
Proof.
  revert seen; induction occs as [|o' occs IH]; intros seen Hin Hne Hseen; [destruct Hin |].
  cbn [first_occurrences].
  destruct (String.eqb_spec (entity_npi (fst o')) "") as [He|He]; cbn [orb].
  - destruct Hin as [->|Hin]; [contradiction |]. now apply IH.
  - destruct (existsb (String.eqb (entity_npi (fst o'))) seen) eqn:Hs; [|discriminate].
    apply existsb_eqb_In in Hs.
    destruct Hin as [->|Hin]; [contradiction |]. now apply IH.
Qed.

Lemma build_state self : snd (build self) = snd (build_segments self).
Proof. unfold build, bind. now destruct (build_segments self) as [[segs|e] self']. Qed.

Lemma build_registry self segs :
  provider_map self = ∅ ->
  fst (build_segments self) = Ok segs ->
  agrees (provider_map (snd (build self))) (seen_after [] (occurrences self)).
Proof.
  intros Hpm H.
  assert (agrees (provider_map self) []) as Hag by (rewrite Hpm; apply agrees_empty).
  destruct (build_segments_presents (store_of self) self [] eq_refl Hag) as [_ Hb].
  rewrite H in Hb. cbn [on_ok] in Hb. rewrite build_state. now destruct Hb as [_ Hb].
Qed.

(** X2: after a [build()] that started from an empty registry and returned,
    the registry holds exactly the non-empty NPIs of the billing providers,
    service facility and rendering providers that the build presented. *)
Theorem registry_after_build self segs npi :
  provider_map self = ∅ ->
  fst (build_segments self) = Ok segs ->
  (has_key (provider_map (snd (build self))) npi = true <->
   npi <> "" /\ exists o, In o (occurrences self) /\ entity_npi (fst o) = npi).
Proof.
  intros Hpm H. rewrite (build_registry self segs Hpm H npi), existsb_eqb_In, seen_after_In.
  split; [intros [[]|H']; exact H' | intros H'; now right].
Qed.

Lemma occurrences_store self : occurrences (store_of self) = occurrences self.
Proof. reflexivity. Qed.

(** X3: [build()] is not idempotent.  A second [build()] on the same builder
    starts from the registry that the first one left: its output holds no
    name segment of a billing provider, rendering provider or service
    facility at all, and so differs from the first output as soon as a
    billing provider has a non-empty NPI. *)
Theorem second_build_has_no_provider_names self segs1 segs2 :
  provider_map self = ∅ ->
  fst (build_segments self) = Ok segs1 ->
  fst (build_segments (snd (build self))) = Ok segs2 ->
  List.filter provider_nm1 segs2 = [] /\
  ((exists p, In p (billing_providers self) /\ bp_npi p <> "") -> segs2 <> segs1).
Proof.
  intros Hpm H1 H2.
  pose proof (build_registry self segs1 Hpm H1) as Hag.
  pose proof (proj1 (frame_build self)) as Hstore.
  set (self1 := snd (build self)) in *.
  destruct (build_segments_presents (store_of self1) self1 _ eq_refl Hag) as [_ Hb].
  rewrite H2 in Hb. cbn [on_ok] in Hb. destruct Hb as [Hb _].
  assert (occurrences (store_of self1) = occurrences self) as Hocc
    by (rewrite Hstore; apply occurrences_store).
  rewrite Hocc in Hb.
  assert (List.filter provider_nm1 segs2 = []) as Hnone.
  { rewrite Hb. cbn [List.filter app]. rewrite first_occurrences_none; [reflexivity |].
    intros o Hin. destruct (String.eqb_spec (entity_npi (fst o)) "") as [He|He]; [now left |].
    right. apply seen_after_In. right. split; [exact He |]. now exists o. }
  split; [exact Hnone |].
  intros (p & Hp & Hnpi) ->.
  rewrite (build_first_occurrences self segs1 Hpm H1) in Hnone.
  apply map_eq_nil in Hnone. revert Hnone.
  apply (first_occurrences_some [] _ (EBilling p, "billing_provider")); [|exact Hnpi | intros []].
  unfold occurrences. apply in_flat_map. exists p. split; [exact Hp | now left].
Qed.

Lemma registry_after_build_witness :
  has_key (provider_map (snd (build store_shared_npi))) "1111111111" = true <->
  "1111111111" <> "" /\
  exists o, In o (occurrences store_shared_npi) /\ entity_npi (fst o) = "1111111111".
Proof.
  apply (registry_after_build store_shared_npi shared_npi_segments "1111111111");
    [reflexivity | vm_compute; reflexivity].
Defined.

Lemma second_build_has_no_provider_names_witness :
  List.filter provider_nm1 shared_npi_second_segments = [].
Proof.
  refine (proj1 (second_build_has_no_provider_names store_shared_npi
                   shared_npi_segments shared_npi_second_segments _ _ _));
    [reflexivity | vm_compute; reflexivity | vm_compute; reflexivity].
Defined.

(** ** Contacts, by key *)

Lemma contact_map_keys pre k :
  has_key (contact_info_map (fresh_builder pre)) k = key_supplied pre k.
Proof.
  unfold fresh_builder, key_supplied.
  destruct (existsb _ pre) eqn:E.
  - apply existsb_exists in E as (op & Hin & Hop).
    destruct (supplied_contact op) as [c'|] eqn:Hc; [|discriminate].
    apply String.eqb_eq in Hop. subst k. now apply (contact_recorded _ _ op).
  - destruct (has_key _ k) eqn:Hk; [|reflexivity].
    apply contact_origin in Hk as [Hk|(op & c' & Hin & Hc & Hkey)]; [discriminate Hk |].
    assert (existsb (fun op => match supplied_contact op with
                               | Some c' => String.eqb (contact_key c') k
                               | None => false
                               end) pre = true) as Ht.
    { apply existsb_exists. exists op. split; [exact Hin |].
      rewrite Hc. now apply String.eqb_eq. }
    congruence.
Qed.

Lemma stored_contact_spec pre post npi tc eid addr org l f contactInfo :
  billing_providers
    (fresh_builder (pre ++ [AddBillingProvider npi tc eid addr org l f contactInfo] ++ post))
    !! count_billing pre =
  Some {| bp_npi := npi; bp_taxonomyCode := tc; bp_employerId := eid;
          bp_address := addr;
          bp_name := if truthy org then Organization (fmt org) else Individual l f;
          bp_contactInfo := stored_contact pre contactInfo |}.
Proof.
  unfold fresh_builder. rewrite !apply_ops_app. apply billing_providers_prefix.
  fold (fresh_builder pre).
  assert (length (billing_providers (fresh_builder pre)) = count_billing pre) as Hlen
    by (unfold fresh_builder; now rewrite billing_providers_length).
  cbn [apply_ops fold_left apply_op add_billing_provider fst].
  unfold stored_contact. destruct contactInfo as [c|].
  - rewrite contact_map_keys.
    destruct (dict_truthy (Some c) && negb (key_supplied pre (contact_key c)));
      cbn [billing_providers set_billing_providers set_contact_info_map];
      rewrite <- Hlen; now apply list_lookup_middle.
  - cbn [billing_providers set_billing_providers]. rewrite <- Hlen.
    now apply list_lookup_middle.
Qed.

Lemma billing_loop_contact_count self idx p :
  billing_providers self !! idx = Some p ->
  on_ok (fun segs => count_tag "PER" segs = length (contact_segments p))
    (fst (_create_billing_provider_loop idx self)).
Proof.
  intros Hp. unfold _create_billing_provider_loop, bind, attr, lift, index, contact_segments.
  rewrite Hp, name_segment_spec by reflexivity.
  assert (has_tag "PER" (name_segment_text (EBilling p) "billing_provider") = false) as Hnm
    by (apply (starts_with_first _ _ _ _ _ (name_segment_text_tag _ _)); discriminate).
  destruct (refused _ _); cbn [name_truthy name_str].
  - unfold ret. now destruct (bp_contactInfo p).
  - rewrite name_segment_text_nonempty. cbn [negb]. unfold subscript.
    destruct (bp_address p !! "address1"); [|exact I].
    destruct (bp_address p !! "city"); [|exact I].
    destruct (bp_address p !! "state"); [|exact I].
    destruct (bp_address p !! "postalCode"); [|exact I].
    unfold ret. destruct (bp_contactInfo p); cbn [fst on_ok app];
      rewrite !count_tag_cons, Hnm; reflexivity.
Qed.

(** X4: the contact of a billing provider is de-duplicated by the key
    [name_phone)], across [add_submitter] and [add_billing_provider]: the
    provider is stored with its [contactInfo] exactly when the dictionary is
    not empty and no earlier call recorded a contact under the same key; the
    loop that [build()] emits for the provider then has one PER segment, and
    none otherwise. *)
Theorem contact_kept_iff_fresh_key pre post npi tc eid addr org l f contactInfo pm :
  billing_providers
    (fresh_builder (pre ++ [AddBillingProvider npi tc eid addr org l f contactInfo] ++ post))
    !! count_billing pre =
  Some {| bp_npi := npi; bp_taxonomyCode := tc; bp_employerId := eid;
          bp_address := addr;
          bp_name := if truthy org then Organization (fmt org) else Individual l f;
          bp_contactInfo := stored_contact pre contactInfo |} /\
  on_ok (fun segs =>
           count_tag "PER" segs =
           match stored_contact pre contactInfo with Some _ => 1%nat | None => 0%nat end)
    (fst (_create_billing_provider_loop (count_billing pre)
            (set_provider_map pm
               (fresh_builder
                  (pre ++ [AddBillingProvider npi tc eid addr org l f contactInfo] ++ post))))).
Proof.
  split; [apply stored_contact_spec |].
  pose proof (billing_loop_contact_count
                (set_provider_map pm
                   (fresh_builder
                      (pre ++ [AddBillingProvider npi tc eid addr org l f contactInfo] ++ post)))
                (count_billing pre) _
                (stored_contact_spec pre post npi tc eid addr org l f contactInfo)) as H.
  destruct (fst (_create_billing_provider_loop _ _)) as [segs|e]; [|exact I].
  cbn [on_ok] in *. rewrite H. unfold contact_segments. cbn [bp_contactInfo].
  now destruct (stored_contact pre contactInfo).
Qed.

Lemma length_append (s1 s2 : string) :
  String.length (s1 +:+ s2) = (String.length s1 + String.length s2)%nat.
Proof. induction s1 as [|ch s1 IH]; cbn [append String.length plus]; congruence. Qed.

Lemma contact_of_truthy name phone : dict_truthy (Some (contact_of name phone)) = true.
Proof.
  unfold dict_truthy, contact_of. apply negb_true_iff, bool_decide_eq_false.
  apply insert_non_empty.
Qed.

Lemma contact_of_key name phone :
  contact_key (contact_of name phone) = name +:+ "_" +:+ phone +:+ ")".
Proof.
  unfold contact_key, contact_of, dict_get.
  rewrite lookup_insert_eq, lookup_insert_ne by discriminate.
  now rewrite lookup_insert_eq.
Qed.

(** X5: the key is not injective.  The contacts (name [a_b], phone [c]) and
    (name [a], phone [b_c]) have the same key, so that the second of two
    billing providers that give them loses its contact although no contact
    with its name and phone number was given before. *)
Theorem colliding_contact_is_dropped a b c npi1 tc1 eid1 addr1 org1 l1 f1
    npi2 tc2 eid2 addr2 org2 l2 f2 :
  dict_get (contact_of (a +:+ "_" +:+ b) c) "name" <> dict_get (contact_of a (b +:+ "_" +:+ c)) "name" /\
  billing_providers
    (fresh_builder
       [ AddBillingProvider npi1 tc1 eid1 addr1 org1 l1 f1
           (Some (contact_of (a +:+ "_" +:+ b) c));
         AddBillingProvider npi2 tc2 eid2 addr2 org2 l2 f2
           (Some (contact_of a (b +:+ "_" +:+ c))) ])
    !! 1%nat =
  Some {| bp_npi := npi2; bp_taxonomyCode := tc2; bp_employerId := eid2;
          bp_address := addr2;
          bp_name := if truthy org2 then Organization (fmt org2) else Individual l2 f2;
          bp_contactInfo := None |}.
Proof.
  split.
  - unfold contact_of, dict_get. rewrite !lookup_insert_eq.
    intros H. apply (f_equal String.length) in H.
    rewrite !length_append in H. cbn in H. lia.
  - pose proof (stored_contact_spec
                  [AddBillingProvider npi1 tc1 eid1 addr1 org1 l1 f1
                     (Some (contact_of (a +:+ "_" +:+ b) c))] []
                  npi2 tc2 eid2 addr2 org2 l2 f2
                  (Some (contact_of a (b +:+ "_" +:+ c)))) as H.
    cbn [app count_billing] in H. rewrite H. clear H.
    do 2 f_equal. unfold stored_contact, key_supplied.
    cbn [existsb supplied_contact]. rewrite !contact_of_truthy, !contact_of_key.
    rewrite !append_assoc. cbn [append]. rewrite String.eqb_refl. reflexivity.
Qed.

(** ** What [build()] reads *)

Lemma commutes_ret {A} (a : A) : commutes (ret a).
Proof. now intros self. Qed.

Lemma commutes_raise {A} (e : exn) : commutes (@raise A e).
Proof. now intros self. Qed.

Lemma commutes_lift {A} (r : result A) : commutes (lift r).
Proof. now intros self. Qed.

Lemma commutes_attr {A} (f : EDI837Builder -> A) :
  (forall self, f (build_view self) = f self) -> commutes (attr f).
Proof. intros Hf self. unfold attr. now rewrite Hf. Qed.

Lemma commutes_opt_attr {A} name (f : EDI837Builder -> option A) :
  (forall self, f (build_view self) = f self) -> commutes (opt_attr name f).
Proof. intros Hf self. unfold opt_attr. rewrite Hf. now destruct (f self). Qed.

Lemma commutes_bind {A B} (m : M A) (k : A -> M B) :
  commutes m -> (forall a, commutes (k a)) -> commutes (bind m k).
Proof.
  intros Hm Hk self. unfold bind. rewrite Hm.
  destruct (m self) as [[a|e] self']; cbn [fst snd]; [apply Hk | reflexivity].
Qed.

(** An attribute that the view changes by [g], read by a continuation that
    does not see the difference. *)
Lemma commutes_bind_view {A B} (f : EDI837Builder -> A) (g : A -> A) (k : A -> M B) :
  (forall self, f (build_view self) = g (f self)) ->
  (forall a self, k (g a) self = k a self) ->
  (forall a, commutes (k a)) ->
  commutes (bind (attr f) k).
Proof.
  intros Hf Hg Hk self. unfold bind, attr. rewrite Hf, Hg. apply Hk.
Qed.

Lemma commutes_for_each {A} (body : A -> M (list string)) (l : list A) :
  (forall x, commutes (body x)) -> commutes (for_each body l).
Proof.
  intros Hbody. induction l as [|x l IH]; cbn [for_each]; [apply commutes_ret |].
  apply commutes_bind; [apply Hbody |]. intros s.
  apply commutes_bind; [exact IH |]. intros r. apply commutes_ret.
Qed.

Lemma commutes_can_create_provider e context : commutes (_can_create_provider e context).
Proof.
  unfold _can_create_provider.
  destruct (negb _); [apply commutes_ret |].
  destruct (negb _); [apply commutes_ret |].
  intros self. cbn [provider_map build_view].
  now destruct (has_key (provider_map self) _).
Qed.

Ltac commutes_step :=
  lazymatch goal with
  | |- commutes (bind _ _) => apply commutes_bind; [| intros ?]
  | |- commutes (ret _) => apply commutes_ret
  | |- commutes (raise _) => apply commutes_raise
  | |- commutes (attr _) => apply commutes_attr; intros ?; reflexivity
  | |- commutes (opt_attr _ _) => apply commutes_opt_attr; intros ?; reflexivity
  | |- commutes (lift _) => apply commutes_lift
  | |- commutes (for_each _ _) => apply commutes_for_each; intros ?
  | |- commutes (_can_create_provider _ _) => apply commutes_can_create_provider
  | |- commutes (match ?x with _ => _ end) => destruct x
  end.

Lemma commutes_name_segment e context : commutes (_create_name_segment e context).
Proof. unfold _create_name_segment. cbv zeta. repeat commutes_step. Qed.

Ltac commutes_methods :=
  cbv zeta;
  repeat first [ apply commutes_name_segment | commutes_step ].

Lemma commutes_billing_loop idx : commutes (_create_billing_provider_loop idx).
Proof. unfold _create_billing_provider_loop. commutes_methods. Qed.

Lemma commutes_subscriber_loop i : commutes (_create_subscriber_loop i).
Proof. unfold _create_subscriber_loop. commutes_methods. Qed.

Lemma commutes_payer : commutes _create_payer.
Proof. unfold _create_payer. commutes_methods. Qed.

Lemma commutes_facility : commutes _create_service_facility_segments.
Proof. unfold _create_service_facility_segments. commutes_methods. Qed.

Lemma commutes_claim_loop : commutes _create_claim_information_loop.
Proof.
  unfold _create_claim_information_loop.
  apply (commutes_bind_view claim_information (option_map forget_claim)).
  - reflexivity.
  - intros [c|] self; reflexivity.
  - intros [c|]; [|apply commutes_ret].
    repeat first [ apply commutes_facility | commutes_step | cbv zeta ].
Qed.

Lemma commutes_service_line p : commutes (service_line_segments p).
Proof. unfold service_line_segments. commutes_methods. Qed.

Lemma for_each_forget_line i lines self :
  for_each service_line_segments (enumerate_from i (List.map forget_line lines)) self =
  for_each service_line_segments (enumerate_from i lines) self.
Proof.
  revert i self. induction lines as [|l lines IH]; intros i self; [reflexivity |].
  cbn [List.map enumerate_from for_each]. unfold bind at 1 3.
  change (service_line_segments (i, forget_line l)) with (service_line_segments (i, l)).
  destruct (service_line_segments (i, l) self) as [[s|e] self']; [|reflexivity].
  unfold bind. now rewrite IH.
Qed.

Lemma commutes_service_lines : commutes _create_service_lines.
Proof.
  unfold _create_service_lines.
  apply (commutes_bind_view service_lines (List.map forget_line)).
  - reflexivity.
  - intros lines self. apply for_each_forget_line.
  - intros lines. apply commutes_for_each. intros p. apply commutes_service_line.
Qed.

Lemma commutes_rendering_provider rp : commutes (rendering_provider_segments rp).
Proof. unfold rendering_provider_segments. commutes_methods. Qed.

Lemma commutes_rendering_providers : commutes _create_rendering_provider_segments.
Proof.
  unfold _create_rendering_provider_segments. commutes_methods.
  apply commutes_rendering_provider.
Qed.

Lemma commutes_build_subscriber provider_idx p : commutes (build_subscriber provider_idx p).
Proof.
  unfold build_subscriber.
  repeat first [ apply commutes_subscriber_loop | apply commutes_payer
               | commutes_step | cbv zeta ].
Qed.

Lemma commutes_build_provider p : commutes (build_provider p).
Proof.
  unfold build_provider.
  repeat first [ apply commutes_billing_loop | apply commutes_build_subscriber
               | apply commutes_claim_loop | apply commutes_service_lines
               | apply commutes_rendering_providers | commutes_step | cbv zeta ].
Qed.

Lemma commutes_build : commutes build.
Proof.
  unfold build, build_segments.
  repeat first [ apply commutes_build_provider | commutes_step | cbv zeta ].
Qed.

(** X6: [build()] reads the billing providers, the subscribers, the payer,
    the service facility, the prior authorization, the rendering providers,
    the registry, and of the claim and the service lines everything but
    their subscriber and patient indices; nothing else.  Two builders that
    agree on these give the same result, output or exception, whatever their
    version, submitter, separators, counters or recorded contacts, and
    whatever subscriber and patient index the claim, the service lines and
    [add_payer] were given; the builders agree on these afterwards too. *)
Theorem build_reads_only_its_view self self' :
  build_view self = build_view self' ->
  fst (build self) = fst (build self') /\
  build_view (snd (build self)) = build_view (snd (build self')).
Proof.
  intros Hv.
  pose proof (commutes_build self) as H. pose proof (commutes_build self') as H'.
  rewrite Hv, H' in H.
  split; [exact (eq_sym (f_equal fst H)) | exact (eq_sym (f_equal snd H))].
Qed.

Lemma build_reads_only_its_view_witness :
  fst (build store_two_providers) = fst (build store_other_indices) /\
  build_view (snd (build store_two_providers)) =
  build_view (snd (build store_other_indices)).
Proof.
  apply (build_reads_only_its_view store_two_providers store_other_indices).
  vm_compute. reflexivity.
Defined.

(** ** The exceptions of [build()] *)

Lemma triple_bind_outcome {A B} st (m : M A) (k : A -> M B) (R : A -> Prop) Q F :
  triple st m (outcome R F) ->
  (forall a, R a -> triple st (k a) (outcome Q F)) ->
  triple st (bind m k) (outcome Q F).
Proof.
  intros Hm Hk self Hs. unfold bind.
  destruct (Hm self Hs) as [Hs' HR].
  destruct (m self) as [[a|e] self']; simpl in *; [now apply Hk | now split].
Qed.

Lemma triple_for_each_outcome {A} st (body : A -> M (list string)) (l : list A) F :
  (forall x, In x l -> triple st (body x) (outcome (fun _ => True) F)) ->
  triple st (for_each body l) (outcome (fun _ => True) F).
Proof.
  induction l as [|x l IH]; intros Hbody; simpl for_each.
  - now apply triple_ret.
  - eapply triple_bind_outcome; [apply Hbody; now left |]. intros s _.
    eapply triple_bind_outcome; [apply IH; intros y Hy; apply Hbody; now right |].
    intros r _. now apply triple_ret.
Qed.

Lemma triple_total_outcome {A} st (m : M A) (R : A -> Prop) F :
  triple st m (ok_and R) -> triple st m (outcome R F).
Proof.
  intros Hm self Hs. destruct (Hm self Hs) as [Hs' H]. split; [exact Hs' |].
  destruct (fst (m self)); [exact H | contradiction].
Qed.

Lemma triple_outcome_weaken {A} st (m : M A) (R : A -> Prop) (F F' : exn -> Prop) :
  triple st m (outcome R F) -> (forall e, F e -> F' e) -> triple st m (outcome R F').
Proof.
  intros Hm HF self Hs. destruct (Hm self Hs) as [Hs' H]. split; [exact Hs' |].
  destruct (fst (m self)); [exact H | now apply HF].
Qed.

Ltac missing_key k H :=
  exists k; split; [reflexivity | split; [cbn [In]; tauto | exact H]].

Lemma billing_loop_fails st idx p :
  billing_providers st !! idx = Some p ->
  triple st (_create_billing_provider_loop idx)
    (outcome (fun _ => True)
       (fun e => exists k, e = KeyError k /\ In k address_keys /\ bp_address p !! k = None)).
Proof.
  intros Hp self Hs.
  assert (billing_providers self = billing_providers st) as Hbp by now subst st.
  unfold _create_billing_provider_loop, bind, attr, lift, index. rewrite Hbp, Hp.
  rewrite name_segment_spec by reflexivity.
  destruct (refused _ _); cbn [name_truthy name_str].
  - destruct (bp_contactInfo p); now split.
  - rewrite name_segment_text_nonempty. cbn [negb]. unfold subscript, address_keys.
    destruct (bp_address p !! "address1") eqn:H1;
      [|split; [exact Hs | missing_key "address1" H1]].
    destruct (bp_address p !! "city") eqn:H2;
      [|split; [exact Hs | missing_key "city" H2]].
    destruct (bp_address p !! "state") eqn:H3;
      [|split; [exact Hs | missing_key "state" H3]].
    destruct (bp_address p !! "postalCode") eqn:H4;
      [|split; [exact Hs | missing_key "postalCode" H4]].
    destruct (bp_contactInfo p); now split.
Qed.

Lemma address_demographics_fails sub e :
  subscriber_address_demographics sub = Raise e ->
  exists k, e = KeyError k /\ In k address_keys /\ sub_address sub !! k = None.
Proof.
  unfold subscriber_address_demographics, subscript, address_keys.
  destruct (sub_address sub !! "address1") eqn:H1;
    [|intros [= <-]; missing_key "address1" H1].
  destruct (sub_address sub !! "city") eqn:H2;
    [|intros [= <-]; missing_key "city" H2].
  destruct (sub_address sub !! "state") eqn:H3;
    [|intros [= <-]; missing_key "state" H3].
  destruct (sub_address sub !! "postalCode") eqn:H4;
    [|intros [= <-]; missing_key "postalCode" H4].
  discriminate.
Qed.

Lemma subscriber_loop_fails st i sub :
  subscribers st !! i = Some sub ->
  triple st (_create_subscriber_loop i)
    (outcome (fun _ => True)
       (fun e => exists k, e = KeyError k /\ In k address_keys /\ sub_address sub !! k = None)).
Proof.
  intros Hsub self Hs.
  assert (subscribers self = subscribers st) as Hss by now subst st.
  rewrite <- Hss in Hsub. rewrite (subscriber_loop_unfold _ _ _ Hsub).
  split; [exact Hs |]. cbn [fst].
  pose proof (address_demographics_fails sub) as Hf.
  destruct (subscriber_address_demographics sub) as [tail|e].
  - destruct (sub_is_dependent sub); [exact I |]. now destruct (Z.eqb _ _).
  - destruct (sub_is_dependent sub); [now apply Hf |].
    destruct (Z.eqb _ _); [now apply Hf | exact I].
Qed.

Lemma diag_codes_fails l e :
  diag_codes l = Raise e ->
  exists k d, e = KeyError k /\ In k diagnosis_keys /\ In d l /\ d !! k = None.
Proof.
  induction l as [|d l IH]; cbn [diag_codes]; [discriminate |].
  unfold subscript, diagnosis_keys.
  destruct (d !! "diagnosisTypeCode") eqn:H1;
    [|intros [= <-]; exists "diagnosisTypeCode", d; cbn [In]; tauto].
  destruct (d !! "diagnosisCode") eqn:H2;
    [|intros [= <-]; exists "diagnosisCode", d; cbn [In]; tauto].
  destruct (diag_codes l) as [r|e']; [discriminate |].
  intros [= <-]. destruct (IH eq_refl) as (k & d' & He & Hk & Hd & Hn).
  exists k, d'. cbn [In]. tauto.
Qed.

Lemma claim_loop_fails st :
  triple st _create_claim_information_loop
    (outcome (fun _ => True)
       (fun e => exists k, e = KeyError k /\ In k diagnosis_keys /\ diagnosis_lacks st k)).
Proof.
  intros self Hs.
  assert (claim_information self = claim_information st) as Hci by now subst st.
  unfold _create_claim_information_loop, bind, attr. rewrite Hci.
  destruct (claim_information st) as [claim|] eqn:Hclaim; [|now split].
  assert (forall segs : list string,
             store_of (snd (match service_facility self with
                            | Some _ =>
                                do fs <- _create_service_facility_segments in
                                ret (segs ++ fs)
                            | None => ret segs
                            end self)) = st /\
             outcome (fun _ => True)
               (fun e => exists k, e = KeyError k /\ In k diagnosis_keys /\ diagnosis_lacks st k)
               (fst (match service_facility self with
                     | Some _ =>
                         do fs <- _create_service_facility_segments in
                         ret (segs ++ fs)
                     | None => ret segs
                     end self))) as Hfac.
  { intros segs. destruct (service_facility self); [|now split].
    unfold bind. destruct (facility_total st self Hs) as [Hs' Hfs].
    destruct (_create_service_facility_segments self) as [[fs|e] self']; simpl in *;
      [now split | contradiction]. }
  assert (forall e, diag_codes (claim_diagnosisCodes claim) = Raise e ->
                    exists k, e = KeyError k /\ In k diagnosis_keys /\ diagnosis_lacks st k)
    as Hdiag.
  { intros e He. apply diag_codes_fails in He as (k & d & -> & Hk & Hd & Hn).
    exists k. split; [reflexivity |]. split; [exact Hk |].
    exists claim, d. now rewrite Hclaim. }
  destruct (prior_authorization self) as [n|];
    destruct (claim_diagnosisCodes claim) as [|d ds]; cbn [lift ret];
    try apply Hfac;
    (destruct (diag_codes (d :: ds)) as [codes|e] eqn:Hcodes;
     [apply Hfac | split; [exact Hs | now apply Hdiag]]).
Qed.

Lemma explained_address_bp st p k :
  In p (billing_providers st) -> In k address_keys -> bp_address p !! k = None ->
  explained st (KeyError k).
Proof. intros Hp Hk Hn. left. split; [exact Hk |]. left. now exists p. Qed.

Lemma explained_address_sub st s k :
  In s (subscribers st) -> In k address_keys -> sub_address s !! k = None ->
  explained st (KeyError k).
Proof. intros Hp Hk Hn. left. split; [exact Hk |]. right. now exists s. Qed.

Lemma lookup_In {A} (l : list A) i x : l !! i = Some x -> In x l.
Proof. intros H. apply list_elem_of_In. now apply list_elem_of_lookup_2 with i. Qed.

Lemma build_subscriber_fails st provider_idx i sub :
  subscribers st !! i = Some sub ->
  triple st (build_subscriber provider_idx (i, sub)) (outcome (fun _ => True) (explained st)).
Proof.
  intros Hsub. unfold build_subscriber. cbn [fst snd].
  destruct (Z.eqb _ _); [|now apply triple_ret].
  eapply triple_bind_outcome with (R := fun _ => True).
  { eapply triple_outcome_weaken; [now apply (subscriber_loop_fails st i sub) |].
    intros e (k & -> & Hk & Hn). apply (explained_address_sub st sub k); auto.
    now apply lookup_In with i. }
  intros loop _.
  eapply triple_bind_outcome with (R := fun payer => payer_info st = Some payer).
  { intros self Hs. assert (payer_info self = payer_info st) as Hpi by now subst st.
    unfold opt_attr. rewrite Hpi. destruct (payer_info st) eqn:E; cbn [fst snd outcome explained];
      [now split | split; [exact Hs | now split]]. }
  intros payer Hpayer. destruct (Nat.eqb i 0); [|now apply triple_ret].
  eapply triple_bind_outcome with (R := fun _ => True).
  { apply triple_total_outcome. now apply (payer_total st payer). }
  intros s _. now apply triple_ret.
Qed.

Lemma build_provider_fails st i p :
  billing_providers st !! i = Some p ->
  triple st (build_provider (i, p)) (outcome (fun _ => True) (explained st)).
Proof.
  intros Hp. unfold build_provider. cbn [fst].
  eapply triple_bind_outcome with (R := fun _ => True).
  { eapply triple_outcome_weaken; [now apply (billing_loop_fails st i p) |].
    intros e (k & -> & Hk & Hn). apply (explained_address_bp st p k); auto.
    now apply lookup_In with i. }
  intros ps _.
  eapply triple_bind_outcome with (R := fun subs => subs = subscribers st).
  { intros self Hs. split; [exact Hs |]. cbn. now subst st. }
  intros subs ->.
  eapply triple_bind_outcome with (R := fun _ => True).
  { apply triple_for_each_outcome. intros [j sub] Hin. apply enumerate_lookup in Hin.
    now apply build_subscriber_fails. }
  intros ss _.
  eapply triple_bind_outcome with (R := fun _ => True).
  { eapply triple_outcome_weaken; [apply claim_loop_fails |].
    intros e (k & -> & Hk & Hl). right. now split. }
  intros cs _.
  eapply triple_bind_outcome with (R := fun _ => True).
  { apply triple_total_outcome. unfold _create_service_lines.
    eapply triple_bind_total with (R := fun _ => True).
    - intros self Hs. now split.
    - intros lines _. apply triple_for_each_total. intros x _. apply service_line_total. }
  intros ls _.
  eapply triple_bind_outcome with (R := fun _ => True); [intros self Hs; now split |].
  intros rps _.
  eapply triple_bind_outcome with (R := fun _ => True).
  { apply triple_total_outcome. destruct (_ <? _)%nat; [|now apply triple_ret].
    unfold _create_rendering_provider_segments.
    eapply triple_bind_total with (R := fun _ => True); [intros self Hs; now split |].
    intros rps' _. apply triple_for_each_total. intros x _. apply rendering_provider_total. }
  intros rs _. now apply triple_ret.
Qed.

Lemma build_segments_fails self :
  outcome (fun _ => True) (explained self) (fst (build_segments self)).
Proof.
  assert (triple (store_of self) build_segments
            (outcome (fun _ => True) (explained (store_of self)))) as H.
  { unfold build_segments.
    eapply triple_bind_outcome with (R := fun l => l = billing_providers (store_of self)).
    { intros s Hs. split; [exact Hs |].
      change (billing_providers (store_of s) = billing_providers (store_of self)).
      now rewrite Hs. }
    intros providers ->.
    eapply triple_bind_outcome with (R := fun _ => True).
    { apply triple_for_each_outcome. intros [i p] Hin. apply enumerate_lookup in Hin.
      now apply build_provider_fails. }
    intros body _. now apply triple_ret. }
  destruct (H self eq_refl) as [_ Hok].
  destruct (fst (build_segments self)) as [segs|e]; [exact I |].
  destruct e; exact Hok.
Qed.

(** X7: the exceptions of [build()].  It raises no [IndexError] and no
    [TypeError], whatever indices the subscribers and service lines carry.
    An [AttributeError] is the one for [payer_info], on a builder without a
    payer; a [KeyError] names one of the four address keys, missing from the
    address of a billing provider or of a subscriber, or one of the two
    diagnosis keys, missing from a diagnosis code of the claim. *)
Theorem build_exceptions_explained self e :
  fst (build self) = Raise e -> explained self e.
Proof.
  intros H. pose proof (build_segments_fails self) as Hs.
  unfold build, bind in H.
  destruct (build_segments self) as [[segs|e'] self']; cbn [fst] in *; [discriminate |].
  now injection H as <-.
Qed.

Lemma build_exceptions_explained_witness :
  explained store_without_payer (AttributeError "payer_info").
Proof.
  apply (build_exceptions_explained store_without_payer (AttributeError "payer_info")).
  vm_compute. reflexivity.
Defined.

(** ** A build that fails *)

Lemma billing_loop_refused self idx p :
  billing_providers self !! idx = Some p ->
  refused (provider_map self) (bp_npi p) = true ->
  _create_billing_provider_loop idx self = (Ok (billing_loop_without_name p), self).
Proof.
  intros Hp Hr. unfold _create_billing_provider_loop, bind, attr, lift, index.
  rewrite Hp, name_segment_spec by reflexivity.
  change (entity_npi (EBilling p)) with (bp_npi p). rewrite Hr.
  cbn [name_truthy]. unfold ret, billing_loop_without_name, contact_segments.
  now destruct (bp_contactInfo p).
Qed.

Lemma billing_loop_missing_key self idx p k :
  billing_providers self !! idx = Some p ->
  refused (provider_map self) (bp_npi p) = false ->
  first_missing (bp_address p) = Some k ->
  _create_billing_provider_loop idx self = (Raise (KeyError k), register (EBilling p) self).
Proof.
  intros Hp Hr Hk. unfold _create_billing_provider_loop, bind, attr, lift, index.
  rewrite Hp, name_segment_spec by reflexivity.
  change (entity_npi (EBilling p)) with (bp_npi p). rewrite Hr.
  cbn [name_truthy name_str]. rewrite name_segment_text_nonempty. cbn [negb].
  revert Hk. unfold first_missing, address_keys, has_key, subscript. cbn [List.find].
  destruct (bp_address p !! "address1"); cbn [negb]; [|now intros [= <-]].
  destruct (bp_address p !! "city"); cbn [negb]; [|now intros [= <-]].
  destruct (bp_address p !! "state"); cbn [negb]; [|now intros [= <-]].
  destruct (bp_address p !! "postalCode"); cbn [negb]; [discriminate | now intros [= <-]].
Qed.

Lemma bind_raises {A B} (m : M A) (k : A -> M B) self e self' :
  m self = (Raise e, self') -> bind m k self = (Raise e, self').
Proof. intros H. unfold bind. now rewrite H. Qed.

Lemma bind_returns {A B} (m : M A) (k : A -> M B) self a self' :
  m self = (Ok a, self') -> bind m k self = k a self'.
Proof. intros H. unfold bind. now rewrite H. Qed.

(** X8: a [build()] that fails has already changed the builder.  When the
    first billing provider has an NPI that the registry accepts and an
    address without one of its four keys, [build()] raises the [KeyError] of
    the first missing key, and leaves the NPI registered: from then on the
    loop of this provider is emitted without name and address, and its
    address is not read any more, so that building again does not raise this
    error again. *)
Theorem failed_build_registers_provider self p rest k :
  billing_providers self = p :: rest ->
  bp_npi p <> "" -> has_key (provider_map self) (bp_npi p) = false ->
  first_missing (bp_address p) = Some k ->
  build self = (Raise (KeyError k), register (EBilling p) self) /\
  has_key (provider_map (snd (build self))) (bp_npi p) = true /\
  _create_billing_provider_loop 0 (snd (build self)) =
  (Ok (billing_loop_without_name p), snd (build self)).
Proof.
  intros Hbps Hnpi Hpm Hk.
  assert (refused (provider_map self) (bp_npi p) = false) as Hr.
  { unfold refused. rewrite Hpm, orb_false_r. now apply String.eqb_neq. }
  assert (build self = (Raise (KeyError k), register (EBilling p) self)) as Hb.
  { unfold build. apply bind_raises. unfold build_segments. cbv zeta.
    rewrite (bind_returns (attr billing_providers) _ self (billing_providers self) self eq_refl),
      Hbps.
    cbn [enumerate enumerate_from for_each]. do 2 apply bind_raises.
    unfold build_provider. cbn [fst]. apply bind_raises.
    apply billing_loop_missing_key; [now rewrite Hbps | exact Hr | exact Hk]. }
  rewrite Hb. cbn [snd]. split; [reflexivity |]. split.
  - unfold register. cbn [provider_map set_provider_map].
    change (entity_npi (EBilling p)) with (bp_npi p).
    now rewrite has_key_insert, String.eqb_refl.
  - apply billing_loop_refused.
    + change (billing_providers (register (EBilling p) self)) with (billing_providers self).
      now rewrite Hbps.
    + unfold refused, register. cbn [provider_map set_provider_map].
      change (entity_npi (EBilling p)) with (bp_npi p).
      now rewrite has_key_insert, String.eqb_refl, orb_true_r.
Qed.

Lemma failed_build_registers_provider_witness :
  build store_incomplete_address =
  (Raise (KeyError "city"), register (EBilling acme_without_city) store_incomplete_address) /\
  has_key (provider_map (snd (build store_incomplete_address))) "1234567890" = true /\
  _create_billing_provider_loop 0 (snd (build store_incomplete_address)) =
  (Ok (billing_loop_without_name acme_without_city), snd (build store_incomplete_address)).
Proof.
  apply (failed_build_registers_provider store_incomplete_address acme_without_city [] "city");
    [reflexivity | discriminate | reflexivity | reflexivity].
Defined.

(** ** The indices that the [add_*] methods return *)

Lemma extends_refl {A} (l : list A) : extends l l.
Proof. exists []. now rewrite app_nil_r. Qed.

Lemma extends_snoc {A} (l : list A) x : extends l (l ++ [x]).
Proof. now exists [x]. Qed.

Lemma extends_trans {A} (l1 l2 l3 : list A) : extends l1 l2 -> extends l2 l3 -> extends l1 l3.
Proof. intros [r1 ->] [r2 ->]. exists (r1 ++ r2). now rewrite app_assoc. Qed.

Lemma extends_lookup {A} (l l' : list A) i x : extends l l' -> l !! i = Some x -> l' !! i = Some x.
Proof. intros [rest ->] H. now apply lookup_app_l_Some. Qed.

Lemma snoc_lookup_last {A} (l : list A) x : (l ++ [x]) !! (length (l ++ [x]) - 1)%nat = Some x.
Proof.
  rewrite length_app. cbn [length]. replace (length l + 1 - 1)%nat with (length l) by lia.
  now apply list_lookup_middle.
Qed.

Lemma lists_extend_refl self : lists_extend self self.
Proof. repeat split; apply extends_refl. Qed.

Lemma lists_extend_trans s1 s2 s3 : lists_extend s1 s2 -> lists_extend s2 s3 -> lists_extend s1 s3.
Proof.
  intros (A1 & A2 & A3 & A4) (B1 & B2 & B3 & B4).
  repeat split; eapply extends_trans; eassumption.
Qed.

Lemma apply_op_extends self op : lists_extend self (apply_op self op).
Proof.
  destruct op; cbn [apply_op].
  - unfold add_billing_provider. cbn [fst].
    destruct contactInfo as [c|];
      [destruct (dict_truthy (Some c) && negb (has_key (contact_info_map self) (contact_key c))) |];
      (repeat split; first [apply extends_snoc | apply extends_refl]).
  - unfold add_subscriber. cbn [fst].
    destruct is_dependent; (repeat split; first [apply extends_snoc | apply extends_refl]).
  - unfold add_submitter.
    destruct contactInfo as [c|]; [destruct (_ && _) |]; (repeat split; apply extends_refl).
  - repeat split; apply extends_refl.
  - repeat split; apply extends_refl.
  - repeat split; apply extends_refl.
  - repeat split; apply extends_refl.
  - repeat split; first [apply extends_snoc | apply extends_refl].
  - repeat split; first [apply extends_snoc | apply extends_refl].
Qed.

Lemma build_extends self : lists_extend self (snd (build self)).
Proof.
  pose proof (proj1 (frame_build self)) as H.
  assert (billing_providers (snd (build self)) = billing_providers self) as H1
    by exact (f_equal billing_providers H).
  assert (subscribers (snd (build self)) = subscribers self) as H2
    by exact (f_equal subscribers H).
  assert (service_lines (snd (build self)) = service_lines self) as H3
    by exact (f_equal service_lines H).
  assert (rendering_providers (snd (build self)) = rendering_providers self) as H4
    by exact (f_equal rendering_providers H).
  unfold lists_extend. rewrite H1, H2, H3, H4. apply lists_extend_refl.
Qed.

Lemma replay_extends calls self : lists_extend self (fst (replay self calls)).
Proof.
  revert self. induction calls as [|[op|] calls IH]; intros self; cbn [replay fst].
  - apply lists_extend_refl.
  - eapply lists_extend_trans; [apply apply_op_extends | apply IH].
  - eapply lists_extend_trans; [apply build_extends | apply IH].
Qed.

(** X9: the index that an [add_*] method returns stays the index of the
    record that the call added, whatever is called on the builder
    afterwards, [build()] included: the four lists only grow at their end,
    and no method changes a record in place. *)
Theorem returned_indices_stay_valid self calls :
  (forall m l f a bd g bpi prc cfc dep rel,
     subscribers
       (fst (replay (fst (add_subscriber self m l f a bd g bpi prc cfc dep rel)) calls))
     !! snd (add_subscriber self m l f a bd g bpi prc cfc dep rel) =
     Some {| sub_memberId := m; sub_lastName := l; sub_firstName := f; sub_address := a;
             sub_birthDate := bd; sub_gender := g; sub_billingProviderIndex := bpi;
             sub_paymentResponsibilityLevelCode := prc; sub_claimFilingCode := cfc;
             sub_is_dependent := dep; sub_relationship_to_subscriber := rel |}) /\
  (forall si pi pc mods amt u d rpi,
     service_lines
       (fst (replay (fst (add_service_line self si pi pc mods amt u d rpi)) calls))
     !! snd (add_service_line self si pi pc mods amt u d rpi) =
     Some {| sl_subscriberIndex := si; sl_patientIndex := pi; sl_procedureCode := pc;
             sl_modifierCodes := mods; sl_chargeAmount := amt; sl_units := u;
             sl_serviceDate := d; sl_renderingProviderIndex := rpi |}) /\
  (forall npi tc l f eid,
     rendering_providers
       (fst (replay (fst (add_rendering_provider self npi tc l f eid)) calls))
     !! snd (add_rendering_provider self npi tc l f eid) =
     Some {| rp_npi := npi; rp_lastName := l; rp_firstName := f; rp_taxonomyCode := tc;
             rp_employerId := eid |}) /\
  (forall npi tc eid addr org l f c,
     exists contact,
       billing_providers
         (fst (replay (fst (add_billing_provider self npi tc eid addr org l f c)) calls))
       !! snd (add_billing_provider self npi tc eid addr org l f c) =
       Some {| bp_npi := npi; bp_taxonomyCode := tc; bp_employerId := eid;
               bp_address := addr;
               bp_name := if truthy org then Organization (fmt org) else Individual l f;
               bp_contactInfo := contact |} /\
       (contact = c \/ contact = None)).
Proof.
  repeat split.
  - intros. eapply extends_lookup; [apply replay_extends |].
    unfold add_subscriber. cbn [fst snd]. destruct dep; apply snoc_lookup_last.
  - intros. eapply extends_lookup; [apply replay_extends |].
    unfold add_service_line. cbn [fst snd]. apply snoc_lookup_last.
  - intros. eapply extends_lookup; [apply replay_extends |].
    unfold add_rendering_provider. cbn [fst snd]. apply snoc_lookup_last.
  - intros.
    exists (if match c with
               | Some c' =>
                   dict_truthy c && negb (has_key (contact_info_map self) (contact_key c'))
               | None => false
               end then c else None).
    split; [|destruct (match c with Some _ => _ | None => _ end); auto].
    eapply extends_lookup; [apply replay_extends |].
    unfold add_billing_provider. cbn [fst snd].
    destruct c as [c'|];
      [destruct (dict_truthy (Some c') && negb (has_key (contact_info_map self) (contact_key c'))) |];
      apply snoc_lookup_last.
Qed.

(** ** Service lines *)

Lemma fold_modifiers_concat mods acc x :
  fold_left (fun acc mod_ => acc +:+ ":" +:+ mod_) mods (acc +:+ x) =
  acc +:+ String.concat ":" (x :: mods).
Proof.
  revert acc x. induction mods as [|m mods IH]; intros acc x; [reflexivity |].
  cbn [fold_left]. rewrite !append_assoc.
  replace (acc +:+ x +:+ ":" +:+ m) with ((acc +:+ x +:+ ":") +:+ m)
    by now rewrite !append_assoc.
  rewrite IH, !append_assoc. reflexivity.
Qed.

Lemma service_line_numbered p self :
  exists segs self',
    service_line_segments p self = (Ok segs, self') /\
    List.filter (has_tag "LX") segs = [lx_segment (fst p + 1)] /\
    List.filter (has_tag "SV1") segs = [sv1_segment (snd p)].
Proof.
  unfold service_line_segments.
  rewrite (fold_modifiers_concat (sl_modifierCodes (snd p)) "SV1*HC>" (sl_procedureCode (snd p))).
  rewrite !append_assoc. fold (sv1_segment (snd p)). fold (lx_segment (fst p + 1)).
  assert (has_tag "SV1" (sv1_segment (snd p)) = true) as Hsv1 by reflexivity.
  assert (has_tag "LX" (sv1_segment (snd p)) = false) as Hsv1' by reflexivity.
  assert (has_tag "LX" (lx_segment (fst p + 1)) = true) as Hlx by reflexivity.
  assert (has_tag "SV1" (lx_segment (fst p + 1)) = false) as Hlx' by reflexivity.
  assert (forall e, has_tag "LX" (name_segment_text e "rendering_provider") = false) as Hnm.
  { intros e. apply (starts_with_first _ _ _ _ _ (name_segment_text_tag e _)). discriminate. }
  assert (forall e, has_tag "SV1" (name_segment_text e "rendering_provider") = false) as Hnm'.
  { intros e. apply (starts_with_first _ _ _ _ _ (name_segment_text_tag e _)). discriminate. }
  generalize dependent (sv1_segment (snd p)). generalize dependent (lx_segment (fst p + 1)).
  intros lx Hlx Hlx' sv1 Hsv1 Hsv1'.
  assert (forall segs,
             List.filter (has_tag "LX") segs = [lx] ->
             List.filter (has_tag "SV1") segs = [sv1] ->
             exists segs' self',
               match sl_renderingProviderIndex (snd p) with
               | Some provider_idx =>
                   do rps <- attr rendering_providers in
                   if (0 <=? provider_idx)%Z && (provider_idx <? Z.of_nat (length rps))%Z
                   then
                     do provider <- lift (index rps (Z.to_nat provider_idx)) in
                     do name_segment <-
                       _create_name_segment (ERendering provider) "rendering_provider" in
                     if name_truthy name_segment
                     then ret (segs ++
                               [ name_str name_segment;
                                 "PRV*PE*PXC*" +:+ rp_taxonomyCode provider +:+ "~" ])
                     else ret segs
                   else ret segs
               | None => ret segs
               end self = (Ok segs', self') /\
               List.filter (has_tag "LX") segs' = [lx] /\
               List.filter (has_tag "SV1") segs' = [sv1]) as Hrp.
  { intros segs H1 H2.
    destruct (sl_renderingProviderIndex (snd p)) as [idx|]; [|now exists segs, self].
    unfold bind, attr, lift, index.
    destruct (_ && _) eqn:E; [|now exists segs, self].
    apply andb_true_iff in E as [E1 E2]. apply Z.leb_le in E1. apply Z.ltb_lt in E2.
    destruct (lookup_lt_is_Some_2 (rendering_providers self) (Z.to_nat idx)) as [rp Hrp];
      [lia |].
    rewrite Hrp, name_segment_spec by reflexivity.
    destruct (refused _ _); cbn [name_truthy name_str]; [now exists segs, self |].
    rewrite name_segment_text_nonempty. cbn [negb]. eexists _, _. split; [reflexivity |].
    rewrite !List.filter_app, H1, H2. cbn [List.filter]. rewrite Hnm, Hnm'. now split. }
  destruct (negb (String.eqb (sl_serviceDate (snd p)) "")); apply Hrp;
    cbn [app List.filter]; rewrite ?Hlx, ?Hlx', ?Hsv1, ?Hsv1'; reflexivity.
Qed.

Lemma service_lines_from i lines self :
  exists segs self',
    for_each service_line_segments (enumerate_from i lines) self = (Ok segs, self') /\
    List.filter (has_tag "LX") segs = List.map lx_segment (seq (i + 1) (length lines)) /\
    List.filter (has_tag "SV1") segs = List.map sv1_segment lines.
Proof.
  revert i self. induction lines as [|l lines IH]; intros i self.
  - now exists [], self.
  - cbn [enumerate_from for_each].
    destruct (service_line_numbered (i, l) self) as (s & self1 & Hs & Hlx & Hsv).
    destruct (IH (S i) self1) as (r & self2 & Hr & Hlxr & Hsvr).
    exists (s ++ r), self2. split.
    + rewrite (bind_returns _ _ _ _ _ Hs), (bind_returns _ _ _ _ _ Hr). reflexivity.
    + rewrite !List.filter_app, Hlx, Hsv, Hlxr, Hsvr. cbn [fst snd length seq List.map app].
      replace (S i + 1)%nat with (S (i + 1)) by lia. now split.
Qed.

(** X10: [_create_service_lines] always returns; its LX segments number the
    service lines 1, 2, ... in the order in which they were added, and its
    SV1 segments are those of the lines in the same order, each with the
    procedure code and the modifiers joined by colons, the charge amount and
    the units. *)
Theorem service_lines_are_numbered self :
  exists segs,
    fst (_create_service_lines self) = Ok segs /\
    List.filter (has_tag "LX") segs =
    List.map lx_segment (seq 1 (length (service_lines self))) /\
    List.filter (has_tag "SV1") segs = List.map sv1_segment (service_lines self).
Proof.
  destruct (service_lines_from 0 (service_lines self) self) as (segs & self' & H & Hlx & Hsv).
  exists segs. unfold _create_service_lines, bind, attr, enumerate. rewrite H. now split.
Qed.

(** ** The segments of the output *)

Lemma ends_app a b : ends_with_terminator b = true -> ends_with_terminator (a +:+ b) = true.
Proof.
  intros H. induction a as [|c a IH]; [exact H |].
  cbn [append ends_with_terminator]. rewrite IH.
  destruct (a +:+ b) eqn:E; [|reflexivity].
  destruct a; [|discriminate E]. cbn in E. subst b. discriminate H.
Qed.

Lemma not_hl st s : has_tag "HL" s = false -> has_tag "HL" s = true -> hl_shape st s.
Proof. congruence. Qed.

Lemma name_segment_terminated e context :
  ends_with_terminator (name_segment_text e context) = true.
Proof.
  unfold name_segment_text.
  destruct (String.eqb (_determine_entity_type e context) "1"); now apply ends_app.
Qed.

Lemma name_segment_not_hl e context : has_tag "HL" (name_segment_text e context) = false.
Proof. apply (starts_with_first _ _ _ _ _ (name_segment_text_tag e context)). discriminate. Qed.

Lemma name_segment_not_payer e context :
  In context ["billing_provider"; "rendering_provider"; "service_facility"] ->
  is_payer_name (name_segment_text e context) = false.
Proof.
  intros H. unfold name_segment_text, is_payer_name.
  cbn [In] in H. destruct H as [<-|[<-|[<-|[]]]];
    destruct (String.eqb (_determine_entity_type e _) "1"); string_norm; reflexivity.
Qed.

Lemma name_segment_body_ok st e context :
  In context ["billing_provider"; "rendering_provider"; "service_facility"] ->
  body_ok st (name_segment_text e context).
Proof.
  intros H. split; [split |].
  - apply name_segment_terminated.
  - apply not_hl, name_segment_not_hl.
  - now apply name_segment_not_payer.
Qed.

Lemma ends_cons c s : ends_with_terminator s = true -> ends_with_terminator (String c s) = true.
Proof. intros H. cbn [ends_with_terminator]. destruct s; [discriminate H | exact H]. Qed.

Ltac solve_ends :=
  first [reflexivity | apply ends_app; solve_ends | apply ends_cons; solve_ends].

Ltac solve_hl :=
  first [ apply not_hl; reflexivity
        | intros _; left; reflexivity
        | intros _; right; left; reflexivity
        | intros _; right; right; reflexivity ].

Ltac solve_body_ok :=
  first [ apply name_segment_body_ok; cbn [In]; tauto
        | assumption
        | split; [split; [solve_ends | solve_hl] | reflexivity] ].

Ltac solve_bodies :=
  repeat (apply List.Forall_cons; [solve_body_ok |]); apply List.Forall_nil.

Lemma billing_loop_ok st idx :
  triple st (_create_billing_provider_loop idx) (on_ok (Forall (body_ok st))).
Proof.
  intros self Hs. unfold _create_billing_provider_loop, bind, attr, lift, index.
  destruct (billing_providers self !! idx) as [p|]; [|now split].
  rewrite name_segment_spec by reflexivity.
  destruct (refused _ _); cbn [name_truthy name_str].
  - unfold ret.
    destruct (bp_contactInfo p); (split; [exact Hs |]); cbn [fst on_ok app]; solve_bodies.
  - rewrite name_segment_text_nonempty. cbn [negb].
    unfold subscript.
    destruct (bp_address p !! "address1"); [|now split].
    destruct (bp_address p !! "city"); [|now split].
    destruct (bp_address p !! "state"); [|now split].
    destruct (bp_address p !! "postalCode"); [|now split].
    unfold ret.
    destruct (bp_contactInfo p); (split; [exact Hs |]); cbn [fst on_ok app]; solve_bodies.
Qed.

Lemma address_demographics_bodies st sub tail :
  subscriber_address_demographics sub = Ok tail -> Forall (body_ok st) tail.
Proof.
  unfold subscriber_address_demographics, subscript.
  destruct (sub_address sub !! "address1"); [|discriminate].
  destruct (sub_address sub !! "city"); [|discriminate].
  destruct (sub_address sub !! "state"); [|discriminate].
  destruct (sub_address sub !! "postalCode"); [|discriminate].
  intros [= <-]. solve_bodies.
Qed.

Lemma subscriber_loop_ok st i :
  triple st (_create_subscriber_loop i) (on_ok (Forall (body_ok st))).
Proof.
  intros self Hs.
  assert (subscribers self = subscribers st) as Hss by now subst st.
  destruct (subscribers self !! i) as [sub|] eqn:Hsub.
  - rewrite (subscriber_loop_unfold _ _ _ Hsub). split; [exact Hs |]. cbn [fst].
    rewrite Hss. unfold subscriber_head.
    destruct (sub_is_dependent sub).
    + destruct (subscriber_address_demographics sub) as [tail|] eqn:E; [|exact I].
      apply Forall_app. split; [|now apply (address_demographics_bodies st sub)].
      destruct (sub_paymentResponsibilityLevelCode sub); solve_bodies.
    + destruct (Z.eqb _ _).
      * destruct (subscriber_address_demographics sub) as [tail|] eqn:E; [|exact I].
        apply Forall_app. split; [solve_bodies | now apply (address_demographics_bodies st sub)].
      * cbn [on_ok]. solve_bodies.
  - unfold _create_subscriber_loop, bind, attr, lift, index. rewrite Hsub. now split.
Qed.

Lemma payer_ok st :
  triple st _create_payer (on_ok (fun s => seg_ok st s /\ is_payer_name s = true)).
Proof.
  intros self Hs. unfold _create_payer, bind, opt_attr.
  destruct (payer_info self); (split; [exact Hs |]); [|exact I].
  cbn [fst ret on_ok]. split; [split; [solve_ends | solve_hl] | reflexivity].
Qed.

Lemma facility_ok st :
  triple st _create_service_facility_segments (on_ok (Forall (body_ok st))).
Proof.
  intros self Hs. unfold _create_service_facility_segments, bind, attr.
  destruct (service_facility self) as [f|]; [|split; [exact Hs | constructor]].
  rewrite name_segment_spec by reflexivity.
  destruct (refused _ _); cbn [name_truthy name_str];
    [split; [exact Hs | constructor] |].
  rewrite name_segment_text_nonempty. cbn [negb]. split; [exact Hs |]. cbn [fst ret on_ok].
  destruct (has_key (sf_address f) "address1");
    destruct (negb (String.eqb (dict_get (sf_address f) "address2") ""));
    destruct (has_key (sf_address f) "city" && has_key (sf_address f) "state"
              && has_key (sf_address f) "postalCode");
    cbn [app]; solve_bodies.
Qed.

Lemma claim_loop_ok st :
  triple st _create_claim_information_loop (on_ok (Forall (body_ok st))).
Proof.
  intros self Hs.
  unfold _create_claim_information_loop, bind, attr.
  destruct (claim_information self) as [claim|]; [|split; [exact Hs | constructor]].
  assert (forall segs : list string,
             Forall (body_ok st) segs ->
             store_of (snd (match service_facility self with
                            | Some _ =>
                                do fs <- _create_service_facility_segments in
                                ret (segs ++ fs)
                            | None => ret segs
                            end self)) = st /\
             on_ok (Forall (body_ok st))
               (fst (match service_facility self with
                     | Some _ =>
                         do fs <- _create_service_facility_segments in
                         ret (segs ++ fs)
                     | None => ret segs
                     end self))) as Hfac.
  { intros segs Hsegs.
    destruct (service_facility self) eqn:Hf; [|now split].
    unfold bind. destruct (facility_ok st self Hs) as [Hs' Hfs].
    destruct (_create_service_facility_segments self) as [[fs|e] self']; simpl in *;
      [|now split].
    split; [exact Hs' |]. apply Forall_app. now split. }
  set (clm := (_ +:+ _)%string).
  assert (body_ok st clm) as Hclm.
  { subst clm. split; [split |].
    - solve_ends.
    - apply not_hl. string_norm. reflexivity.
    - unfold is_payer_name. string_norm. reflexivity. }
  clearbody clm.
  destruct (prior_authorization self) as [n|];
    destruct (claim_diagnosisCodes claim) as [|d ds]; cbn [app lift ret].
  - apply (Hfac [clm; "REF*G1*" +:+ n +:+ "~"]). solve_bodies.
  - destruct (diag_codes (d :: ds)) as [codes|e]; [|now split].
    apply (Hfac [clm; "REF*G1*" +:+ n +:+ "~"; "HI*" +:+ String.concat ">" codes +:+ "~"]).
    solve_bodies.
  - apply (Hfac [clm]). solve_bodies.
  - destruct (diag_codes (d :: ds)) as [codes|e]; [|now split].
    apply (Hfac [clm; "HI*" +:+ String.concat ">" codes +:+ "~"]). solve_bodies.
Qed.

Lemma service_line_ok st p :
  triple st (service_line_segments p) (on_ok (Forall (body_ok st))).
Proof.
  intros self Hs. unfold service_line_segments.
  rewrite (fold_modifiers_concat (sl_modifierCodes (snd p)) "SV1*HC>" (sl_procedureCode (snd p))).
  set (sv1 := (("SV1*HC>" +:+ _) +:+ _)%string).
  assert (body_ok st sv1) as Hsv1.
  { subst sv1. split; [split |].
    - solve_ends.
    - apply not_hl. reflexivity.
    - reflexivity. }
  clearbody sv1.
  assert (forall segs,
             Forall (body_ok st) segs ->
             store_of (snd (match sl_renderingProviderIndex (snd p) with
                | Some provider_idx =>
                    do rps <- attr rendering_providers in
                    if (0 <=? provider_idx)%Z && (provider_idx <? Z.of_nat (length rps))%Z
                    then
                      do provider <- lift (index rps (Z.to_nat provider_idx)) in
                      do name_segment <-
                        _create_name_segment (ERendering provider) "rendering_provider" in
                      if name_truthy name_segment
                      then ret (segs ++
                                [ name_str name_segment;
                                  "PRV*PE*PXC*" +:+ rp_taxonomyCode provider +:+ "~" ])
                      else ret segs
                    else ret segs
                | None => ret segs
                end self)) = st /\
             on_ok (Forall (body_ok st))
               (fst (match sl_renderingProviderIndex (snd p) with
                | Some provider_idx =>
                    do rps <- attr rendering_providers in
                    if (0 <=? provider_idx)%Z && (provider_idx <? Z.of_nat (length rps))%Z
                    then
                      do provider <- lift (index rps (Z.to_nat provider_idx)) in
                      do name_segment <-
                        _create_name_segment (ERendering provider) "rendering_provider" in
                      if name_truthy name_segment
                      then ret (segs ++
                                [ name_str name_segment;
                                  "PRV*PE*PXC*" +:+ rp_taxonomyCode provider +:+ "~" ])
                      else ret segs
                    else ret segs
                | None => ret segs
                end self))) as Hrp.
  { intros segs Hsegs.
    destruct (sl_renderingProviderIndex (snd p)) as [idx|]; [|now split].
    unfold bind, attr, lift, index.
    destruct (_ && _); [|now split].
    destruct (rendering_providers self !! Z.to_nat idx) as [rp|]; [|now split].
    rewrite name_segment_spec by reflexivity.
    destruct (refused _ _); cbn [name_truthy name_str]; [now split |].
    rewrite name_segment_text_nonempty. cbn [negb]. split; [exact Hs |]. cbn [fst ret on_ok].
    apply Forall_app. split; [exact Hsegs | solve_bodies]. }
  destruct (negb (String.eqb (sl_serviceDate (snd p)) "")); apply Hrp; cbn [app]; solve_bodies.
Qed.

Lemma triple_for_each_forall {A} st (body : A -> M (list string)) (P : string -> Prop)
    (l : list A) :
  (forall x, In x l -> triple st (body x) (on_ok (Forall P))) ->
  triple st (for_each body l) (on_ok (Forall P)).
Proof.
  intros Hbody. eapply triple_weaken.
  - apply (triple_for_each st body (fun _ => Forall P)). exact Hbody.
  - intros segs (parts & Hparts & ->). apply Forall2_const_r in Hparts as [Hparts _].
    apply Forall_concat. exact Hparts.
Qed.

Lemma service_lines_ok st :
  triple st _create_service_lines (on_ok (Forall (body_ok st))).
Proof.
  unfold _create_service_lines.
  eapply triple_bind with (R := fun _ => True); [intros self Hs; now split |].
  intros lines _. apply triple_for_each_forall. intros x _. apply service_line_ok.
Qed.

Lemma rendering_provider_ok st rp :
  triple st (rendering_provider_segments rp) (on_ok (Forall (body_ok st))).
Proof.
  intros self Hs. unfold rendering_provider_segments, bind.
  rewrite name_segment_spec by reflexivity.
  destruct (refused _ _); cbn [name_truthy name_str]; [split; [exact Hs | constructor] |].
  rewrite name_segment_text_nonempty. cbn [negb]. split; [exact Hs |].
  cbn [fst ret on_ok]. solve_bodies.
Qed.

Lemma rendering_providers_ok st :
  triple st _create_rendering_provider_segments (on_ok (Forall (body_ok st))).
Proof.
  unfold _create_rendering_provider_segments.
  eapply triple_bind with (R := fun _ => True); [intros self Hs; now split |].
  intros rps _. apply triple_for_each_forall. intros x _. apply rendering_provider_ok.
Qed.

Lemma bodies_quiet st segs :
  Forall (body_ok st) segs ->
  Forall (seg_ok st) segs /\ count_if is_payer_name segs = 0%nat.
Proof.
  induction 1 as [|s segs [Hs Hq] _ [IH1 IH2]]; [split; [constructor | reflexivity] |].
  split; [now constructor |]. cbn [count_if]. now rewrite Hq, IH2.
Qed.

Lemma build_subscriber_ok st i p :
  triple st (build_subscriber i p)
    (on_ok (fun segs => Forall (seg_ok st) segs /\
                        count_if is_payer_name segs = payer_under i p)).
Proof.
  unfold build_subscriber, payer_under.
  destruct (Z.eqb _ _); [|apply triple_ret; split; [constructor | reflexivity]].
  eapply triple_bind; [apply subscriber_loop_ok |]. intros loop Hloop.
  apply bodies_quiet in Hloop as [Hloop Hquiet].
  eapply triple_bind with (R := fun _ => True).
  { intros self Hs. unfold opt_attr. destruct (payer_info self); now split. }
  intros _ _. cbn [andb]. destruct (Nat.eqb _ _); [|now apply triple_ret].
  eapply triple_bind; [apply payer_ok |]. intros s [Hs Hp].
  apply triple_ret. split.
  - apply Forall_app. split; [exact Hloop | now constructor].
  - rewrite count_if_app, Hquiet. cbn [count_if]. now rewrite Hp.
Qed.

Lemma list_sum_cons x l : list_sum (x :: l) = (x + list_sum l)%nat.
Proof. reflexivity. Qed.

Lemma list_sum_zeros {A} (l : list A) : list_sum (List.map (fun _ => 0%nat) l) = 0%nat.
Proof. induction l as [|x l IH]; [reflexivity | cbn [List.map]; now rewrite list_sum_cons, IH]. Qed.

Lemma count_concat_sum {A} (g : string -> bool) (h : A -> nat) (P : list string -> Prop)
    (l : list A) parts :
  Forall2 (fun x part => P part /\ count_if g part = h x) l parts ->
  Forall P parts /\ count_if g (concat parts) = list_sum (List.map h l).
Proof.
  induction 1 as [|x part l parts [HP Hx] _ [IH1 IH2]];
    [split; [constructor | reflexivity] |].
  split; [now constructor |].
  cbn [concat List.map]. now rewrite list_sum_cons, count_if_app, Hx, IH2.
Qed.

Lemma payer_under_later i k (subs : list Subscriber) :
  (0 < k)%nat -> list_sum (List.map (payer_under i) (enumerate_from k subs)) = 0%nat.
Proof.
  revert k. induction subs as [|s subs IH]; intros k Hk; [reflexivity |].
  cbn [enumerate_from List.map]. rewrite list_sum_cons, IH by lia.
  unfold payer_under. cbn [fst snd]. destruct k; [lia |].
  cbn [Nat.eqb]. now rewrite andb_false_r.
Qed.

Lemma payer_under_first st i :
  list_sum (List.map (payer_under i) (enumerate (subscribers st))) =
  if first_subscriber_under st i then 1%nat else 0%nat.
Proof.
  unfold first_subscriber_under, enumerate.
  destruct (subscribers st) as [|s subs]; [reflexivity |].
  cbn [enumerate_from List.map]. rewrite list_sum_cons, payer_under_later by lia.
  unfold payer_under. cbn [fst snd Nat.eqb]. rewrite andb_true_r.
  destruct (Z.eqb _ _); reflexivity.
Qed.

Lemma build_provider_ok st p :
  triple st (build_provider p) (on_ok (block_post st (fst p))).
Proof.
  unfold build_provider.
  eapply triple_bind; [apply billing_loop_ok |]. intros ps Hps.
  apply bodies_quiet in Hps as [Hps Hps0].
  eapply triple_bind with (R := fun subs => subs = subscribers st).
  { intros self Hs. split; [exact Hs |]. cbn. now subst st. }
  intros subs ->.
  eapply triple_bind with
    (R := fun segs => Forall (seg_ok st) segs /\
                      count_if is_payer_name segs =
                      if first_subscriber_under st (fst p) then 1%nat else 0%nat).
  { eapply triple_weaken.
    - apply (triple_for_each st (build_subscriber (fst p))
               (fun x segs => Forall (seg_ok st) segs /\
                              count_if is_payer_name segs = payer_under (fst p) x)).
      intros x _. apply build_subscriber_ok.
    - intros segs (parts & Hparts & ->).
      apply count_concat_sum in Hparts as [Hparts Hcount].
      split; [now apply Forall_concat |]. rewrite Hcount. apply payer_under_first. }
  intros ss [Hss Hss1].
  eapply triple_bind; [apply claim_loop_ok |]. intros cs Hcs.
  apply bodies_quiet in Hcs as [Hcs Hcs0].
  eapply triple_bind; [apply service_lines_ok |]. intros ls Hls.
  apply bodies_quiet in Hls as [Hls Hls0].
  eapply triple_bind with (R := fun _ => True); [intros self Hs; now split |].
  intros rps _.
  eapply triple_bind with (R := Forall (body_ok st)).
  { destruct (_ <? _)%nat; [apply rendering_providers_ok | apply triple_ret; constructor]. }
  intros rs Hrs. apply bodies_quiet in Hrs as [Hrs Hrs0].
  apply triple_ret. split.
  - repeat (apply Forall_app; split); assumption.
  - rewrite !count_if_app, Hps0, Hss1, Hcs0, Hls0, Hrs0. lia.
Qed.

Lemma payer_in_range bpi k (providers : list BillingProvider) :
  list_sum
    (List.map (fun x : nat * BillingProvider => if (bpi =? Z.of_nat (fst x))%Z then 1 else 0)%nat
       (enumerate_from k providers)) =
  if ((Z.of_nat k <=? bpi)%Z && (bpi <? Z.of_nat (k + length providers))%Z)
  then 1%nat else 0%nat.
Proof.
  revert k. induction providers as [|p providers IH]; intros k.
  - cbn [enumerate_from List.map length]. change (list_sum []) with 0%nat.
    destruct (Z.leb_spec (Z.of_nat k) bpi), (Z.ltb_spec bpi (Z.of_nat (k + 0))); cbn; lia.
  - cbn [enumerate_from List.map length fst]. rewrite list_sum_cons, IH.
    destruct (Z.eqb_spec bpi (Z.of_nat k)), (Z.leb_spec (Z.of_nat (S k)) bpi),
      (Z.ltb_spec bpi (Z.of_nat (S k + length providers))),
      (Z.leb_spec (Z.of_nat k) bpi),
      (Z.ltb_spec bpi (Z.of_nat (k + S (length providers)))); cbn; lia.
Qed.

Lemma build_segments_ok self segs :
  fst (build_segments self) = Ok segs ->
  Forall (seg_ok self) segs /\ count_if is_payer_name segs = payer_names self.
Proof.
  intros H.
  assert (triple (store_of self) build_segments
            (on_ok (fun segs => Forall (seg_ok (store_of self)) segs /\
                                count_if is_payer_name segs = payer_names (store_of self))))
    as Ht.
  { unfold build_segments.
    eapply triple_bind with (R := fun l => l = billing_providers (store_of self)).
    { intros s Hs. split; [exact Hs |].
      change (billing_providers (store_of s) = billing_providers (store_of self)).
      now rewrite Hs. }
    intros providers ->.
    eapply triple_bind with
      (R := fun segs => Forall (seg_ok (store_of self)) segs /\
                        count_if is_payer_name segs = payer_names (store_of self)).
    { eapply triple_weaken.
      - apply (triple_for_each (store_of self) build_provider
                 (fun x => block_post (store_of self) (fst x))).
        intros x _. apply build_provider_ok.
      - intros body (parts & Hparts & ->).
        apply (count_concat_sum is_payer_name
                 (fun x : nat * BillingProvider =>
                    if first_subscriber_under (store_of self) (fst x) then 1%nat else 0%nat))
          in Hparts as [Hparts Hcount].
        split; [now apply Forall_concat |]. rewrite Hcount.
        unfold payer_names, first_subscriber_under, enumerate.
        destruct (subscribers (store_of self)) as [|sub subs].
        + apply (list_sum_zeros (enumerate_from 0 (billing_providers (store_of self)))).
        + now rewrite payer_in_range. }
    intros body [Hbody Hcount]. apply triple_ret. split.
    - apply Forall_app. split; [apply Forall_app; split; [|exact Hbody] |].
      + unfold _create_header.
        repeat (apply List.Forall_cons; [split; [reflexivity | apply not_hl; reflexivity] |]).
        apply List.Forall_nil.
      + unfold _create_trailer.
        repeat (apply List.Forall_cons; [split; [solve_ends | apply not_hl; reflexivity] |]).
        apply List.Forall_nil.
    - rewrite !count_if_app, Hcount. unfold _create_header, _create_trailer.
      cbn [count_if]. replace (is_payer_name _) with false by reflexivity. cbn. lia. }
  destruct (Ht self eq_refl) as [_ Hok]. rewrite H in Hok. exact Hok.
Qed.

(** X11: the payer is not emitted per subscriber.  In the output of
    [build()] the payer name segment (NM1*PR) occurs exactly once when the
    first subscriber of the store is attached to one of its billing
    providers, and not at all otherwise, however many subscribers and
    billing providers there are. *)
Theorem payer_name_emitted_at_most_once self segs :
  fst (build_segments self) = Ok segs ->
  count_if is_payer_name segs = payer_names self.
Proof. intros H. exact (proj2 (build_segments_ok self segs H)). Qed.

Lemma payer_name_emitted_at_most_once_witness :
  count_if is_payer_name two_providers_segments = payer_names store_two_providers.
Proof.
  apply (payer_name_emitted_at_most_once store_two_providers two_providers_segments).
  vm_compute. reflexivity.
Defined.

(** X12: every segment that [build()] joins ends with the segment
    terminator [~], whatever strings the records hold. *)
Theorem segments_end_with_terminator self segs :
  fst (build_segments self) = Ok segs ->
  Forall (fun s => ends_with_terminator s = true) segs.
Proof.
  intros H. eapply List.Forall_impl; [|exact (proj1 (build_segments_ok self segs H))].
  now intros s [Hs _].
Qed.

Lemma segments_end_with_terminator_witness :
  Forall (fun s => ends_with_terminator s = true) two_providers_segments.
Proof.
  apply (segments_end_with_terminator store_two_providers two_providers_segments).
  vm_compute. reflexivity.
Defined.

(** X13: the hierarchical levels are fixed texts.  Every HL segment of the
    output is [HL*1**20*1~] (a billing provider), [HL*3*2*23*0~] (a
    dependent) or [HL*2*1*22*n~] (a subscriber), where [n] is the number of
    subscriber records of the store minus one: the identifiers do not count
    the loops, and two billing providers, or two subscribers, get the same
    one. *)
Theorem hl_segments_are_fixed self segs s :
  fst (build_segments self) = Ok segs ->
  In s segs -> has_tag "HL" s = true -> hl_shape self s.
Proof.
  intros H Hin Hhl.
  pose proof (proj1 (build_segments_ok self segs H)) as Hall.
  rewrite List.Forall_forall in Hall. exact (proj2 (Hall s Hin) Hhl).
Qed.

Lemma hl_segments_are_fixed_witness : hl_shape store_two_providers "HL*2*1*22*1~".
Proof.
  apply (hl_segments_are_fixed store_two_providers two_providers_segments "HL*2*1*22*1~").
  - vm_compute. reflexivity.
  - cbn [two_providers_segments In]. tauto.
  - reflexivity.
Defined.

(** ** The single records *)

Lemma single_overridden self o o' :
  same_single o o' = true -> apply_op (apply_op self o) o' = apply_op self o'.
Proof. destruct o, o'; try discriminate; reflexivity. Qed.

Lemma single_commutes self o o' :
  existsb (same_single o) [o'] = false ->
  (exists o'', same_single o o'' = true) ->
  apply_op (apply_op self o) o' = apply_op (apply_op self o') o.
Proof.
  intros Hne [o'' Hs].
  destruct o; try (destruct o''; discriminate Hs); clear Hs;
    destruct o'; try discriminate Hne; try reflexivity;
    unfold apply_op, add_billing_provider, add_subscriber, add_submitter, add_payer,
      add_service_facility_location, add_prior_authorization, add_claim_information,
      add_service_line, add_rendering_provider;
    cbn -[dict_truthy has_key contact_key];
    repeat match goal with
           | |- context [match ?c with Some _ => _ | None => _ end] => destruct c
           | |- context [if ?b then _ else _] => destruct b
           end; reflexivity.
Qed.

Lemma single_dropped o rest self :
  existsb (same_single o) rest = true ->
  apply_ops (apply_op self o) rest = apply_ops self rest.
Proof.
  revert self. induction rest as [|o' rest IH]; intros self H; [discriminate |].
  cbn [existsb] in H. cbn [apply_ops fold_left]. fold (apply_ops (apply_op (apply_op self o) o') rest).
  fold (apply_ops (apply_op self o') rest).
  destruct (same_single o o') eqn:E.
  - now rewrite single_overridden.
  - cbn [orb] in H. rewrite single_commutes.
    + now apply IH.
    + cbn [existsb]. now rewrite E.
    + apply existsb_exists in H as (o'' & _ & H). now exists o''.
Qed.

(** X14: the payer, the claim, the service facility and the prior
    authorization are single records: a call of [add_payer],
    [add_claim_information], [add_service_facility_location] or
    [add_prior_authorization] that is followed by another call of the same
    method leaves no trace, so that the builder, and with it the output of
    [build()], is the one of the calls without it. *)
Theorem overridden_calls_leave_no_trace self ops :
  apply_ops self ops = apply_ops self (effective ops) /\
  build (apply_ops self ops) = build (apply_ops self (effective ops)).
Proof.
  assert (apply_ops self ops = apply_ops self (effective ops)) as H.
  { revert self. induction ops as [|o rest IH]; intros self; [reflexivity |].
    cbn [effective]. destruct (existsb (same_single o) rest) eqn:E.
    - change (apply_ops self (o :: rest)) with (apply_ops (apply_op self o) rest).
      rewrite single_dropped by exact E. apply IH.
    - change (apply_ops (apply_op self o) rest = apply_ops (apply_op self o) (effective rest)).
      apply IH. }
  split; [exact H | now rewrite H].
Qed.

(** ** The name of a billing provider *)

Lemma billing_name_text p :
  name_segment_text (EBilling p) "billing_provider" =
  match bp_name p with
  | Organization o => "NM1*85*2*" +:+ o +:+ "*****XX*" +:+ bp_npi p +:+ "~"
  | Individual l f =>
      "NM1*85*1*" +:+ fmt l +:+ "*" +:+ fmt f +:+ "****XX*" +:+ bp_npi p +:+ "~"
  end.
Proof.
  unfold name_segment_text, _determine_entity_type, _get_identification_details,
    entity_has, entity_get_default.
  destruct p as [npi tc eid addr name contact]. destruct name as [o|l f];
    cbn; string_norm; reflexivity.
Qed.

Lemma billing_loop_name self idx p segs :
  billing_providers self !! idx = Some p ->
  refused (provider_map self) (bp_npi p) = false ->
  fst (_create_billing_provider_loop idx self) = Ok segs ->
  segs !! 2%nat = Some (name_segment_text (EBilling p) "billing_provider").
Proof.
  intros Hp Hr. unfold _create_billing_provider_loop, bind, attr, lift, index.
  rewrite Hp, name_segment_spec by reflexivity.
  change (entity_npi (EBilling p)) with (bp_npi p). rewrite Hr.
  cbn [name_truthy name_str]. rewrite name_segment_text_nonempty. cbn [negb].
  unfold subscript.
  destruct (bp_address p !! "address1"); [|discriminate].
  destruct (bp_address p !! "city"); [|discriminate].
  destruct (bp_address p !! "state"); [|discriminate].
  destruct (bp_address p !! "postalCode"); [|discriminate].
  unfold ret. destruct (bp_contactInfo p); cbn [fst app]; now intros [= <-].
Qed.

(** X15: the name segment of a billing provider.  When the registry accepts
    its NPI, the third segment of the loop of a billing provider is
    NM1*85*2 with the organization name when [add_billing_provider] was
    given a non-empty one, and NM1*85*1 with the last and first name
    otherwise; a name that was not given is written as the word None, so
    that a provider added without any name is emitted as
    NM1*85*1*None*None****XX*npi~. *)
Theorem billing_provider_name_segment pre post npi tc eid addr org l f c pm segs :
  refused pm npi = false ->
  fst (_create_billing_provider_loop (count_billing pre)
         (set_provider_map pm
            (fresh_builder (pre ++ [AddBillingProvider npi tc eid addr org l f c] ++ post))))
  = Ok segs ->
  segs !! 2%nat = Some (billing_name_segment npi org l f).
Proof.
  intros Hr H.
  pose proof (stored_contact_spec pre post npi tc eid addr org l f c) as Hp.
  rewrite (billing_loop_name
             (set_provider_map pm
                (fresh_builder (pre ++ [AddBillingProvider npi tc eid addr org l f c] ++ post)))
             _ _ _ Hp Hr H), billing_name_text.
  unfold billing_name_segment. cbn [bp_name bp_npi]. now destruct (truthy org).
Qed.

Lemma billing_provider_name_segment_witness :
  nameless_provider_loop !! 2%nat = Some "NM1*85*1*None*None****XX*1234567890~".
Proof.
  apply (billing_provider_name_segment [] [] "1234567890" "207Q00000X" "123456789" main_street
           PNone PNone PNone None ∅ nameless_provider_loop);
    vm_compute; reflexivity.
Defined.

(** ** The patient loop *)

Lemma apply_op_patients self op : patients (apply_op self op) = patients self.
Proof.
  destruct op; cbn [apply_op]; try reflexivity.
  - unfold add_billing_provider. cbn [fst].
    destruct contactInfo as [c|];
      [destruct (dict_truthy (Some c) && negb (has_key (contact_info_map self) (contact_key c))) |];
      reflexivity.
  - unfold add_subscriber. cbn [fst]. now destruct is_dependent.
  - unfold add_submitter. destruct contactInfo as [c|]; [destruct (_ && _) |]; reflexivity.
Qed.

Lemma replay_patients calls self : patients (fst (replay self calls)) = patients self.
Proof.
  revert self. induction calls as [|[op|] calls IH]; intros self; cbn [replay fst].
  - reflexivity.
  - now rewrite IH, apply_op_patients.
  - rewrite IH. exact (f_equal patients (proj1 (frame_build self))).
Qed.

(** X16: the patient loop is dead code.  No method adds a patient: on a
    builder made by the constructor and any calls of the [add_*] methods and
    of [build()], in any order, the list of patients is empty, and
    [_create_patient_loop] raises [IndexError] for every index, negative
    ones included, leaving the builder as it is. *)
Theorem patient_loop_always_raises v calls patient_index :
  _create_patient_loop patient_index (fst (replay (__init__ v) calls)) =
  (Raise IndexError, fst (replay (__init__ v) calls)).
Proof.
  unfold _create_patient_loop.
  rewrite (bind_returns (attr patients) _ _ (patients (fst (replay (__init__ v) calls))) _ eq_refl).
  apply bind_raises.
  rewrite replay_patients. cbn [patients __init__]. unfold lift, py_index, index.
  cbn [length]. destruct (0 <=? patient_index)%Z; [reflexivity |].
  destruct (0 <=? Z.of_nat 0 + patient_index)%Z; reflexivity.
Qed.

(** * The order of emission *)

Lemma bind_inv {A B} (m : M A) (k : A -> M B) self b self' :
  bind m k self = (Ok b, self') ->
  exists a self1, m self = (Ok a, self1) /\ k a self1 = (Ok b, self').
Proof.
  unfold bind. destruct (m self) as [[a|e] self1]; [|discriminate].
  intros H. now exists a, self1.
Qed.

Lemma for_each_in_turn {X} (body : X -> M (list string)) l self segs self' :
  for_each body l self = (Ok segs, self') ->
  exists parts,
    in_turn (fun x s part s' => body x s = (Ok part, s')) l self parts self' /\
    segs = concat parts.
Proof.
  revert self segs. induction l as [|x l IH]; intros self segs; cbn [for_each].
  - intros [= <- <-]. exists []. split; [constructor | reflexivity].
  - intros H. apply bind_inv in H as (part & self1 & Hx & H).
    apply bind_inv in H as (r & self2 & Hl & H). injection H as <- <-.
    apply IH in Hl as (parts & Hparts & ->).
    exists (part :: parts). split; [eapply in_turn_cons; [exact Hx | exact Hparts] | reflexivity].
Qed.

Lemma in_turn_impl {X B} (R R' : X -> EDI837Builder -> B -> EDI837Builder -> Prop)
    (I : EDI837Builder -> Prop) l self parts self' :
  (forall x s part s', I s -> R x s part s' -> R' x s part s' /\ I s') ->
  I self -> in_turn R l self parts self' -> in_turn R' l self parts self' /\ I self'.
Proof.
  intros HR Hself H. induction H as [self|x l self part self1 parts self' Hx _ IH].
  - split; [constructor | exact Hself].
  - destruct (HR _ _ _ _ Hself Hx) as [Hx' H1]. destruct (IH H1) as [Hl H'].
    split; [eapply in_turn_cons; [exact Hx' | exact Hl] | exact H'].
Qed.

Lemma build_subscriber_step i p self part self' :
  build_subscriber i p self = (Ok part, self') -> subscriber_step i p self part self'.
Proof.
  unfold build_subscriber, subscriber_step.
  destruct (Z.eqb _ _); [|now intros [= <- <-]].
  intros H. apply bind_inv in H as (loop & self1 & Hloop & H).
  apply bind_inv in H as (payer & self2 & Hpayer & H).
  assert (self2 = self1) as ->.
  { unfold opt_attr in Hpayer. destruct (payer_info self1); now injection Hpayer as _ <-. }
  exists loop, self1. split; [exact Hloop |].
  destruct (Nat.eqb _ _).
  - apply bind_inv in H as (seg & self3 & Hseg & H). injection H as <- <-.
    now exists seg.
  - now injection H as <- <-.
Qed.

Lemma build_provider_step st p self segs self' :
  store_of self = st ->
  build_provider p self = (Ok segs, self') ->
  store_of self' = st /\
  exists b, block_step p self b self' /\ block_ok st b /\ segs = block_segments b.
Proof.
  intros Hs H. unfold build_provider in H.
  apply bind_inv in H as (ps & self1 & Hps & H).
  apply bind_inv in H as (subs & s & Hsubs & H). unfold attr in Hsubs.
  injection Hsubs as <- <-.
  apply bind_inv in H as (ss & self2 & Hss & H).
  apply bind_inv in H as (cs & self3 & Hcs & H).
  apply bind_inv in H as (ls & self4 & Hls & H).
  apply bind_inv in H as (rps & s & Hrps & H). unfold attr in Hrps.
  injection Hrps as <- <-.
  apply bind_inv in H as (rs & self5 & Hrs & H). injection H as <- <-.
  assert (store_of self1 = st) as Hs1.
  { rewrite <- Hs. pose proof (proj1 (frame_billing_loop (fst p) self)) as Hf.
    now rewrite Hps in Hf. }
  assert (store_of self2 = st) as Hs2.
  { rewrite <- Hs1.
    pose proof (proj1 (frame_for_each (build_subscriber (fst p)) (enumerate (subscribers self1))
                         (fun x => frame_build_subscriber (fst p) x) self1)) as Hf.
    now rewrite Hss in Hf. }
  assert (store_of self3 = st) as Hs3.
  { rewrite <- Hs2. pose proof (proj1 (frame_claim_loop self2)) as Hf. now rewrite Hcs in Hf. }
  assert (store_of self4 = st) as Hs4.
  { rewrite <- Hs3. pose proof (proj1 (frame_service_lines self3)) as Hf.
    now rewrite Hls in Hf. }
  assert (subscribers self1 = subscribers self) as Hsub1
    by (change (subscribers (store_of self1) = subscribers (store_of self)); congruence).
  assert (runs _create_rendering_provider_segments self4 rs self5 /\
          rendering_part rs /\ store_of self5 = st) as (Hrs' & Hrpart & Hs5).
  { destruct (_ <? _)%nat eqn:E.
    - split; [exact Hrs |]. split.
      + pose proof (proj2 (rendering_providers_part st self4 Hs4)) as Hp.
        now rewrite Hrs in Hp.
      + rewrite <- Hs4. pose proof (proj1 (frame_rendering_providers self4)) as Hf.
        now rewrite Hrs in Hf.
    - injection Hrs as <- <-. split; [|split; [constructor | exact Hs4]].
      unfold runs, _create_rendering_provider_segments, bind, attr.
      apply Nat.ltb_ge in E. destruct (rendering_providers self4); [reflexivity |].
      cbn [length] in E. lia. }
  split; [exact Hs5 |].
  apply for_each_in_turn in Hss as (parts & Hparts & ->).
  assert (in_turn (subscriber_step (fst p)) (enumerate (subscribers self1)) self1 parts self2 /\
          True) as [Hturn _].
  { apply (in_turn_impl _ _ (fun _ => True) _ _ _ _) with (3 := Hparts); [|exact I].
    intros x s0 part s' _ Hx. split; [now apply build_subscriber_step | exact I]. }
  rewrite Hsub1 in Hturn.
  exists {| pb_provider := ps; pb_subscribers := concat parts; pb_claim := cs;
            pb_lines := ls; pb_rendering := rs |}.
  split; [|split; [|reflexivity]].
  - exists self1, parts, self2, self3, self4. now repeat split.
  - split.
    { pose proof (proj2 (billing_loop_part st (fst p) self Hs)) as Hp. now rewrite Hps in Hp. }
    split.
    { pose proof (triple_for_each st (build_subscriber (fst p)) (fun _ => subscriber_part)
                    (enumerate (subscribers self1))
                    (fun x _ => build_subscriber_part st (fst p) x) self1 Hs1) as [_ Hp].
      destruct (for_each (build_subscriber (fst p)) (enumerate (subscribers self1)) self1)
        as [[ss|e] s0] eqn:E.
      - cbn [fst on_ok] in Hp. destruct Hp as (parts' & Hparts' & Hc).
        apply Forall2_const_r in Hparts' as [Hparts' _].
        assert (concat parts = ss) as ->; [|rewrite Hc; now apply all_tagged_concat].
        clear -Hparts E. revert ss s0 E.
        induction Hparts as [s|x l s part s1 parts s' Hx _ IH]; intros ss s0 E.
        + cbn [for_each] in E. now injection E as <- _.
        + cbn [for_each] in E. unfold bind at 1 in E. rewrite Hx in E.
          unfold bind at 1 in E.
          destruct (for_each (build_subscriber (fst p)) l s1) as [[r|e] s2] eqn:El;
            [|discriminate E].
          injection E as <- _. cbn [concat]. f_equal. exact (IH _ _ eq_refl).
      - exfalso. clear -Hparts E. revert e s0 E.
        induction Hparts as [s|x l s part s1 parts s' Hx _ IH]; intros e s0 E.
        + discriminate E.
        + cbn [for_each] in E. unfold bind at 1 in E. rewrite Hx in E.
          unfold bind at 1 in E.
          destruct (for_each (build_subscriber (fst p)) l s1) as [[r|e'] s2] eqn:El;
            [discriminate E | exact (IH _ _ eq_refl)]. }
    split.
    { pose proof (proj2 (claim_loop_part st self2 Hs2)) as Hp. now rewrite Hcs in Hp. }
    split; [|exact Hrpart].
    pose proof (proj2 (service_lines_part st self3 Hs3)) as Hp. now rewrite Hls in Hp.
Qed.

Lemma providers_in_turn st l self segs self' :
  store_of self = st ->
  for_each build_provider l self = (Ok segs, self') ->
  exists blocks,
    in_turn block_step l self blocks self' /\
    Forall (block_ok st) blocks /\
    segs = concat (map block_segments blocks).
Proof.
  revert self segs. induction l as [|x l IH]; intros self segs Hs; cbn [for_each].
  - intros [= <- <-]. exists []. repeat split; constructor.
  - intros H. apply bind_inv in H as (part & self1 & Hx & H).
    apply bind_inv in H as (r & self2 & Hl & H). injection H as <- <-.
    destruct (build_provider_step st x self part self1 Hs Hx) as (Hs1 & b & Hb & Hok & ->).
    destruct (IH self1 r Hs1 Hl) as (blocks & Hblocks & Hoks & ->).
    exists (b :: blocks). split; [eapply in_turn_cons; [exact Hb | exact Hblocks] |].
    split; [now constructor | reflexivity].
Qed.

Lemma in_turn_length {X B} (R : X -> EDI837Builder -> B -> EDI837Builder -> Prop)
    l self parts self' :
  in_turn R l self parts self' -> length parts = length l.
Proof. induction 1; cbn [length]; congruence. Qed.

(** C3, amended: the output of [build()] is the header, one block per billing
    provider in the order in which the providers were added, and the
    trailer.  The block of a billing provider is what
    [_create_billing_provider_loop] returns for it, then, for the subscribers
    of the store in the order in which they were added, nothing for a
    subscriber attached to another provider and otherwise what
    [_create_subscriber_loop] returns for it (followed by the payer name
    segment for the first subscriber of the store), then what
    [_create_claim_information_loop] returns (CLM and what is attached to it;
    nothing without claim information), what [_create_service_lines] returns
    and what [_create_rendering_provider_segments] returns, in this order,
    each method being run on the builder that the call before it has left.
    The claim loop and the service-line loop are thus emitted once per
    billing provider: the output holds as many CLM segments as billing
    providers, and as many LX segments as billing providers times service
    lines. *)
Theorem claim_loops_once_per_billing_provider self segs :
  fst (build_segments self) = Ok segs ->
  exists blocks,
    in_turn block_step (enumerate (billing_providers self)) self blocks
      (snd (build_segments self)) /\
    length blocks = length (billing_providers self) /\
    Forall (block_ok self) blocks /\
    segs = (_create_header ++ concat (map block_segments blocks))
           ++ _create_trailer
                (Z.of_nat (length (_create_header ++ concat (map block_segments blocks))) - 1) /\
    count_tag "CLM" segs =
      match claim_information self with
      | Some _ => length (billing_providers self)
      | None => 0%nat
      end /\
    count_tag "LX" segs =
      (length (billing_providers self) * length (service_lines self))%nat.
Proof.
  intros H.
  assert (exists blocks,
             in_turn block_step (enumerate (billing_providers self)) self blocks
               (snd (build_segments self)) /\
             Forall (block_ok self) blocks /\
             segs = (_create_header ++ concat (map block_segments blocks))
                    ++ _create_trailer
                         (Z.of_nat (length (_create_header
                                            ++ concat (map block_segments blocks))) - 1))
    as (blocks & Hturn & Hok & ->).
  { unfold build_segments in *. unfold bind at 1 in H. unfold bind at 1.
    unfold attr at 1 in H. unfold attr at 1.
    destruct (for_each build_provider (enumerate (billing_providers self)) self)
      as [[body|e] self'] eqn:E.
    - rewrite (bind_returns _ _ _ _ _ E) in *. cbn [fst snd ret] in *. injection H as <-.
      destruct (providers_in_turn (store_of self) _ _ _ _ eq_refl E)
        as (blocks & Hturn & Hok & ->).
      exists blocks. now repeat split.
    - rewrite (bind_raises _ _ _ _ _ E) in H. discriminate H. }
  assert (length blocks = length (billing_providers self)) as Hlen.
  { apply in_turn_length in Hturn. unfold enumerate in Hturn.
    now rewrite enumerate_from_length in Hturn. }
  exists blocks. split; [exact Hturn |]. repeat split; [exact Hlen | exact Hok | |].
  - rewrite !count_tag_app.
    rewrite (count_tag_blocks "CLM"
               match claim_information self with Some _ => 1%nat | None => 0%nat end).
    + rewrite Hlen. change (count_tag "CLM" _create_header) with 0%nat.
      change (count_tag "CLM" (_create_trailer _)) with 0%nat.
      destruct (claim_information self); lia.
    + eapply List.Forall_impl; [|exact Hok]. intros b. apply count_tag_block_clm.
  - rewrite !count_tag_app.
    rewrite (count_tag_blocks "LX" (length (service_lines self))).
    + rewrite Hlen. change (count_tag "LX" _create_header) with 0%nat.
      change (count_tag "LX" (_create_trailer _)) with 0%nat. lia.
    + eapply List.Forall_impl; [|exact Hok]. intros b. apply count_tag_block_lx.
Qed.

Lemma claim_loops_once_per_billing_provider_witness :
  exists blocks,
    in_turn block_step (enumerate (billing_providers store_two_providers))
      store_two_providers blocks (snd (build_segments store_two_providers)) /\
    two_providers_segments =
      (_create_header ++ concat (map block_segments blocks))
      ++ _create_trailer
           (Z.of_nat (length (_create_header ++ concat (map block_segments blocks))) - 1) /\
    count_tag "CLM" two_providers_segments = 2%nat /\
    count_tag "LX" two_providers_segments = 2%nat.
Proof.
  destruct (claim_loops_once_per_billing_provider store_two_providers
              two_providers_segments)
    as (blocks & Hturn & _ & _ & Hsegs & Hclm & Hlx).
  - vm_compute. reflexivity.
  - exists blocks. split; [exact Hturn |]. split; [exact Hsegs |].
    split; [exact Hclm | exact Hlx].
Defined.

(** * Contacts *)

(** C10, counterexample: the second billing provider is the first call to
    give the name Ann with the phone number Lee_5550100; it is stored without
    its contact all the same, and its loop has no PER segment, because the
    contact of the first provider, Ann_Lee with 5550100, has the same key. *)
Lemma new_pair_loses_contact :
  ~ same_contact (contact_of "Ann" "Lee_5550100") (contact_of "Ann_Lee" "5550100") /\
  billing_providers (fresh_builder ops_colliding_contacts) !! 1%nat =
    Some {| bp_npi := "2222222222"; bp_taxonomyCode := "207Q00000X";
            bp_employerId := "987654321"; bp_address := elm_street;
            bp_name := Organization "Elm Clinic"; bp_contactInfo := None |} /\
  fst (_create_billing_provider_loop 1 (fresh_builder ops_colliding_contacts)) =
    Ok [ "HL*1**20*1~"; "PRV*BI*PXC*207Q00000X~"; "NM1*85*2*Elm Clinic*****XX*2222222222~";
         "N3*9 Elm St*~"; "N4*Shelbyville*IL*62565~"; "REF*EI*987654321~" ].
Proof.
  split; [|split].
  - intros [H _]. vm_compute in H. discriminate H.
  - vm_compute. reflexivity.
  - vm_compute. reflexivity.
Qed.

Lemma same_contact_same_key pre prev c c' :
  In prev pre -> supplied_contact prev = Some c' -> same_contact c c' ->
  key_supplied pre (contact_key c) = true.
Proof.
  intros Hin Hprev Hsame. unfold key_supplied. apply existsb_exists.
  exists prev. split; [exact Hin |]. rewrite Hprev.
  apply String.eqb_eq. symmetry. now apply contact_key_same.
Qed.

(** C10, amended: contacts are de-duplicated across the add calls by the key
    [name_phone)], not by the pair.  A later [add_billing_provider] keeps
    its [contactInfo], and the loop that [build()] emits for the provider
    has one PER segment, exactly when the dictionary is not empty and no
    earlier [add_submitter] or [add_billing_provider] has recorded a contact
    with the same key; otherwise the provider is stored without
    [contactInfo] and its loop has no PER segment.  So a contact whose name
    and phone number an earlier call has given is dropped, and a provider
    that keeps its contact is the first call to give that name and phone
    number; but a contact that is the first with its name and phone number
    is dropped as well when its key is the key of an earlier one. *)
Theorem contact_deduplicated_by_key pre post npi tc eid addr org l f contactInfo :
  billing_providers
    (fresh_builder (pre ++ [AddBillingProvider npi tc eid addr org l f contactInfo] ++ post))
    !! count_billing pre =
    Some {| bp_npi := npi; bp_taxonomyCode := tc; bp_employerId := eid;
            bp_address := addr;
            bp_name := if truthy org then Organization (fmt org) else Individual l f;
            bp_contactInfo := stored_contact pre contactInfo |} /\
  (forall pm,
      on_ok (fun segs =>
               count_tag "PER" segs =
               match stored_contact pre contactInfo with Some _ => 1%nat | None => 0%nat end)
        (fst (_create_billing_provider_loop (count_billing pre)
                (set_provider_map pm
                   (fresh_builder
                      (pre ++ [AddBillingProvider npi tc eid addr org l f contactInfo]
                           ++ post)))))) /\
  (forall prev c c',
      contactInfo = Some c -> In prev pre -> supplied_contact prev = Some c' ->
      same_contact c c' -> stored_contact pre contactInfo = None) /\
  (forall c,
      stored_contact pre contactInfo = Some c ->
      contactInfo = Some c /\
      forall prev c', In prev pre -> supplied_contact prev = Some c' -> ~ same_contact c c').
Proof.
  split; [apply stored_contact_spec |]. split; [|split].
  - intros pm.
    pose proof (billing_loop_contact_count
                  (set_provider_map pm
                     (fresh_builder
                        (pre ++ [AddBillingProvider npi tc eid addr org l f contactInfo] ++ post)))
                  (count_billing pre) _
                  (stored_contact_spec pre post npi tc eid addr org l f contactInfo)) as H.
    destruct (fst (_create_billing_provider_loop _ _)) as [segs|e]; [|exact I].
    cbn [on_ok] in *. rewrite H. unfold contact_segments. cbn [bp_contactInfo].
    now destruct (stored_contact pre contactInfo).
  - intros prev c c' -> Hin Hprev Hsame. unfold stored_contact.
    now rewrite (same_contact_same_key pre prev c c' Hin Hprev Hsame), andb_false_r.
  - intros c Hc. unfold stored_contact in Hc. destruct contactInfo as [c0|]; [|discriminate].
    destruct (dict_truthy (Some c0) && negb (key_supplied pre (contact_key c0))) eqn:E;
      [|discriminate].
    injection Hc as ->. split; [reflexivity |].
    intros prev c' Hin Hprev Hsame.
    rewrite (same_contact_same_key pre prev c c' Hin Hprev Hsame), andb_false_r in E.
    discriminate E.
Qed.

Lemma contact_deduplicated_by_key_witness :
  stored_contact [AddSubmitter (Some ruth)] (Some ruth) = None.
Proof.
  refine (proj1 (proj2 (proj2 (contact_deduplicated_by_key [AddSubmitter (Some ruth)] []
                                 "1234567890" "207Q00000X" "123456789" main_street
                                 (PStr "Acme Clinic") PNone PNone (Some ruth))))
            (AddSubmitter (Some ruth)) ruth ruth _ _ _ _).
  - reflexivity.
  - cbn [In]. tauto.
  - vm_compute. reflexivity.
  - split; reflexivity.
Defined.
